(** * Dental record cross-validation: a shallow embedding

    The development follows the Python sources:
    - [Code/pockets_snapshot.py] and [recessions_snapshots.py]: the pattern
      validator and the six-bucket patient classification;
    - [Code/cross_validation.py]: the missing-log parser, the per-row
      cross-validator ([record_cells]) and the aggregator
      ([aggregate_issues] / [aggregate_column]).

    Python [str] values are lists of characters; a character is a code point
    below 256 (type [ascii]).  A pandas cell is [option str]: [None] is NaN,
    [Some s] a value whose [str()] is [s]. *)

From Stdlib Require Import List Ascii String Bool Arith Lia Permutation Sorted.
Import ListNotations.

Set Implicit Arguments.

(** ** Strings and character classes *)

Definition str := list ascii.
Definition cell := option str.

Definition lit (s : string) : str := list_ascii_of_string s.

Definition code (c : ascii) : nat := nat_of_ascii c.

Definition between (lo hi n : nat) : bool := (lo <=? n) && (n <=? hi).

(** [\d] of the [re] module on [str] patterns: decimal digits. *)
Definition is_digit (c : ascii) : bool := between 48 57 (code c).

(** [\s] of the [re] module on [str] patterns, which is also what
    [str.strip()] removes: the characters on which [str.isspace] holds. *)
Definition is_space (c : ascii) : bool :=
  let n := code c in
  between 9 13 n || between 28 32 n || (n =? 133) || (n =? 160).

(** [\w] of the [re] module on [str] patterns: alphanumerics and [_]. *)
Definition is_word (c : ascii) : bool :=
  let n := code c in
  between 48 57 n || between 65 90 n || (n =? 95) || between 97 122 n
  || (n =? 170) || (n =? 178) || (n =? 179) || (n =? 181) || (n =? 185)
  || (n =? 186) || between 188 190 n || between 192 214 n
  || between 216 246 n || between 248 255 n.

Definition ascii_eqb (a b : ascii) : bool := Ascii.eqb a b.

Fixpoint str_eqb (a b : str) : bool :=
  match a, b with
  | [], [] => true
  | x :: a', y :: b' => ascii_eqb x y && str_eqb a' b'
  | _, _ => false
  end.

(** [s.startswith(p)] *)
Fixpoint startswith (p s : str) : bool :=
  match p, s with
  | [], _ => true
  | x :: p', y :: s' => ascii_eqb x y && startswith p' s'
  | _ :: _, [] => false
  end.

(** [p in s] for strings. *)
Fixpoint contains (p s : str) : bool :=
  startswith p s ||
  match s with
  | [] => false
  | _ :: s' => contains p s'
  end.

(** [s.lstrip()], [s.rstrip()], [s.strip()] *)
Fixpoint lstrip (s : str) : str :=
  match s with
  | c :: s' => if is_space c then lstrip s' else s
  | [] => []
  end.

Definition rstrip (s : str) : str := rev (lstrip (rev s)).

Definition strip (s : str) : str := rstrip (lstrip s).

(** ** Regular expressions

    The patterns of the sources are kept as data; [re_match] decides
    membership with Brzozowski derivatives. *)

Inductive regex : Type :=
| Void : regex
| Eps : regex
| Class : (ascii -> bool) -> regex
| Cat : regex -> regex -> regex
| Alt : regex -> regex -> regex
| Star : regex -> regex.

Inductive Matches : regex -> str -> Prop :=
| MEps : Matches Eps []
| MClass : forall p c, p c = true -> Matches (Class p) [c]
| MCat : forall a b s1 s2,
    Matches a s1 -> Matches b s2 -> Matches (Cat a b) (s1 ++ s2)
| MAltL : forall a b s, Matches a s -> Matches (Alt a b) s
| MAltR : forall a b s, Matches b s -> Matches (Alt a b) s
| MStarNil : forall a, Matches (Star a) []
| MStarApp : forall a s1 s2,
    Matches a s1 -> Matches (Star a) s2 -> Matches (Star a) (s1 ++ s2).

Fixpoint nullable (r : regex) : bool :=
  match r with
  | Void => false
  | Eps => true
  | Class _ => false
  | Cat a b => nullable a && nullable b
  | Alt a b => nullable a || nullable b
  | Star _ => true
  end.

Fixpoint deriv (c : ascii) (r : regex) : regex :=
  match r with
  | Void => Void
  | Eps => Void
  | Class p => if p c then Eps else Void
  | Cat a b =>
      if nullable a then Alt (Cat (deriv c a) b) (deriv c b)
      else Cat (deriv c a) b
  | Alt a b => Alt (deriv c a) (deriv c b)
  | Star a => Cat (deriv c a) (Star a)
  end.

Fixpoint re_match (r : regex) (s : str) : bool :=
  match s with
  | [] => nullable r
  | c :: s' => re_match (deriv c r) s'
  end.

(** Regex building blocks used by the sources. *)
Definition digit : regex := Class is_digit.
Definition space : regex := Class is_space.
Definition opt (r : regex) : regex := Alt r Eps.
Definition plus (r : regex) : regex := Cat r (Star r).
(** [r{1,2}] *)
Definition one_or_two (r : regex) : regex := Cat r (opt r).
(** [r{2}] *)
Definition twice (r : regex) : regex := Cat r r.

(** [compiled.match(s)] for a pattern of the form [^body$]: the body matches
    from the start, and [$] accepts the end of the string or the position
    before a final newline. *)
Definition newline : ascii := ascii_of_nat 10.

Definition py_match (body : regex) (s : str) : bool :=
  re_match body s ||
  match rev s with
  | c :: r => ascii_eqb c newline && re_match body (rev r)
  | [] => false
  end.

(** [pattern] of pockets_snapshot.py and [standard_pattern] of
    cross_validation.py: [^\s*\d{1,2}(?:\s{1,2}\d{1,2}){2}\s*$] *)
Definition pockets_body : regex :=
  Cat (Star space)
    (Cat (one_or_two digit)
       (Cat (twice (Cat (one_or_two space) (one_or_two digit)))
          (Star space))).

(** [pattern] of recessions_snapshots.py:
    [^\s*(\d{1,2})\s+(\d{1,2})\s+(\d{1,2})\s*$] *)
Definition recessions_body : regex :=
  Cat (Star space)
    (Cat (one_or_two digit)
       (Cat (plus space)
          (Cat (one_or_two digit)
             (Cat (plus space)
                (Cat (one_or_two digit) (Star space)))))).

Module Pockets.
Definition pattern_match (s : str) : bool := py_match pockets_body s.
End Pockets.

Module Recessions.
Definition pattern_match (s : str) : bool := py_match recessions_body s.
End Recessions.

(** [str(cell_value)]: NaN prints as [nan]. *)
Definition py_str (c : cell) : str :=
  match c with
  | Some s => s
  | None => lit "nan"
  end.

(** ** Outcomes of calls that may raise *)

Inductive exn : Type := ValueError | TypeError | KeyError.

Inductive outcome (A : Type) : Type :=
| Returned : A -> outcome A
| Raised : exn -> outcome A.

Arguments Returned {A} _.
Arguments Raised {A} _.

Definition bind {A B : Type} (m : outcome A) (k : A -> outcome B) : outcome B :=
  match m with
  | Returned a => k a
  | Raised e => Raised e
  end.

Notation "x <- m ;; k" := (bind m (fun x => k))
  (at level 61, m at next level, right associativity).

(** A comprehension [[f(x) for x in l]] whose body may raise. *)
Fixpoint for_each {A B : Type} (f : A -> outcome B) (l : list A)
  : outcome (list B) :=
  match l with
  | [] => Returned []
  | x :: l' => y <- f x ;; ys <- for_each f l' ;; Returned (y :: ys)
  end.

(** ** The visit table and the patient classifier
    (pockets_snapshot.py and recessions_snapshots.py, lines 14-94) *)

(** One row of the sheet: the patient, the chart date and the cells of the
    remaining columns, keyed by column label.  Every row names its patient:
    a row whose ResearchID cell is empty (NaN) is outside this model. *)
Record Row : Type := mkRow {
  ResearchID : nat;
  CHART_DATE : cell;
  values : list (str * cell)
}.

(** [row[col]]; every row of a data frame has every column of
    [column_range], NaN stands in where a label is not listed. *)
Fixpoint get (vs : list (str * cell)) (col : str) : cell :=
  match vs with
  | [] => None
  | (k, v) :: vs' => if str_eqb k col then v else get vs' col
  end.

Definition at_col (r : Row) (col : str) : cell := get (values r) col.

(** [pd.isna] / [pd.notna] on a cell. *)
Definition isna (c : cell) : bool :=
  match c with None => true | Some _ => false end.
Definition notna (c : cell) : bool := negb (isna c).

(** [Series.unique()]: first occurrences, in order. *)
Fixpoint unique (l : list nat) : list nat :=
  match l with
  | [] => []
  | x :: l' => x :: filter (fun y => negb (Nat.eqb y x)) (unique l')
  end.

(** [Series.isin(ids)] on one value. *)
Definition isin (ids : list nat) (p : nat) : bool := existsb (Nat.eqb p) ids.

(** [data['ResearchID'].unique()] *)
Definition ids_of (data : list Row) : list nat := unique (map ResearchID data).

(** [data[~data['ResearchID'].isin(ids)]] *)
Definition without (ids : list nat) (data : list Row) : list Row :=
  filter (fun r => negb (isin ids (ResearchID r))) data.

(** [data[data['ResearchID'] == research_id]] *)
Definition group_of (data : list Row) (research_id : nat) : list Row :=
  filter (fun r => Nat.eqb (ResearchID r) research_id) data.

(** [group[col].isna().all()] and [group[col].notna().all()] *)
Definition all_isna (group : list Row) (col : str) : bool :=
  forallb (fun r => isna (at_col r col)) group.
Definition all_notna (group : list Row) (col : str) : bool :=
  forallb (fun r => notna (at_col r col)) group.

Inductive PatientCategory : Type :=
| NoMissingData
| SystematicMissingData
| ConsistentMissingData
| InconsistentMissingData
| SingleObservationData
| Other.

Record Buckets : Type := mkBuckets {
  no_missing_data : list Row;
  systematic_missing_data : list Row;
  consistent_missing_data : list Row;
  inconsistent_missing_data : list Row;
  single_observation_data : list Row;
  remaining_data : list Row
}.

Definition bucket (b : Buckets) (c : PatientCategory) : list Row :=
  match c with
  | NoMissingData => no_missing_data b
  | SystematicMissingData => systematic_missing_data b
  | ConsistentMissingData => consistent_missing_data b
  | InconsistentMissingData => inconsistent_missing_data b
  | SingleObservationData => single_observation_data b
  | Other => remaining_data b
  end.

Definition all_categories : list PatientCategory :=
  [NoMissingData; SystematicMissingData; ConsistentMissingData;
   InconsistentMissingData; SingleObservationData; Other].

(** The patient has a row in the table. *)
Definition has_patient (data : list Row) (p : nat) : bool :=
  existsb (fun r => Nat.eqb (ResearchID r) p) data.

(** The [Data_Type] labels under which rows of patient [p] are written to
    the hand-off table ([pickle_df]). *)
Definition categories_of (b : Buckets) (p : nat) : list PatientCategory :=
  filter (fun c => has_patient (bucket b c) p) all_categories.

(** [data[column_range].replace(r'^\s*$', np.nan, regex=True)] on one row:
    empty and whitespace-only cells of the checked columns become NaN. *)
Definition blank_to_nan (c : cell) : cell :=
  match c with
  | Some s => if forallb is_space s then None else Some s
  | None => None
  end.

Section Classifier.

  (** The columns ['Tooth 18 B':'Tooth 28 P'] and the compiled [pattern]. *)
Variable column_range : list str.
Variable pattern_match : str -> bool.

Definition standardize (r : Row) : Row :=
    mkRow (ResearchID r) (CHART_DATE r)
      (map (fun kv =>
              if existsb (str_eqb (fst kv)) column_range
              then (fst kv, blank_to_nan (snd kv)) else kv)
         (values r)).

  (** Datatype 1 *)
Definition row_matches_pattern (row : Row) : bool :=
    forallb (fun col => pattern_match (py_str (at_col row col))) column_range.

  (** Datatype 2, pockets_snapshot.py *)
Fixpoint pockets_malformed_loop (row : Row) (cols : list str) : bool :=
    match cols with
    | [] => false
    | col :: rest =>
        let cell_value := at_col row col in
        if notna cell_value && negb (pattern_match (py_str cell_value))
        then true
        else pockets_malformed_loop row rest
    end.

  (** Datatype 2, recessions_snapshots.py *)
Fixpoint recessions_malformed_loop (row : Row) (cols : list str) : bool :=
    match cols with
    | [] => false
    | col :: rest =>
        let cell_value := at_col row col in
        if isna cell_value
           || match cell_value with Some s => str_eqb s [] | None => false end
        then recessions_malformed_loop row rest
        else if negb (pattern_match (py_str cell_value)) then true
             else recessions_malformed_loop row rest
    end.

  (** Which of the two [row_does_not_match_pattern] the script defines. *)
Variable row_does_not_match_pattern : Row -> bool.

  (** Datatype 3 *)
Fixpoint consistent_loop (group : list Row) (cols : list str) : bool :=
    match cols with
    | [] => true
    | col :: rest =>
        if all_isna group col then consistent_loop group rest
        else if negb (all_isna group col) && negb (all_notna group col)
             then false
             else consistent_loop group rest
    end.

Definition is_fully_consistent_missing_teeth
      (data : list Row) (row : Row) : bool :=
    let research_id := ResearchID row in
    let group := group_of data research_id in
    if List.length group <=? 1 then false
    else consistent_loop group column_range.

  (** Datatype 4 *)
Fixpoint inconsistent_loop (group : list Row) (cols : list str) : bool :=
    match cols with
    | [] => false
    | col :: rest =>
        if negb (all_isna group col) && negb (all_notna group col)
        then true
        else inconsistent_loop group rest
    end.

Definition is_inconsistent_missing_teeth
      (data : list Row) (row : Row) : bool :=
    let research_id := ResearchID row in
    let group := group_of data research_id in
    if List.length group <=? 1 then false
    else inconsistent_loop group column_range.

  (** Datatype 5: [data.groupby('ResearchID').filter(lambda x: len(x) == 1)] *)
Definition single_visit (data : list Row) (row : Row) : bool :=
    List.length (group_of data (ResearchID row)) =? 1.

  (** [pool[pool.apply(test, axis=1)]], followed by the reading of the
      'ResearchID' column of the selection.  On a pool without rows [apply]
      has no row to call [test] on and returns an empty Series of floats, not
      a boolean mask; indexing the pool by it keeps no column, and
      ['ResearchID'] then raises KeyError. *)
Definition select_rows (test : Row -> bool) (pool : list Row)
  : outcome (list Row) :=
    match pool with
    | [] => Raised KeyError
    | _ :: _ => Returned (filter test pool)
    end.

  (** The script from the standardisation of the cells to [remaining_data]:
      each bucket is selected from the current pool, then every row of the
      selected patients leaves the pool.  The first four selections go row
      by row; the fifth goes through [groupby], which accepts a pool without
      rows. *)
Definition classify (sheet : list Row) : outcome Buckets :=
    let data0 := map standardize sheet in
    no_missing <- select_rows row_matches_pattern data0 ;;
    let data1 := without (ids_of no_missing) data0 in
    systematic <- select_rows row_does_not_match_pattern data1 ;;
    let data2 := without (ids_of systematic) data1 in
    consistent <- select_rows (is_fully_consistent_missing_teeth data2) data2 ;;
    let data3 := without (ids_of consistent) data2 in
    inconsistent <- select_rows (is_inconsistent_missing_teeth data3) data3 ;;
    let data4 := without (ids_of inconsistent) data3 in
    let single := filter (single_visit data4) data4 in
    let data5 := without (ids_of single) data4 in
    Returned
      (mkBuckets no_missing systematic consistent inconsistent single data5).

  (** The six selections taken by their masks alone, and the pool in front
      of the fourth selection: [classify] returns [six_buckets] when that
      pool has a row and raises otherwise (lemma [classify_cases]). *)
Definition six_buckets (sheet : list Row) : Buckets :=
    let data0 := map standardize sheet in
    let no_missing := filter row_matches_pattern data0 in
    let data1 := without (ids_of no_missing) data0 in
    let systematic := filter row_does_not_match_pattern data1 in
    let data2 := without (ids_of systematic) data1 in
    let consistent := filter (is_fully_consistent_missing_teeth data2) data2 in
    let data3 := without (ids_of consistent) data2 in
    let inconsistent := filter (is_inconsistent_missing_teeth data3) data3 in
    let data4 := without (ids_of inconsistent) data3 in
    let single := filter (single_visit data4) data4 in
    let data5 := without (ids_of single) data4 in
    mkBuckets no_missing systematic consistent inconsistent single data5.

Definition fourth_pool (sheet : list Row) : list Row :=
    let data0 := map standardize sheet in
    let no_missing := filter row_matches_pattern data0 in
    let data1 := without (ids_of no_missing) data0 in
    let systematic := filter row_does_not_match_pattern data1 in
    let data2 := without (ids_of systematic) data1 in
    let consistent := filter (is_fully_consistent_missing_teeth data2) data2 in
    without (ids_of consistent) data2.

End Classifier.

Module PocketsClassifier.
Definition row_does_not_match_pattern (column_range : list str) (row : Row) :=
    pockets_malformed_loop Pockets.pattern_match row column_range.
Definition classify (column_range : list str) : list Row -> outcome Buckets :=
    classify column_range Pockets.pattern_match
      (row_does_not_match_pattern column_range).
End PocketsClassifier.

Module RecessionsClassifier.
Definition row_does_not_match_pattern (column_range : list str) (row : Row) :=
    recessions_malformed_loop Recessions.pattern_match row column_range.
Definition classify (column_range : list str) : list Row -> outcome Buckets :=
    classify column_range Recessions.pattern_match
      (row_does_not_match_pattern column_range).
End RecessionsClassifier.

(** ** Small matchers for the patterns with groups *)

(** [n] digits, then the rest. *)
Fixpoint take_digits (n : nat) (s : str) : option (str * str) :=
  match n with
  | O => Some ([], s)
  | S n' =>
      match s with
      | c :: s' =>
          if is_digit c then
            match take_digits n' s' with
            | Some (d, r) => Some (c :: d, r)
            | None => None
            end
          else None
      | [] => None
      end
  end.

(** A literal, then the rest. *)
Definition expect (p s : str) : option str :=
  if startswith p s then Some (skipn (List.length p) s) else None.

(** [(\d{1,2})] followed by the continuation [k]: two digits are tried
    first, one digit when the continuation fails after two. *)
Definition greedy_1_2 {X : Type} (k : str -> str -> option X) (s : str)
  : option X :=
  match (match take_digits 2 s with
         | Some (d, r) => k d r
         | None => None
         end) with
  | Some x => Some x
  | None =>
      match take_digits 1 s with
      | Some (d, r) => k d r
      | None => None
      end
  end.

(** Value of a run of digits, [int(s)]. *)
Definition digit_val (c : ascii) : nat := code c - 48.
Definition int_of (s : str) : nat :=
  fold_left (fun acc c => 10 * acc + digit_val c) s 0.

(** ** Dates *)

Record datetime : Type := mkDate { year : nat; month : nat; day : nat }.

Definition date_leb (a b : datetime) : bool :=
  (year a <? year b)
  || ((year a =? year b)
      && ((month a <? month b)
          || ((month a =? month b) && (day a <=? day b)))).

Definition is_leap (y : nat) : bool :=
  ((y mod 4 =? 0) && negb (y mod 100 =? 0)) || (y mod 400 =? 0).

Definition days_in_month (y m : nat) : nat :=
  match m with
  | 2 => if is_leap y then 29 else 28
  | 4 | 6 | 9 | 11 => 30
  | _ => 31
  end.

(** The month directive [%m]: [1[0-2]|0[1-9]|[1-9]], in that order. *)
Definition month_alternatives (s : str) : list (nat * str) :=
  match s with
  | a :: b :: r =>
      (if (code a =? 49) && between 48 50 (code b)
       then [(int_of [a; b], r)] else [])
      ++ (if (code a =? 48) && between 49 57 (code b)
          then [(int_of [a; b], r)] else [])
      ++ (if between 49 57 (code a) then [(int_of [a], b :: r)] else [])
  | [a] => if between 49 57 (code a) then [(int_of [a], [])] else []
  | [] => []
  end.

(** The day directive [%d]: [3[0-1]|[1-2]\d|0[1-9]|[1-9]| [1-9]]. *)
Definition day_alternatives (s : str) : list (nat * str) :=
  match s with
  | a :: b :: r =>
      (if (code a =? 51) && between 48 49 (code b)
       then [(int_of [a; b], r)] else [])
      ++ (if between 49 50 (code a) && is_digit b
          then [(int_of [a; b], r)] else [])
      ++ (if (code a =? 48) && between 49 57 (code b)
          then [(int_of [a; b], r)] else [])
      ++ (if between 49 57 (code a) then [(int_of [a], b :: r)] else [])
      ++ (if (code a =? 32) && between 49 57 (code b)
          then [(int_of [b], r)] else [])
  | [a] => if between 49 57 (code a) then [(int_of [a], [])] else []
  | [] => []
  end.

(** [datetime.strptime(s, '%Y-%m-%d')] of the standard library: the format
    is matched from the start with the first alternatives that succeed, no
    text may remain, and the fields must form a calendar date.  [None]
    stands for the [ValueError] it raises. *)
Definition strptime_ymd (s : str) : option datetime :=
  match take_digits 4 s with
  | Some (y, r0) =>
      match expect (lit "-") r0 with
      | Some r1 =>
          let found :=
            flat_map (fun mr =>
              match expect (lit "-") (snd mr) with
              | Some r2 =>
                  map (fun dr => (fst mr, fst dr, snd dr)) (day_alternatives r2)
              | None => []
              end) (month_alternatives r1) in
          match found with
          | (m, d, rest) :: _ =>
              match rest with
              | [] =>
                  if (1 <=? int_of y) && (1 <=? d)
                     && (d <=? days_in_month (int_of y) m)
                  then Some (mkDate (int_of y) m d)
                  else None
              | _ :: _ => None
              end
          | [] => None
          end
      | None => None
      end
  | None => None
  end.

(** ** The missing-log parser (cross_validation.py, lines 33-54) *)

(** One attempt of [\bT(\d{1,2})\b] at the head of [s], the character
    before [s] being a word character or not; returns the digits. *)
Definition at_boundary_after_word (r : str) : bool :=
  match r with
  | [] => true
  | c :: _ => negb (is_word c)
  end.

Definition match_tooth_code (prev_word : bool) (s : str) : option str :=
  if prev_word then None
  else
    match expect (lit "T") s with
    | Some r =>
        greedy_1_2 (fun d r' => if at_boundary_after_word r' then Some d else None) r
    | None => None
    end.

(** [re.sub(r'\bT(\d{1,2})\b', r'Tooth \1', text)]: left to right, the
    matched text is skipped once replaced. *)
Fixpoint sub_tooth_codes (prev_word : bool) (skip : nat) (s : str) : str :=
  match s with
  | [] => []
  | c :: s' =>
      match skip with
      | S k => sub_tooth_codes (is_word c) k s'
      | O =>
          match match_tooth_code prev_word s with
          | Some d => lit "Tooth " ++ d ++ sub_tooth_codes true (List.length d) s'
          | None => c :: sub_tooth_codes (is_word c) 0 s'
          end
      end
  end.

Definition replace_tooth_codes (text : str) : str :=
  sub_tooth_codes false 0 text.

(** One attempt of [(\d{4}-\d{2}-\d{2}) - Tooth (\d{1,2})] at the head of
    [s]: the two groups and the length of the matched text. *)
Definition match_entry (s : str) : option (str * str * nat) :=
  match take_digits 4 s with
  | Some (y, r0) =>
  match expect (lit "-") r0 with
  | Some r1 =>
  match take_digits 2 r1 with
  | Some (m, r2) =>
  match expect (lit "-") r2 with
  | Some r3 =>
  match take_digits 2 r3 with
  | Some (d, r4) =>
  match expect (lit " - Tooth ") r4 with
  | Some r5 =>
      greedy_1_2 (fun t _ =>
        Some (y ++ lit "-" ++ m ++ lit "-" ++ d, t, 19 + List.length t)) r5
  | None => None end
  | None => None end
  | None => None end
  | None => None end
  | None => None end
  | None => None end.

(** [re.findall(pattern, s)]: matches are taken left to right and do not
    overlap. *)
Fixpoint findall_entries (skip : nat) (s : str) : list (str * str) :=
  match s with
  | [] => []
  | _ :: s' =>
      match skip with
      | S k => findall_entries k s'
      | O =>
          match match_entry s with
          | Some (date, tooth, n) => (date, tooth) :: findall_entries (n - 1) s'
          | None => findall_entries 0 s'
          end
      end
  end.

Definition strptime (s : str) : outcome datetime :=
  match strptime_ymd s with
  | Some d => Returned d
  | None => Raised ValueError
  end.

(** [missing_issues] is a cell: [Some s] when it is a [str]. *)
Definition extract_missing_teeth_with_dates (missing_issues : cell)
  : outcome (list (datetime * str)) :=
  match missing_issues with
  | Some s =>
      let matches := findall_entries 0 s in
      for_each (fun dt => d <- strptime (fst dt) ;; Returned (d, snd dt)) matches
  | None => Returned []
  end.

(** The parser as [main] runs it: the tooth codes are rewritten when the
    narrative is a string, then the entries are extracted. *)
Definition missing_log_parser (missing_issues : cell)
  : outcome (list (datetime * str)) :=
  extract_missing_teeth_with_dates
    (match missing_issues with
     | Some x => Some (replace_tooth_codes x)
     | None => None
     end).

(** ** Ordering of strings, [sorted] and [join] *)

(** [a < b] on [str]: lexicographic by code point. *)
Fixpoint str_ltb (a b : str) : bool :=
  match a, b with
  | _, [] => false
  | [], _ :: _ => true
  | x :: a', y :: b' =>
      (code x <? code y) || ((code x =? code y) && str_ltb a' b')
  end.

Section Sorting.
Variable A : Type.
Variable key : A -> str.

Fixpoint insert_sorted (x : A) (l : list A) : list A :=
    match l with
    | [] => [x]
    | y :: l' =>
        if str_ltb (key x) (key y) then x :: l else y :: insert_sorted x l'
    end.

  (** [sorted(l)], comparing the [key] of the elements; stable. *)
Definition sorted (l : list A) : list A :=
    fold_right insert_sorted [] l.
End Sorting.

(** [sep.join(l)] *)
Fixpoint join (sep : str) (l : list str) : str :=
  match l with
  | [] => []
  | [x] => x
  | x :: l' => x ++ sep ++ join sep l'
  end.

(** [s.split(sep)] for a non-empty separator. *)
Fixpoint split_from (sep : str) (skip : nat) (cur : str) (s : str) : list str :=
  match s with
  | [] => [cur]
  | c :: s' =>
      match skip with
      | S k => split_from sep k cur s'
      | O =>
          if startswith sep s
          then cur :: split_from sep (List.length sep - 1) [] s'
          else split_from sep 0 (cur ++ [c]) s'
      end
  end.

Definition split (sep s : str) : list str := split_from sep 0 [] s.

(** ** The cross-validator (cross_validation.py, [record_cells]) *)

(** A row of [combined_df] as [record_cells] reads it. *)
Record Visit : Type := mkVisit {
  index : list (str * cell);
  chart : cell;
  missing_teeth_with_dates : list (datetime * str)
}.

(** The four sets of column labels collected for a row. *)
Record Labels : Type := mkLabels {
  missing_pockets_and_record : list str;
  missing_pockets_not_record : list str;
  missing_pockets_other_issue : list str;
  integer_error : list str
}.

Definition no_labels : Labels := mkLabels [] [] [] [].

(** [s.add(x)] on a set kept as a list without repetition. *)
Definition set_add (x : str) (s : list str) : list str :=
  if existsb (str_eqb x) s then s else s ++ [x].

(** [re.search(r'Tooth (\d{1,2})', col)], group 1. *)
Definition tooth_here (s : str) : option str :=
  match expect (lit "Tooth ") s with
  | Some r => greedy_1_2 (fun d _ => Some d) r
  | None => None
  end.

Fixpoint search_tooth (s : str) : option str :=
  match tooth_here s with
  | Some t => Some t
  | None =>
      match s with
      | [] => None
      | _ :: s' => search_tooth s'
      end
  end.

Definition standard_pattern_match (s : str) : bool := py_match pockets_body s.

(** [any(tooth == tooth_num and missing_date <= chart_date for ...)] *)
Definition is_missing_tooth (dates : list (datetime * str))
    (tooth_num : str) (chart_date : datetime) : bool :=
  existsb (fun e => str_eqb (snd e) tooth_num && date_leb (fst e) chart_date)
    dates.

(** [any(tooth == tooth_num for _, tooth in missing_teeth_dates)] *)
Definition tooth_in_log (dates : list (datetime * str)) (tooth_num : str)
  : bool :=
  existsb (fun e => str_eqb (snd e) tooth_num) dates.

(** The body of the loop over [row.index]. *)
Definition record_column (row : Visit) (chart_date : datetime)
    (acc : Labels) (col : str) : Labels :=
  if startswith (lit "Tooth") col
     && (contains (lit " P") col || contains (lit " B") col)
  then
    match search_tooth col with
    | None => acc
    | Some tooth_num =>
        let cell_value := get (index row) col in
        if notna cell_value && negb (standard_pattern_match (py_str cell_value))
        then mkLabels (missing_pockets_and_record acc)
               (missing_pockets_not_record acc)
               (missing_pockets_other_issue acc)
               (set_add col (integer_error acc))
        else if is_missing_tooth (missing_teeth_with_dates row) tooth_num chart_date
        then mkLabels (set_add col (missing_pockets_and_record acc))
               (missing_pockets_not_record acc)
               (missing_pockets_other_issue acc)
               (integer_error acc)
        else if isna cell_value
        then if negb (tooth_in_log (missing_teeth_with_dates row) tooth_num)
             then mkLabels (missing_pockets_and_record acc)
                    (set_add col (missing_pockets_not_record acc))
                    (missing_pockets_other_issue acc)
                    (integer_error acc)
             else mkLabels (missing_pockets_and_record acc)
                    (missing_pockets_not_record acc)
                    (set_add col (missing_pockets_other_issue acc))
                    (integer_error acc)
        else acc
    end
  else acc.

(** [datetime.strptime(row['CHART DATE'], '%Y-%m-%d')]: a NaN is not a
    string. *)
Definition parse_chart_date (c : cell) : outcome datetime :=
  match c with
  | Some s => strptime s
  | None => Raised TypeError
  end.

(** [record_cells(row, combined_df)]: the four sets it collects before
    writing them back. *)
Definition record_cells (row : Visit) : outcome Labels :=
  chart_date <- parse_chart_date (chart row) ;;
  Returned (fold_left (record_column row chart_date)
              (map fst (index row)) no_labels).

(** What is written into the four columns of [combined_df]. *)
Definition written (s : list str) : str :=
  join (lit ", ") (sorted (fun x => x) s).

(** [combined_df.apply(lambda row: record_cells(row, combined_df), axis=1)] *)
Definition record_all (rows : list Visit) : outcome (list Labels) :=
  for_each record_cells rows.

(** ** The aggregator (cross_validation.py, [aggregate_column]) *)

(** A Python dict keyed by strings, in insertion order. *)
Definition dict (V : Type) : Type := list (str * V).

Fixpoint dict_get {V : Type} (d : dict V) (k : str) : option V :=
  match d with
  | [] => None
  | (k', v) :: d' => if str_eqb k' k then Some v else dict_get d' k
  end.

Definition dict_mem {V : Type} (d : dict V) (k : str) : bool :=
  match dict_get d k with Some _ => true | None => false end.

Fixpoint dict_set {V : Type} (d : dict V) (k : str) (v : V) : dict V :=
  match d with
  | [] => [(k, v)]
  | (k', v') :: d' =>
      if str_eqb k' k then (k', v) :: d' else (k', v') :: dict_set d' k v
  end.

(** [re.match(r'Tooth (\d{1,2}) (P|B)', item)]: the groups. *)
Definition match_item (item : str) : option (str * str) :=
  match expect (lit "Tooth ") item with
  | Some r =>
      greedy_1_2 (fun tooth r' =>
        match expect (lit " ") r' with
        | Some (c :: _) =>
            if ascii_eqb c "P"%char || ascii_eqb c "B"%char
            then Some (tooth, [c]) else None
        | _ => None
        end) r
  | None => None
  end.

(** The body of [for item in entries]. *)
Definition record_item (date_str : str) (tooth_dict : dict (dict str))
    (item : str) : dict (dict str) :=
  match match_item (strip item) with
  | Some (tooth, side) =>
      let tooth_dict :=
        if negb (dict_mem tooth_dict tooth) then dict_set tooth_dict tooth []
        else tooth_dict in
      match dict_get tooth_dict tooth with
      | Some sides =>
          if negb (dict_mem sides side)
          then dict_set tooth_dict tooth (dict_set sides side date_str)
          else tooth_dict
      | None => tooth_dict
      end
  | None => tooth_dict
  end.

(** The body of [for _, row in unique_entries.iterrows()]. *)
Definition record_entries (tooth_dict : dict (dict str)) (row : str * str)
  : dict (dict str) :=
  let date_str := fst row in
  let entries := split (lit ", ") (snd row) in
  fold_left (record_item date_str) entries tooth_dict.

(** [group[['CHART DATE', column_name]].dropna()] *)
Fixpoint dropna (group : list (cell * cell)) : list (str * str) :=
  match group with
  | [] => []
  | (Some d, Some v) :: g => (d, v) :: dropna g
  | _ :: g => dropna g
  end.

Definition build_tooth_dict (group : list (cell * cell)) : dict (dict str) :=
  fold_left record_entries (dropna group) [].

Definition format_tooth (item : str * dict str) : list str :=
  let tooth := fst item in
  let sides := snd item in
  match dict_get sides (lit "P"), dict_get sides (lit "B") with
  | Some date_p, Some date_b =>
      if str_eqb date_p date_b
      then [lit "Tooth " ++ tooth ++ lit " - B & P - " ++ date_p]
      else [lit "Tooth " ++ tooth ++ lit " - (B - " ++ date_b
              ++ lit ") / (P - " ++ date_p ++ lit ")"]
  | Some date_p, None => [lit "Tooth " ++ tooth ++ lit " - Only P - " ++ date_p]
  | None, Some date_b => [lit "Tooth " ++ tooth ++ lit " - Only B - " ++ date_b]
  | None, None => []
  end.

(** [sorted(tooth_dict.items())] *)
Definition sorted_items (tooth_dict : dict (dict str)) : list (str * dict str) :=
  sorted (fun kv : str * dict str => fst kv) tooth_dict.

(** [s.strip(', ')]: commas and blanks removed at both ends. *)
Definition in_comma_blank (c : ascii) : bool :=
  ascii_eqb c ","%char || ascii_eqb c " "%char.

Fixpoint lstrip_chars (s : str) : str :=
  match s with
  | c :: s' => if in_comma_blank c then lstrip_chars s' else s
  | [] => []
  end.

Definition strip_chars (s : str) : str :=
  rev (lstrip_chars (rev (lstrip_chars s))).

(** [aggregate_column(column_name)] on the rows of one patient, each given
    by its ['CHART DATE'] and its value in the column. *)
Definition aggregate_column (group : list (cell * cell)) : str :=
  let tooth_dict := build_tooth_dict group in
  let formatted_teeth := flat_map format_tooth (sorted_items tooth_dict) in
  strip_chars (join (lit "<br>") formatted_teeth).

(** ** The pattern validator as the specification words it

    Three integers of one or two digits, separated by gaps of white space,
    and nothing else, once the text is trimmed. *)

Definition all_digits (s : str) : Prop := Forall (fun c => is_digit c = true) s.
Definition all_spaces (s : str) : Prop := Forall (fun c => is_space c = true) s.

Definition small_int (s : str) : Prop :=
  (List.length s = 1 \/ List.length s = 2) /\ all_digits s.

(** One or two white-space characters. *)
Definition gap_1_2 (s : str) : Prop :=
  (List.length s = 1 \/ List.length s = 2) /\ all_spaces s.

(** One or more white-space characters. *)
Definition gap_1_up (s : str) : Prop :=
  1 <= List.length s /\ all_spaces s.

Definition three_integers (gap : str -> Prop) (s : str) : Prop :=
  exists a g1 b g2 c,
    s = a ++ g1 ++ b ++ g2 ++ c
    /\ small_int a /\ gap g1 /\ small_int b /\ gap g2 /\ small_int c.

Definition well_formed_text (s : str) : Prop := three_integers gap_1_2 (strip s).

(** ** Running the classifier for one patient

    The categories of a patient are read from the six buckets once the run
    has delivered them; an error of the run is passed on. *)
Definition labels_for (classifier : list Row -> outcome Buckets)
    (sheet : list Row) (p : nat) : outcome (list PatientCategory) :=
  b <- classifier sheet ;; Returned (categories_of b p).

(** ** Sample sheets *)

Definition sample_columns : list str := [lit "Tooth 18 B"; lit "Tooth 18 P"].

Definition complete_visit (p : nat) (date : string) : Row :=
  mkRow p (Some (lit date))
    [(lit "Tooth 18 B", Some (lit "3 2 3")); (lit "Tooth 18 P", Some (lit "4 3 4"))].

Definition holed_visit (p : nat) (date : string) : Row :=
  mkRow p (Some (lit date))
    [(lit "Tooth 18 B", None); (lit "Tooth 18 P", Some (lit "4 3 4"))].

Definition garbled_visit (p : nat) (date : string) : Row :=
  mkRow p (Some (lit date))
    [(lit "Tooth 18 B", Some (lit "3 2")); (lit "Tooth 18 P", Some (lit "4 3 4"))].

(** Patient 1: a complete visit, then a visit with an absent cell.
    Patient 2: one visit with an absent cell. *)
Definition mixed_sheet : list Row :=
  [complete_visit 1 "2020-01-01"; holed_visit 1 "2020-06-01";
   holed_visit 2 "2020-02-02"].

Definition mixed_sheet_reordered : list Row :=
  [holed_visit 1 "2020-06-01"; complete_visit 1 "2020-01-01";
   holed_visit 2 "2020-02-02"].

(** Every patient has a complete visit. *)
Definition complete_sheet : list Row :=
  [complete_visit 1 "2020-01-01"; holed_visit 1 "2020-06-01";
   complete_visit 2 "2020-02-02"].

(** ** The four issue kinds of the cross-validator *)

Inductive Issue : Type :=
| ConfirmedMissingAndRecorded
| MissingNotRecorded
| MissingOtherIssue
| IntegerFormatError.

(** The set of a row that holds the columns with a given issue. *)
Definition labelled (l : Labels) (k : Issue) : list str :=
  match k with
  | ConfirmedMissingAndRecorded => missing_pockets_and_record l
  | MissingNotRecorded => missing_pockets_not_record l
  | MissingOtherIssue => missing_pockets_other_issue l
  | IntegerFormatError => integer_error l
  end.

(** The set a column is added to by one turn of the loop of
    [record_cells], if any: the tests of [record_column], in its order. *)
Definition verdict (row : Visit) (chart_date : datetime) (col : str)
  : option Issue :=
  if startswith (lit "Tooth") col
     && (contains (lit " P") col || contains (lit " B") col)
  then
    match search_tooth col with
    | None => None
    | Some tooth_num =>
        let cell_value := get (index row) col in
        if notna cell_value && negb (standard_pattern_match (py_str cell_value))
        then Some IntegerFormatError
        else if is_missing_tooth (missing_teeth_with_dates row) tooth_num chart_date
        then Some ConfirmedMissingAndRecorded
        else if isna cell_value
        then if negb (tooth_in_log (missing_teeth_with_dates row) tooth_num)
             then Some MissingNotRecorded
             else Some MissingOtherIssue
        else None
    end
  else None.

(** [col] is one of the columns the loop of [record_cells] looks at, for the
    tooth [tooth_num]. *)
Definition tooth_site_column (col tooth_num : str) : Prop :=
  startswith (lit "Tooth") col = true
  /\ (contains (lit " P") col || contains (lit " B") col) = true
  /\ search_tooth col = Some tooth_num.

(** [a < b] on dates. *)
Definition date_ltb (a b : datetime) : bool := negb (date_leb b a).

(** ** Sample visits *)

(** Tooth 18 garbled on side B although the log confirms it missing before
    the visit; tooth 17 absent and confirmed on the day of the visit; tooth
    16 absent and confirmed the day after; tooth 15 absent and not in the
    log. *)
Definition sample_visit : Visit :=
  mkVisit
    [(lit "ResearchID", Some (lit "1"));
     (lit "Tooth 18 B", Some (lit "3 2"));
     (lit "Tooth 17 B", None);
     (lit "Tooth 16 B", None);
     (lit "Tooth 15 B", None);
     (lit "Tooth 14 B", Some (lit "3 2 3"))]
    (Some (lit "2021-03-04"))
    [(mkDate 2020 1 1, lit "18"); (mkDate 2021 3 4, lit "17");
     (mkDate 2021 3 5, lit "16")].

Definition undated_visit : Visit :=
  mkVisit (index sample_visit) (Some (lit "04/03/2021"))
    (missing_teeth_with_dates sample_visit).

(** ** The first-occurrence law of the aggregator, in the specification's
    words *)

(** The date kept for a tooth and a side in [tooth_dict]. *)
Definition recorded_date (tooth_dict : dict (dict str)) (tooth side : str)
  : option str :=
  match dict_get tooth_dict tooth with
  | Some sides => dict_get sides side
  | None => None
  end.

(** An entry of a row names the tooth and the side. *)
Definition item_names (tooth side item : str) : bool :=
  match match_item (strip item) with
  | Some (t, s) => str_eqb t tooth && str_eqb s side
  | None => false
  end.

(** The row carries the issue for the tooth and the side. *)
Definition carries (tooth side : str) (row : str * str) : bool :=
  existsb (item_names tooth side) (split (lit ", ") (snd row)).

(** The date of the first row, in the order given, that carries the issue
    for the tooth and the side. *)
Definition first_date (group : list (cell * cell)) (tooth side : str)
  : option str :=
  option_map fst (find (carries tooth side) (dropna group)).

(** The sides recorded for a tooth include P or B. *)
Definition has_side (sides : dict str) : Prop :=
  dict_mem sides (lit "P") = true \/ dict_mem sides (lit "B") = true.

(** Ascending order of the keys, as strings and as numbers. *)
Definition key_le {A : Type} (key : A -> str) (a b : A) : Prop :=
  str_ltb (key b) (key a) = false.
Definition key_lt {A : Type} (key : A -> str) (a b : A) : Prop :=
  str_ltb (key a) (key b) = true.
Definition tooth_lt (a b : str * dict str) : Prop := key_lt fst a b.
Definition key_num_lt (a b : str * dict str) : Prop :=
  int_of (fst a) < int_of (fst b).

Definition two_digits (s : str) : Prop :=
  List.length s = 2 /\ all_digits s.

(** ** Sample groups for the aggregator *)

Definition cellS (s : string) : cell := Some (lit s).

(** Tooth 14 side B carries the issue at the first and the third visit. *)
Definition three_visits : list (cell * cell) :=
  [(cellS "2020-01-01", cellS "Tooth 14 B");
   (cellS "2020-06-01", cellS "");
   (cellS "2021-01-01", cellS "Tooth 14 B, Tooth 13 P")].

(** Labels of a sheet with a column for tooth 9. *)
Definition one_digit_visit : list (cell * cell) :=
  [(cellS "2020-01-01", cellS "Tooth 18 B, Tooth 9 B")].

(** ** The entries of the missing log, in the specification's words *)

Definition digits_n (n : nat) (s : str) : Prop :=
  List.length s = n /\ all_digits s.

(** A text of the form YYYY-MM-DD. *)
Definition date_text (d : str) : Prop :=
  exists y m dd,
    d = y ++ lit "-" ++ m ++ lit "-" ++ dd
    /\ digits_n 4 y /\ digits_n 2 m /\ digits_n 2 dd.

Definition starts_with_digit (s : str) : Prop :=
  exists c r, s = c :: r /\ is_digit c = true.

(** [s] begins with an entry: a date, the words [ - Tooth ] and a tooth
    number of one or two digits, two when two digits follow; [rest] is what
    comes after the entry. *)
Definition entry_at (s date tooth rest : str) : Prop :=
  s = date ++ lit " - Tooth " ++ tooth ++ rest
  /\ date_text date
  /\ small_int tooth
  /\ (List.length tooth = 2 \/ ~ starts_with_digit rest).

(** The entries of a text in order of appearance: the text is read from the
    left, an entry is taken where one begins and reading goes on after
    it. *)
Inductive Occurrences : str -> list (str * str) -> Prop :=
| occ_end : Occurrences [] []
| occ_skip : forall c s l,
    (forall date tooth rest, ~ entry_at (c :: s) date tooth rest) ->
    Occurrences s l -> Occurrences (c :: s) l
| occ_entry : forall s date tooth rest l,
    entry_at s date tooth rest ->
    Occurrences rest l -> Occurrences s ((date, tooth) :: l).

(** A narrative with two tooth codes, the later date first. *)
Definition two_codes : str := lit "2021-05-01 - T9, 2021-03-04 - T14".

(** ** One patient at a time

    The tests of the classification scripts, in their order, applied to the
    visits of a single patient. *)

Section OnePatient.

Variable column_range : list str.
Variable pattern_match : str -> bool.
Variable row_does_not_match_pattern : Row -> bool.

Definition fully_consistent_group (group : list Row) : bool :=
  if List.length group <=? 1 then false
  else consistent_loop group column_range.

Definition inconsistent_group (group : list Row) : bool :=
  if List.length group <=? 1 then false
  else inconsistent_loop group column_range.

Definition category_of_visits (visits : list Row) : PatientCategory :=
  if existsb (row_matches_pattern column_range pattern_match) visits
  then NoMissingData
  else if existsb row_does_not_match_pattern visits
  then SystematicMissingData
  else if fully_consistent_group visits then ConsistentMissingData
  else if inconsistent_group visits then InconsistentMissingData
  else if List.length visits =? 1 then SingleObservationData
  else Other.

End OnePatient.


(** ** The hand-off table (pockets_snapshot.py, lines 271-286) *)

(** The text written in the [Data_Type] column of a bucket. *)
Definition Data_Type (c : PatientCategory) : str :=
  match c with
  | NoMissingData => lit "No Missing Data"
  | SystematicMissingData => lit "Systematic Missing Data"
  | ConsistentMissingData => lit "Consistent Missing Data"
  | InconsistentMissingData => lit "Inconsistent Missing Data"
  | SingleObservationData => lit "Single Observation Data"
  | Other => lit "Other (Remaining Data)"
  end.

Definition with_data_type (c : PatientCategory) (rows : list Row)
  : list (Row * str) :=
  map (fun r => (r, Data_Type c)) rows.

(** [pd.concat([...], ignore_index=True)] of the six labelled buckets. *)
Definition pickle_df (b : Buckets) : list (Row * str) :=
  with_data_type NoMissingData (no_missing_data b)
  ++ with_data_type SystematicMissingData (systematic_missing_data b)
  ++ with_data_type ConsistentMissingData (consistent_missing_data b)
  ++ with_data_type InconsistentMissingData (inconsistent_missing_data b)
  ++ with_data_type SingleObservationData (single_observation_data b)
  ++ with_data_type Other (remaining_data b).

(** Two visits of patient 3 with the same absent cell, and one visit of
    patient 2. *)
Definition consistent_sheet : list Row :=
  [holed_visit 3 "2020-01-01"; holed_visit 3 "2020-03-01";
   holed_visit 2 "2020-02-02"].

(** ** [highlight_cells] (cross_validation.py, lines 169-221) *)

(** The value found in [row['CHART DATE']]. *)
Inductive pyobj : Type :=
| PyNone
| PyNaN
| PyStr (s : str).

Definition yellow : str := lit "background-color: #FFFF00".
Definition green : str := lit "background-color: green".
Definition orange : str := lit "background-color: orange".
Definition lightcoral : str := lit "background-color: lightcoral".

(** The style given to one column by the loop over [row.index]; columns
    the loop passes over keep the empty style. *)
Definition highlight_column (row_index : list (str * cell))
    (missing_teeth_dates : list (datetime * str)) (chart_date : datetime)
    (col : str) : str :=
  if startswith (lit "Tooth") col
     && (contains (lit " P") col || contains (lit " B") col)
  then
    match search_tooth col with
    | None => []
    | Some tooth_num =>
        let cell_value := get row_index col in
        if notna cell_value && negb (standard_pattern_match (py_str cell_value))
        then yellow
        else
          let is_missing := is_missing_tooth missing_teeth_dates tooth_num chart_date in
          if is_missing then green
          else if isna cell_value
          then if is_missing then orange else lightcoral
          else []
    end
  else [].

(** [highlight_cells(full_df, index)] on the row [full_df.loc[index]]: one
    style per label of the row. *)
Definition highlight_cells (row_index : list (str * cell))
    (chart_date_str : pyobj) (missing_teeth_dates : list (datetime * str))
  : outcome (list (str * str)) :=
  match chart_date_str with
  | PyNone => Returned (map (fun kv => (fst kv, [])) row_index)
  | PyNaN => Raised TypeError
  | PyStr s =>
      chart_date <- strptime s ;;
      Returned
        (map (fun kv =>
                (fst kv,
                 highlight_column row_index missing_teeth_dates chart_date (fst kv)))
           row_index)
  end.

(** The colour that goes with each set of [record_cells]. *)
Definition style_of (v : option Issue) : str :=
  match v with
  | Some IntegerFormatError => yellow
  | Some ConfirmedMissingAndRecorded => green
  | Some MissingNotRecorded => lightcoral
  | Some MissingOtherIssue => lightcoral
  | None => []
  end.

(** ** [add_line_breaks] (cross_validation.py, lines 223-231) *)

Definition add_line_breaks (text : cell) : cell :=
  match text with
  | Some s => Some (join (lit "<br>") (split (lit ", ") s))
  | None => None
  end.

Definition comma : ascii := ","%char.

(** The text has no comma. *)
Definition comma_free (s : str) : Prop := ~ In comma s.

(** A later visit of the sample patient: same cells and log, dated
    2021-09-09. *)
Definition later_visit : Visit :=
  mkVisit (index sample_visit) (Some (lit "2021-09-09"))
    (missing_teeth_with_dates sample_visit).

(** The text has no capital T, and no digit. *)
Definition letter_T : ascii := "T"%char.
Definition T_free (s : str) : Prop := ~ In letter_T s.
Definition digit_free (s : str) : Prop := Forall (fun c => is_digit c = false) s.

(** ** The summaries of [main] (cross_validation.py, lines 158-167 and
    693-701) *)

(** A row of [combined_df] once [record_cells] has written its four texts. *)
Record IssueRow : Type := mkIssueRow {
  row_date : cell;
  recorded_text : cell;
  not_recorded_text : cell;
  other_issue_text : cell;
  integer_text : cell
}.

(** The four fields of the series returned by [aggregate_issues]. *)
Record IssueSummary : Type := mkIssueSummary {
  likely_missing : str;
  not_in_report : str;
  other_issues : str;
  incomplete_integers : str
}.

(** [group[['CHART DATE', column_name]]] *)
Definition column_of (field : IssueRow -> cell) (group : list IssueRow)
  : list (cell * cell) :=
  map (fun r => (row_date r, field r)) group.

Definition aggregate_issues (group : list IssueRow) : IssueSummary :=
  mkIssueSummary
    (aggregate_column (column_of recorded_text group))
    (aggregate_column (column_of not_recorded_text group))
    (aggregate_column (column_of other_issue_text group))
    (aggregate_column (column_of integer_text group)).

(** The row filter of the summary report:
    [cols.apply(lambda x: x.str.strip() != '').any(axis=1)] over the three
    columns it names. *)
Definition in_summary_report (s : IssueSummary) : bool :=
  negb (str_eqb (strip (not_in_report s)) [])
  || negb (str_eqb (strip (other_issues s)) [])
  || negb (str_eqb (strip (incomplete_integers s)) []).

(** ** Chart dates as [main] prepares them (cross_validation.py, lines
    679-680) *)

Definition digit_char (n : nat) : ascii := ascii_of_nat (48 + n mod 10).

Definition pad2 (n : nat) : str := [digit_char (n / 10); digit_char n].

Definition pad4 (n : nat) : str :=
  [digit_char (n / 1000); digit_char (n / 100); digit_char (n / 10);
   digit_char n].

(** [Series.dt.strftime('%Y-%m-%d')] on one timestamp; the years a pandas
    timestamp can hold have four digits. *)
Definition strftime_ymd (d : datetime) : str :=
  pad4 (year d) ++ lit "-" ++ pad2 (month d) ++ lit "-" ++ pad2 (day d).

(** A calendar date with a four-digit year. *)
Definition calendar_date (d : datetime) : Prop :=
  1000 <= year d < 10 * 1000
  /\ 1 <= month d <= 12
  /\ 1 <= day d <= days_in_month (year d) (month d).

(** A patient with one visit whose not-recorded text names tooth 15. *)
Definition flagged_group : list IssueRow :=
  [mkIssueRow (cellS "2021-03-04") (cellS "Tooth 17 B") (cellS "Tooth 15 B")
     (cellS "") (cellS "")].

(** The matches of the month and day directives on the text that follows
    the year and its dash, as [strptime_ymd] lists them. *)
Definition month_day_matches (r1 : str) : list (nat * nat * str) :=
  flat_map (fun mr =>
    match expect (lit "-") (snd mr) with
    | Some r2 => map (fun dr => (fst mr, fst dr, snd dr)) (day_alternatives r2)
    | None => []
    end) (month_alternatives r1).

(** The first match of a written month and day is that month and day, with
    nothing left. *)
Definition first_match_is (m dd : nat) : bool :=
  match month_day_matches (pad2 m ++ lit "-" ++ pad2 dd) with
  | (m', d', []) :: _ => (m' =? m) && (d' =? dd)
  | _ => false
  end.

(** ** From the label sets to the aggregated dates *)

(** The rows the aggregator receives for one issue kind when each visit,
    given with the text of its chart date, carries the written form of its
    set of labels. *)
Definition written_rows (visits : list (str * list str)) : list (cell * cell) :=
  map (fun v => (Some (fst v), Some (written (snd v)))) visits.

(** Three visits; tooth 14 side B is in the set at the first and the
    third. *)
Definition labelled_visits : list (str * list str) :=
  [(lit "2020-01-01", [lit "Tooth 14 B"]);
   (lit "2020-06-01", []);
   (lit "2021-01-01", [lit "Tooth 14 B"; lit "Tooth 13 P"])].

(** * Properties *)

(** ** Strings *)

Lemma ascii_eqb_eq (a b : ascii) : ascii_eqb a b = true <-> a = b.
Proof. unfold ascii_eqb. apply Ascii.eqb_eq. Qed.

Lemma str_eqb_eq (a b : str) : str_eqb a b = true <-> a = b.
Proof.
  revert b. induction a as [|x a IH]; intros [|y b]; simpl; split; intro H;
    try reflexivity; try discriminate.
  - apply andb_true_iff in H. destruct H as [H1 H2].
    apply ascii_eqb_eq in H1. apply IH in H2. congruence.
  - inversion H; subst. apply andb_true_iff. split.
    + now apply ascii_eqb_eq.
    + now apply IH.
Qed.

Lemma str_eqb_refl (a : str) : str_eqb a a = true.
Proof. now apply str_eqb_eq. Qed.

Lemma str_eqb_neq (a b : str) : str_eqb a b = false <-> a <> b.
Proof.
  split; intro H.
  - intro E. apply str_eqb_eq in E. congruence.
  - destruct (str_eqb a b) eqn:E; [|reflexivity].
    apply str_eqb_eq in E. contradiction.
Qed.

(** ** The derivative matcher decides [Matches] *)

Lemma nullable_spec (r : regex) : nullable r = true <-> Matches r [].
Proof.
  induction r; simpl; split; intro H; try discriminate; try reflexivity.
  - inversion H.
  - constructor.
  - inversion H.
  - apply andb_true_iff in H. destruct H as [H1 H2].
    change (@nil ascii) with (@nil ascii ++ []).
    constructor; [now apply IHr1 | now apply IHr2].
  - inversion H; subst.
    match goal with E : _ ++ _ = [] |- _ => apply app_eq_nil in E; destruct E; subst end.
    apply andb_true_iff. split; [now apply IHr1 | now apply IHr2].
  - apply orb_true_iff in H. destruct H as [H|H].
    + apply MAltL. now apply IHr1.
    + apply MAltR. now apply IHr2.
  - apply orb_true_iff. inversion H; subst; [left; now apply IHr1 | right; now apply IHr2].
  - constructor.
Qed.

Lemma star_cons_inv (a : regex) (c : ascii) (s : str) :
  Matches (Star a) (c :: s) ->
  exists s1 s2, s = s1 ++ s2 /\ Matches a (c :: s1) /\ Matches (Star a) s2.
Proof.
  intro H. remember (Star a) as r eqn:Er. remember (c :: s) as w eqn:Ew.
  revert Er Ew. induction H; intros Er Ew; try discriminate.
  inversion Er; subst a0. destruct s1 as [|x s1].
  - simpl in Ew. now apply IHMatches2.
  - simpl in Ew. inversion Ew; subst. exists s1, s2. auto.
Qed.

Lemma deriv_spec (r : regex) (c : ascii) (s : str) :
  Matches (deriv c r) s <-> Matches r (c :: s).
Proof.
  revert s. induction r; intro s; simpl.
  - split; intro H; inversion H.
  - split; intro H; inversion H.
  - destruct (b c) eqn:E; split; intro H; inversion H; subst.
    + now constructor.
    + constructor.
    + congruence.
  - destruct (nullable r1) eqn:N.
    + split; intro H.
      * inversion H; subst.
        -- match goal with M : Matches (Cat _ _) _ |- _ => inversion M; subst end.
           change (c :: s1 ++ s2) with ((c :: s1) ++ s2).
           constructor; [now apply IHr1 | assumption].
        -- change (c :: s) with ([] ++ c :: s).
           constructor; [now apply nullable_spec | now apply IHr2].
      * inversion H; subst. destruct s1 as [|x s1]; simpl in *.
        -- subst. apply MAltR. now apply IHr2.
        -- match goal with E : _ :: _ = _ :: _ |- _ => inversion E; subst end.
           apply MAltL. constructor; [now apply IHr1 | assumption].
    + split; intro H.
      * inversion H; subst.
        change (c :: s1 ++ s2) with ((c :: s1) ++ s2).
        constructor; [now apply IHr1 | assumption].
      * inversion H; subst. destruct s1 as [|x s1]; simpl in *.
        -- match goal with M : Matches r1 [] |- _ => apply nullable_spec in M end.
           congruence.
        -- match goal with E : _ :: _ = _ :: _ |- _ => inversion E; subst end.
           constructor; [now apply IHr1 | assumption].
  - split; intro H; inversion H; subst.
    + apply MAltL. now apply IHr1.
    + apply MAltR. now apply IHr2.
    + apply MAltL. now apply IHr1.
    + apply MAltR. now apply IHr2.
  - split; intro H.
    + inversion H; subst.
      change (c :: s1 ++ s2) with ((c :: s1) ++ s2).
      apply MStarApp; [now apply IHr | assumption].
    + apply star_cons_inv in H. destruct H as (s1 & s2 & E & H1 & H2). subst.
      constructor; [now apply IHr | assumption].
Qed.

Lemma re_match_spec (r : regex) (s : str) : re_match r s = true <-> Matches r s.
Proof.
  revert r. induction s as [|c s IH]; intro r; simpl.
  - apply nullable_spec.
  - rewrite IH. apply deriv_spec.
Qed.

(** ** Shapes of the regular expressions used by the patterns *)

Lemma Matches_cat (a b : regex) (s : str) :
  Matches (Cat a b) s <->
  exists s1 s2, s = s1 ++ s2 /\ Matches a s1 /\ Matches b s2.
Proof.
  split.
  - intro H. inversion H; subst. eauto.
  - intros (s1 & s2 & -> & H1 & H2). now constructor.
Qed.

Lemma Matches_class (p : ascii -> bool) (s : str) :
  Matches (Class p) s <-> exists c, s = [c] /\ p c = true.
Proof.
  split.
  - intro H. inversion H; subst. eauto.
  - intros (c & -> & H). now constructor.
Qed.

Lemma Matches_star_class (p : ascii -> bool) (s : str) :
  Matches (Star (Class p)) s <-> Forall (fun c => p c = true) s.
Proof.
  split.
  - intro H. remember (Star (Class p)) as r eqn:E. induction H; try discriminate.
    + constructor.
    + inversion E; subst. inversion H; subst. simpl. constructor; auto.
  - induction 1 as [|c s Hc Hs IH].
    + constructor.
    + change (c :: s) with ([c] ++ s). apply MStarApp; [now constructor | assumption].
Qed.

Lemma Matches_one_or_two (p : ascii -> bool) (s : str) :
  Matches (one_or_two (Class p)) s <->
  (List.length s = 1 \/ List.length s = 2) /\ Forall (fun c => p c = true) s.
Proof.
  unfold one_or_two, opt. split.
  - intro H. inversion H; subst.
    match goal with M : Matches (Class _) _ |- _ => inversion M; subst end.
    match goal with M : Matches (Alt _ _) _ |- _ => inversion M; subst end.
    + match goal with M : Matches (Class _) s2 |- _ => inversion M; subst end.
      simpl. split; [now right | repeat constructor; assumption].
    + match goal with M : Matches Eps _ |- _ => inversion M; subst end.
      simpl. split; [now left | repeat constructor; assumption].
  - intros [[L|L] F].
    + destruct s as [|c [|d s]]; try discriminate. inversion F; subst.
      change [c] with ([c] ++ []). constructor; [now constructor|].
      apply MAltR. constructor.
    + destruct s as [|c [|d [|e s]]]; try discriminate.
      inversion F as [|? ? Hc F']; subst. inversion F'; subst.
      change [c; d] with ([c] ++ [d]). constructor; [now constructor|].
      apply MAltL. now constructor.
Qed.

Lemma Matches_plus_class (p : ascii -> bool) (s : str) :
  Matches (plus (Class p)) s <->
  1 <= List.length s /\ Forall (fun c => p c = true) s.
Proof.
  unfold plus. rewrite Matches_cat. split.
  - intros (s1 & s2 & -> & H1 & H2). apply Matches_class in H1.
    destruct H1 as (c & -> & Hc). apply Matches_star_class in H2.
    simpl. split; [lia | now constructor].
  - intros [L F]. destruct s as [|c s]; [simpl in L; lia|].
    inversion F; subst. exists [c], s. split; [reflexivity|]. split.
    + now constructor.
    + now apply Matches_star_class.
Qed.

(** ** Trimming *)

Lemma digit_not_space (c : ascii) : is_digit c = true -> is_space c = false.
Proof.
  destruct c as [[] [] [] [] [] [] [] []]; vm_compute; congruence.
Qed.

Lemma lstrip_spaces (w s : str) : all_spaces w -> lstrip (w ++ s) = lstrip s.
Proof.
  induction 1 as [|c w Hc Hw IH]; simpl; [reflexivity|]. now rewrite Hc.
Qed.

Lemma lstrip_head (c : ascii) (s : str) :
  is_space c = false -> lstrip (c :: s) = c :: s.
Proof. intro H. simpl. now rewrite H. Qed.

Lemma lstrip_split (s : str) :
  exists w, s = w ++ lstrip s /\ all_spaces w.
Proof.
  induction s as [|c s (w & E & F)]; simpl.
  - exists []. split; [reflexivity | constructor].
  - destruct (is_space c) eqn:Hc.
    + exists (c :: w). split; [simpl; congruence | now constructor].
    + exists []. split; [reflexivity | constructor].
Qed.

Lemma all_spaces_rev (w : str) : all_spaces w -> all_spaces (rev w).
Proof.
  unfold all_spaces. rewrite !Forall_forall. intros H x Hx.
  apply H. now apply in_rev.
Qed.

Lemma strip_core (w1 core w2 : str) (x y : ascii) (mid1 mid2 : str) :
  all_spaces w1 -> all_spaces w2 ->
  core = x :: mid1 -> core = mid2 ++ [y] ->
  is_space x = false -> is_space y = false ->
  strip (w1 ++ core ++ w2) = core.
Proof.
  intros F1 F2 E1 E2 Hx Hy.
  assert (L : lstrip (w1 ++ core ++ w2) = core ++ w2).
  { rewrite lstrip_spaces by assumption. rewrite E1. simpl. now rewrite Hx. }
  unfold strip, rstrip. rewrite L, rev_app_distr.
  rewrite lstrip_spaces by now apply all_spaces_rev.
  rewrite E2, rev_app_distr. simpl. rewrite Hy. simpl.
  now rewrite rev_involutive.
Qed.

Lemma strip_split (s : str) :
  exists w1 w2, s = w1 ++ strip s ++ w2 /\ all_spaces w1 /\ all_spaces w2.
Proof.
  destruct (lstrip_split s) as (w1 & E1 & F1).
  destruct (lstrip_split (rev (lstrip s))) as (w & E2 & F2).
  exists w1, (rev w). split; [|split; [assumption | now apply all_spaces_rev]].
  unfold strip, rstrip. rewrite <- rev_app_distr, <- E2, rev_involutive.
  exact E1.
Qed.

(** ** The two patterns *)

Lemma small_int_ends (a : str) :
  small_int a ->
  (exists x m, a = x :: m /\ is_space x = false)
  /\ (exists m y, a = m ++ [y] /\ is_space y = false).
Proof.
  intros [[L|L] F].
  - destruct a as [|x [|? ?]]; try discriminate. inversion F; subst.
    split; [exists x, [] | exists [], x]; split; auto using digit_not_space.
  - destruct a as [|x [|y [|? ?]]]; try discriminate.
    inversion F as [|? ? Hx F']; subst. inversion F'; subst.
    split; [exists x, [y] | exists [x], y]; split; auto using digit_not_space.
Qed.

Lemma three_integers_ends (gap : str -> Prop) (s : str) :
  three_integers gap s ->
  (exists x m, s = x :: m /\ is_space x = false)
  /\ (exists m y, s = m ++ [y] /\ is_space y = false).
Proof.
  intros (a & g1 & b & g2 & c & -> & Ha & _ & _ & _ & Hc).
  destruct (small_int_ends Ha) as [(x & m & -> & Hx) _].
  destruct (small_int_ends Hc) as [_ (m' & y & -> & Hy)].
  split.
  - exists x, (m ++ g1 ++ b ++ g2 ++ m' ++ [y]). split; [reflexivity | assumption].
  - exists ((x :: m) ++ g1 ++ b ++ g2 ++ m'), y. split; [|assumption].
    now rewrite <- !app_assoc.
Qed.

Lemma strip_three_integers (gap : str -> Prop) (w1 core w2 : str) :
  all_spaces w1 -> all_spaces w2 -> three_integers gap core ->
  strip (w1 ++ core ++ w2) = core.
Proof.
  intros F1 F2 H.
  destruct (three_integers_ends H) as [(x & m & E1 & Hx) (m' & y & E2 & Hy)].
  eapply strip_core; eauto.
Qed.

Lemma pockets_body_shape (s : str) :
  Matches pockets_body s <->
  exists w1 core w2,
    s = w1 ++ core ++ w2 /\ all_spaces w1 /\ all_spaces w2
    /\ three_integers gap_1_2 core.
Proof.
  unfold pockets_body, twice, space, digit. split.
  - intro H.
    apply Matches_cat in H. destruct H as (w1 & r1 & -> & Hw1 & H).
    apply Matches_cat in H. destruct H as (a & r2 & -> & Ha & H).
    apply Matches_cat in H. destruct H as (r3 & w2 & -> & H & Hw2).
    apply Matches_cat in H. destruct H as (p1 & p2 & -> & Hp1 & Hp2).
    apply Matches_cat in Hp1. destruct Hp1 as (g1 & b & -> & Hg1 & Hb).
    apply Matches_cat in Hp2. destruct Hp2 as (g2 & c & -> & Hg2 & Hc).
    apply Matches_star_class in Hw1, Hw2.
    apply Matches_one_or_two in Ha, Hb, Hc, Hg1, Hg2.
    exists w1, (a ++ g1 ++ b ++ g2 ++ c), w2.
    split; [now rewrite <- !app_assoc|].
    split; [assumption|]. split; [assumption|].
    exists a, g1, b, g2, c. unfold small_int, gap_1_2, all_digits, all_spaces. tauto.
  - intros (w1 & core & w2 & -> & F1 & F2 & a & g1 & b & g2 & c & -> & Ha & Hg1 & Hb & Hg2 & Hc).
    apply Matches_cat. exists w1, ((a ++ g1 ++ b ++ g2 ++ c) ++ w2).
    split; [reflexivity|]. split; [now apply Matches_star_class|].
    apply Matches_cat. exists a, ((g1 ++ b ++ g2 ++ c) ++ w2).
    split; [now rewrite <- !app_assoc|]. split; [now apply Matches_one_or_two|].
    apply Matches_cat. exists (g1 ++ b ++ g2 ++ c), w2.
    split; [reflexivity|]. split; [|now apply Matches_star_class].
    apply Matches_cat. exists (g1 ++ b), (g2 ++ c).
    split; [now rewrite <- !app_assoc|].
    split; apply Matches_cat; eexists; eexists; (split; [reflexivity|]);
      split; now apply Matches_one_or_two.
Qed.

Lemma recessions_body_shape (s : str) :
  Matches recessions_body s <->
  exists w1 core w2,
    s = w1 ++ core ++ w2 /\ all_spaces w1 /\ all_spaces w2
    /\ three_integers gap_1_up core.
Proof.
  unfold recessions_body, space, digit. split.
  - intro H.
    apply Matches_cat in H. destruct H as (w1 & r1 & -> & Hw1 & H).
    apply Matches_cat in H. destruct H as (a & r2 & -> & Ha & H).
    apply Matches_cat in H. destruct H as (g1 & r3 & -> & Hg1 & H).
    apply Matches_cat in H. destruct H as (b & r4 & -> & Hb & H).
    apply Matches_cat in H. destruct H as (g2 & r5 & -> & Hg2 & H).
    apply Matches_cat in H. destruct H as (c & w2 & -> & Hc & Hw2).
    apply Matches_star_class in Hw1, Hw2.
    apply Matches_one_or_two in Ha, Hb, Hc.
    apply Matches_plus_class in Hg1, Hg2.
    exists w1, (a ++ g1 ++ b ++ g2 ++ c), w2.
    split; [now rewrite <- !app_assoc|].
    split; [assumption|]. split; [assumption|].
    exists a, g1, b, g2, c. unfold small_int, gap_1_up, all_digits, all_spaces. tauto.
  - intros (w1 & core & w2 & -> & F1 & F2 & a & g1 & b & g2 & c & -> & Ha & Hg1 & Hb & Hg2 & Hc).
    apply Matches_cat. exists w1, ((a ++ g1 ++ b ++ g2 ++ c) ++ w2).
    split; [reflexivity|]. split; [now apply Matches_star_class|].
    apply Matches_cat. exists a, (g1 ++ b ++ g2 ++ c ++ w2).
    split; [now rewrite <- !app_assoc|]. split; [now apply Matches_one_or_two|].
    apply Matches_cat. exists g1, (b ++ g2 ++ c ++ w2).
    split; [reflexivity|]. split; [now apply Matches_plus_class|].
    apply Matches_cat. exists b, (g2 ++ c ++ w2).
    split; [reflexivity|]. split; [now apply Matches_one_or_two|].
    apply Matches_cat. exists g2, (c ++ w2).
    split; [reflexivity|]. split; [now apply Matches_plus_class|].
    apply Matches_cat. exists c, w2.
    split; [reflexivity|]. split; [now apply Matches_one_or_two | now apply Matches_star_class].
Qed.

Lemma all_spaces_snoc_newline (w : str) :
  all_spaces w -> all_spaces (w ++ [newline]).
Proof.
  intro F. apply Forall_app. split; [assumption|]. now repeat constructor.
Qed.

Lemma py_match_closed (body : regex) (P : str -> Prop) (s : str) :
  (forall t, Matches body t <->
     exists w1 core w2, t = w1 ++ core ++ w2 /\ all_spaces w1 /\ all_spaces w2 /\ P core) ->
  py_match body s = true <-> Matches body s.
Proof.
  intro Shape. unfold py_match. rewrite orb_true_iff, re_match_spec.
  split; [|now left]. intros [H|H]; [assumption|].
  destruct (rev s) as [|c r] eqn:E; [discriminate|].
  apply andb_true_iff in H. destruct H as [Hc H].
  apply ascii_eqb_eq in Hc. subst c. apply re_match_spec in H.
  assert (Es : s = rev r ++ [newline]).
  { rewrite <- (rev_involutive s), E. reflexivity. }
  apply Shape in H. destruct H as (w1 & core & w2 & Er & F1 & F2 & HP).
  apply Shape. exists w1, core, (w2 ++ [newline]).
  split; [rewrite Es, Er; now rewrite <- !app_assoc|].
  split; [assumption|]. split; [now apply all_spaces_snoc_newline | assumption].
Qed.

Lemma shape_iff_strip (gap : str -> Prop) (s : str) :
  (exists w1 core w2,
      s = w1 ++ core ++ w2 /\ all_spaces w1 /\ all_spaces w2
      /\ three_integers gap core)
  <-> three_integers gap (strip s).
Proof.
  split.
  - intros (w1 & core & w2 & -> & F1 & F2 & H).
    now rewrite (strip_three_integers F1 F2 H).
  - intro H. destruct (strip_split s) as (w1 & w2 & E & F1 & F2).
    exists w1, (strip s), w2. auto.
Qed.

Lemma pockets_pattern_iff (s : str) :
  Pockets.pattern_match s = true <-> well_formed_text s.
Proof.
  unfold Pockets.pattern_match, well_formed_text.
  rewrite (@py_match_closed pockets_body (three_integers gap_1_2) s pockets_body_shape).
  rewrite pockets_body_shape. apply shape_iff_strip.
Qed.

Lemma recessions_pattern_iff (s : str) :
  Recessions.pattern_match s = true <-> three_integers gap_1_up (strip s).
Proof.
  unfold Recessions.pattern_match.
  rewrite (@py_match_closed recessions_body (three_integers gap_1_up) s recessions_body_shape).
  rewrite recessions_body_shape. apply shape_iff_strip.
Qed.

(** C7, as the code has it.  In the pockets pipeline (and in the
    cross-validator, which compiles the same pattern) a text matches exactly
    when, once trimmed, it is three integers of one or two digits separated
    by one or two white-space characters.  In the recessions pipeline the
    separators are one or more white-space characters.  The five texts of
    the specification are classified alike by both. *)
Theorem C7_pattern_validator :
  (forall s, Pockets.pattern_match s = true <-> three_integers gap_1_2 (strip s))
  /\ (forall s, Recessions.pattern_match s = true <-> three_integers gap_1_up (strip s))
  /\ map Pockets.pattern_match
       [lit "9 10 11"; lit "9  10  11"; lit "9 10"; lit "abc"; lit ""]
     = [true; true; false; false; false]
  /\ map Recessions.pattern_match
       [lit "9 10 11"; lit "9  10  11"; lit "9 10"; lit "abc"; lit ""]
     = [true; true; false; false; false].
Proof.
  split; [exact pockets_pattern_iff|].
  split; [exact recessions_pattern_iff|].
  split; vm_compute; reflexivity.
Qed.

(** C7 as stated fails for the recessions pipeline: three blanks between
    the integers are accepted there. *)
Lemma C7_recessions_counterexample :
  Recessions.pattern_match (lit "9   10   11") = true
  /\ ~ well_formed_text (lit "9   10   11").
Proof.
  split; [vm_compute; reflexivity|].
  intro H. apply pockets_pattern_iff in H. vm_compute in H. discriminate.
Qed.

(** ** The shrinking pool of the classifier *)

Lemma In_unique (x : nat) (l : list nat) : In x (unique l) <-> In x l.
Proof.
  induction l as [|y l IH]; simpl; [tauto|].
  rewrite filter_In, IH, negb_true_iff, Nat.eqb_neq.
  destruct (Nat.eq_dec y x); [tauto|]. intuition congruence.
Qed.

Lemma isin_In (ids : list nat) (p : nat) : isin ids p = true <-> In p ids.
Proof.
  unfold isin. rewrite existsb_exists. split.
  - intros (x & Hx & E). apply Nat.eqb_eq in E. now subst.
  - intro H. exists p. split; [assumption | apply Nat.eqb_refl].
Qed.

Lemma has_patient_In (d : list Row) (p : nat) :
  has_patient d p = true <-> In p (map ResearchID d).
Proof.
  unfold has_patient. rewrite existsb_exists, in_map_iff. split.
  - intros (r & Hr & E). apply Nat.eqb_eq in E. eauto.
  - intros (r & E & Hr). exists r. split; [assumption | now apply Nat.eqb_eq].
Qed.

Lemma isin_ids_of (d : list Row) (p : nat) :
  isin (ids_of d) p = has_patient d p.
Proof.
  apply eq_iff_eq_true. unfold ids_of.
  now rewrite isin_In, In_unique, has_patient_In.
Qed.

Lemma has_patient_filter (f : Row -> bool) (d : list Row) (p : nat) :
  has_patient (filter f d) p = true -> has_patient d p = true.
Proof.
  unfold has_patient. rewrite !existsb_exists.
  intros (r & Hr & E). apply filter_In in Hr. exists r. tauto.
Qed.

Lemma has_patient_without (b pool : list Row) (p : nat) :
  has_patient (without (ids_of b) pool) p
  = has_patient pool p && negb (has_patient b p).
Proof.
  unfold without. induction pool as [|r pool IH]; simpl; [reflexivity|].
  rewrite isin_ids_of. destruct (Nat.eqb (ResearchID r) p) eqn:E.
  - apply Nat.eqb_eq in E. subst p. simpl.
    destruct (has_patient b (ResearchID r)); simpl.
    + rewrite IH. now rewrite andb_false_r.
    + now rewrite Nat.eqb_refl.
  - destruct (has_patient b (ResearchID r)); simpl; [exact IH|].
    now rewrite E.
Qed.

Lemma has_patient_perm (d d' : list Row) (p : nat) :
  Permutation d d' -> has_patient d p = has_patient d' p.
Proof.
  intro H. apply eq_iff_eq_true. rewrite !has_patient_In.
  split; apply Permutation_in; [|symmetry]; now apply Permutation_map.
Qed.

Lemma filter_perm (A : Type) (f : A -> bool) (l l' : list A) :
  Permutation l l' -> Permutation (filter f l) (filter f l').
Proof.
  induction 1; simpl.
  - constructor.
  - destruct (f x); [now constructor | assumption].
  - destruct (f x), (f y); try reflexivity. apply perm_swap.
  - etransitivity; eassumption.
Qed.

Lemma forallb_perm (A : Type) (f : A -> bool) (l l' : list A) :
  Permutation l l' -> forallb f l = forallb f l'.
Proof.
  induction 1; simpl.
  - reflexivity.
  - now rewrite IHPermutation.
  - now rewrite !andb_assoc, (andb_comm (f y) (f x)).
  - congruence.
Qed.

Lemma without_perm (b b' pool pool' : list Row) :
  Permutation b b' -> Permutation pool pool' ->
  Permutation (without (ids_of b) pool) (without (ids_of b') pool').
Proof.
  intros Hb Hp. unfold without.
  rewrite (filter_ext (fun r => negb (isin (ids_of b) (ResearchID r)))
             (fun r => negb (isin (ids_of b') (ResearchID r)))).
  - now apply filter_perm.
  - intro r. rewrite !isin_ids_of. f_equal. now apply has_patient_perm.
Qed.

Lemma filter_perm_ext (A : Type) (f g : A -> bool) (l l' : list A) :
  (forall x, f x = g x) -> Permutation l l' ->
  Permutation (filter f l) (filter g l').
Proof.
  intros E H. rewrite (filter_ext f g E). now apply filter_perm.
Qed.

Lemma In_categories_of (b : Buckets) (p : nat) (c : PatientCategory) :
  In c (categories_of b p) <-> has_patient (bucket b c) p = true.
Proof.
  unfold categories_of. rewrite filter_In. split; [tauto|].
  intro H. split; [|assumption]. destruct c; simpl; tauto.
Qed.

Section ClassifierFacts.

Variable column_range : list str.
Variable pattern_match : str -> bool.
Variable row_does_not_match_pattern : Row -> bool.

Lemma has_patient_standardize (sheet : list Row) (p : nat) :
  has_patient (map (standardize column_range) sheet) p = has_patient sheet p.
Proof.
  unfold has_patient. induction sheet as [|r sheet IH]; simpl; [reflexivity|].
  now rewrite IH.
Qed.

(** A patient of the sheet is met by exactly one bucket, a patient who is
    not in the sheet by none. *)
Lemma categories_of_six_buckets (sheet : list Row) (p : nat) :
  (has_patient sheet p = true ->
   exists c,
     categories_of
       (six_buckets column_range pattern_match row_does_not_match_pattern sheet) p
     = [c])
  /\ (has_patient sheet p = false ->
      categories_of
        (six_buckets column_range pattern_match row_does_not_match_pattern sheet) p
      = []).
Proof.
  unfold six_buckets, categories_of, all_categories. simpl.
  rewrite !has_patient_without.
  rewrite <- (has_patient_standardize sheet p).
  set (data0 := map (standardize column_range) sheet).
  set (b1 := filter (row_matches_pattern column_range pattern_match) data0).
  set (data1 := without (ids_of b1) data0).
  set (b2 := filter row_does_not_match_pattern data1).
  set (data2 := without (ids_of b2) data1).
  set (b3 := filter (is_fully_consistent_missing_teeth column_range data2) data2).
  set (data3 := without (ids_of b3) data2).
  set (b4 := filter (is_inconsistent_missing_teeth column_range data3) data3).
  set (data4 := without (ids_of b4) data3).
  set (b5 := filter (single_visit data4) data4).
  assert (H1 : has_patient b1 p = true -> has_patient data0 p = true)
    by apply has_patient_filter.
  assert (H2 : has_patient b2 p = true -> has_patient data1 p = true)
    by apply has_patient_filter.
  assert (H3 : has_patient b3 p = true -> has_patient data2 p = true)
    by apply has_patient_filter.
  assert (H4 : has_patient b4 p = true -> has_patient data3 p = true)
    by apply has_patient_filter.
  assert (H5 : has_patient b5 p = true -> has_patient data4 p = true)
    by apply has_patient_filter.
  unfold data4 in H5. unfold data3 in H4, H5. unfold data2 in H3, H4, H5.
  unfold data1 in H2, H3, H4, H5.
  rewrite !has_patient_without in H2. rewrite !has_patient_without in H3.
  rewrite !has_patient_without in H4. rewrite !has_patient_without in H5.
  destruct (has_patient data0 p), (has_patient b1 p), (has_patient b2 p),
    (has_patient b3 p), (has_patient b4 p), (has_patient b5 p);
    simpl in *;
    split; intro H; try discriminate; eauto;
    try (specialize (H1 eq_refl)); try (specialize (H2 eq_refl));
    try (specialize (H3 eq_refl)); try (specialize (H4 eq_refl));
    try (specialize (H5 eq_refl)); try discriminate.
Qed.

(** *** The order of the rows does not matter *)

Lemma group_of_perm (d d' : list Row) (p : nat) :
  Permutation d d' -> Permutation (group_of d p) (group_of d' p).
Proof. apply filter_perm. Qed.

Lemma all_isna_perm (g g' : list Row) (col : str) :
  Permutation g g' -> all_isna g col = all_isna g' col.
Proof. apply forallb_perm. Qed.

Lemma all_notna_perm (g g' : list Row) (col : str) :
  Permutation g g' -> all_notna g col = all_notna g' col.
Proof. apply forallb_perm. Qed.

Lemma consistent_loop_perm (g g' : list Row) (cols : list str) :
  Permutation g g' -> consistent_loop g cols = consistent_loop g' cols.
Proof.
  intro H. induction cols as [|col cols IH]; simpl; [reflexivity|].
  now rewrite (all_isna_perm col H), (all_notna_perm col H), IH.
Qed.

Lemma inconsistent_loop_perm (g g' : list Row) (cols : list str) :
  Permutation g g' -> inconsistent_loop g cols = inconsistent_loop g' cols.
Proof.
  intro H. induction cols as [|col cols IH]; simpl; [reflexivity|].
  now rewrite (all_isna_perm col H), (all_notna_perm col H), IH.
Qed.

Lemma is_fully_consistent_perm (d d' : list Row) (r : Row) :
  Permutation d d' ->
  is_fully_consistent_missing_teeth column_range d r
  = is_fully_consistent_missing_teeth column_range d' r.
Proof.
  intro H. unfold is_fully_consistent_missing_teeth.
  pose proof (group_of_perm (ResearchID r) H) as G.
  now rewrite (Permutation_length G), (consistent_loop_perm _ G).
Qed.

Lemma is_inconsistent_perm (d d' : list Row) (r : Row) :
  Permutation d d' ->
  is_inconsistent_missing_teeth column_range d r
  = is_inconsistent_missing_teeth column_range d' r.
Proof.
  intro H. unfold is_inconsistent_missing_teeth.
  pose proof (group_of_perm (ResearchID r) H) as G.
  now rewrite (Permutation_length G), (inconsistent_loop_perm _ G).
Qed.

Lemma single_visit_perm (d d' : list Row) (r : Row) :
  Permutation d d' -> single_visit d r = single_visit d' r.
Proof.
  intro H. unfold single_visit.
  now rewrite (Permutation_length (group_of_perm (ResearchID r) H)).
Qed.

Lemma six_buckets_perm (sheet sheet' : list Row) (c : PatientCategory) :
  Permutation sheet sheet' ->
  Permutation
    (bucket (six_buckets column_range pattern_match row_does_not_match_pattern sheet) c)
    (bucket (six_buckets column_range pattern_match row_does_not_match_pattern sheet') c).
Proof.
  intro H. unfold six_buckets.
  pose proof (Permutation_map (standardize column_range) H) as P0.
  pose proof (filter_perm (row_matches_pattern column_range pattern_match) P0) as B1.
  pose proof (without_perm B1 P0) as P1.
  pose proof (filter_perm row_does_not_match_pattern P1) as B2.
  pose proof (without_perm B2 P1) as P2.
  pose proof (filter_perm_ext _ _ (fun r => is_fully_consistent_perm r P2) P2) as B3.
  pose proof (without_perm B3 P2) as P3.
  pose proof (filter_perm_ext _ _ (fun r => is_inconsistent_perm r P3) P3) as B4.
  pose proof (without_perm B4 P3) as P4.
  pose proof (filter_perm_ext _ _ (fun r => single_visit_perm r P4) P4) as B5.
  pose proof (without_perm B5 P4) as P5.
  destruct c; simpl; assumption.
Qed.

Lemma categories_of_perm (sheet sheet' : list Row) (p : nat) :
  Permutation sheet sheet' ->
  categories_of (six_buckets column_range pattern_match row_does_not_match_pattern sheet) p
  = categories_of (six_buckets column_range pattern_match row_does_not_match_pattern sheet') p.
Proof.
  intro H. unfold categories_of. apply filter_ext.
  intro c. apply has_patient_perm. now apply six_buckets_perm.
Qed.

(** *** When the run ends *)

Lemma bind_select_rows (B : Type) (test : Row -> bool) (pool : list Row)
    (k : list Row -> outcome B) :
  pool <> [] -> (x <- select_rows test pool ;; k x) = k (filter test pool).
Proof.
  destruct pool; [congruence | reflexivity].
Qed.

Lemma match_pool (B : Type) (pool : list Row) (a b : B) :
  pool <> [] -> match pool with [] => a | _ :: _ => b end = b.
Proof.
  destruct pool; [congruence | reflexivity].
Qed.

Lemma nil_or_not (pool : list Row) : pool = [] \/ pool <> [].
Proof.
  destruct pool; [now left | right; discriminate].
Qed.

(** The run raises at the first row-wise selection whose pool has no row;
    the pools shrink, so it ends exactly when the fourth pool has a row. *)
Lemma classify_cases (sheet : list Row) :
  classify column_range pattern_match row_does_not_match_pattern sheet
  = match fourth_pool column_range pattern_match row_does_not_match_pattern sheet with
    | [] => Raised KeyError
    | _ :: _ =>
        Returned (six_buckets column_range pattern_match
                    row_does_not_match_pattern sheet)
    end.
Proof.
  unfold classify, fourth_pool, six_buckets. cbv zeta.
  set (data0 := map (standardize column_range) sheet).
  destruct (nil_or_not data0) as [D0|D0]; [rewrite D0; reflexivity|].
  rewrite (bind_select_rows _ _ D0).
  set (data1 := without _ data0).
  destruct (nil_or_not data1) as [D1|D1]; [rewrite D1; reflexivity|].
  rewrite (bind_select_rows _ _ D1).
  set (data2 := without _ data1).
  destruct (nil_or_not data2) as [D2|D2]; [rewrite D2; reflexivity|].
  rewrite (bind_select_rows _ _ D2).
  set (data3 := without _ data2).
  destruct (nil_or_not data3) as [D3|D3]; [rewrite D3; reflexivity|].
  rewrite (bind_select_rows _ _ D3).
  now rewrite (match_pool _ _ D3).
Qed.

Lemma classify_returned (sheet : list Row) (b : Buckets) :
  classify column_range pattern_match row_does_not_match_pattern sheet = Returned b ->
  b = six_buckets column_range pattern_match row_does_not_match_pattern sheet
  /\ fourth_pool column_range pattern_match row_does_not_match_pattern sheet <> [].
Proof.
  rewrite classify_cases.
  destruct (fourth_pool _ _ _ sheet); [discriminate|].
  intro H. injection H as <-. split; [reflexivity | discriminate].
Qed.

Lemma classify_raised (sheet : list Row) (e : exn) :
  classify column_range pattern_match row_does_not_match_pattern sheet = Raised e ->
  e = KeyError
  /\ fourth_pool column_range pattern_match row_does_not_match_pattern sheet = [].
Proof.
  rewrite classify_cases.
  destruct (fourth_pool _ _ _ sheet); [|discriminate].
  intro H. injection H as <-. split; reflexivity.
Qed.

Lemma fourth_pool_perm (sheet sheet' : list Row) :
  Permutation sheet sheet' ->
  Permutation
    (fourth_pool column_range pattern_match row_does_not_match_pattern sheet)
    (fourth_pool column_range pattern_match row_does_not_match_pattern sheet').
Proof.
  intro H. unfold fourth_pool.
  pose proof (Permutation_map (standardize column_range) H) as P0.
  pose proof (filter_perm (row_matches_pattern column_range pattern_match) P0) as B1.
  pose proof (without_perm B1 P0) as P1.
  pose proof (filter_perm row_does_not_match_pattern P1) as B2.
  pose proof (without_perm B2 P1) as P2.
  pose proof (filter_perm_ext _ _ (fun r => is_fully_consistent_perm r P2) P2) as B3.
  exact (without_perm B3 P2).
Qed.

(** The categories read for a patient are the same for a reordered table,
    and so is the error when the run stops. *)
Lemma labels_for_perm (sheet sheet' : list Row) (p : nat) :
  Permutation sheet sheet' ->
  labels_for (classify column_range pattern_match row_does_not_match_pattern) sheet p
  = labels_for (classify column_range pattern_match row_does_not_match_pattern) sheet' p.
Proof.
  intro H. unfold labels_for. rewrite !classify_cases.
  pose proof (fourth_pool_perm H) as P.
  destruct (fourth_pool _ _ _ sheet) as [|r d] eqn:E,
           (fourth_pool _ _ _ sheet') as [|r' d'] eqn:E'.
  - reflexivity.
  - apply Permutation_nil in P. discriminate P.
  - apply Permutation_sym, Permutation_nil in P. discriminate P.
  - simpl. f_equal. now apply categories_of_perm.
Qed.

(** A patient without rows is read from no bucket of a run that ends. *)
Lemma labels_for_absent (sheet : list Row) (p : nat) (b : Buckets) :
  has_patient sheet p = false ->
  classify column_range pattern_match row_does_not_match_pattern sheet = Returned b ->
  labels_for (classify column_range pattern_match row_does_not_match_pattern) sheet p
  = Returned []
  /\ forall c, has_patient (bucket b c) p = false.
Proof.
  intros F E. unfold labels_for. rewrite E. cbn [bind].
  apply classify_returned in E. destruct E as [-> _].
  destruct (categories_of_six_buckets sheet p) as [_ Zero].
  specialize (Zero F). split; [now rewrite Zero|].
  intro c. destruct (has_patient (bucket _ c) p) eqn:K; [|reflexivity].
  apply In_categories_of in K. rewrite Zero in K. destruct K.
Qed.

End ClassifierFacts.

(** ** The patient classifier *)

(** C1, evaluated where the code departs from it: every patient of
    [complete_sheet] has a complete visit, so the pool has no row left after
    the first selection; the second selection raises KeyError, in both
    pipelines, and patients 1 and 2 of the table are given no category. *)
Theorem C1_no_category_when_a_pool_is_empty :
  In 1 (map ResearchID complete_sheet)
  /\ In 2 (map ResearchID complete_sheet)
  /\ PocketsClassifier.classify sample_columns complete_sheet = Raised KeyError
  /\ RecessionsClassifier.classify sample_columns complete_sheet = Raised KeyError
  /\ (forall p,
        labels_for (PocketsClassifier.classify sample_columns) complete_sheet p
        = Raised KeyError)
  /\ (forall p,
        labels_for (RecessionsClassifier.classify sample_columns) complete_sheet p
        = Raised KeyError).
Proof.
  assert (P : PocketsClassifier.classify sample_columns complete_sheet
              = Raised KeyError) by (vm_compute; reflexivity).
  assert (R : RecessionsClassifier.classify sample_columns complete_sheet
              = Raised KeyError) by (vm_compute; reflexivity).
  split; [simpl; auto|]. split; [simpl; auto|].
  split; [exact P|]. split; [exact R|].
  split; intro p; unfold labels_for; [rewrite P | rewrite R]; reflexivity.
Qed.

(** The first bucket takes a patient as soon as one of the visits is
    complete. *)
Lemma no_missing_data_iff
    (column_range : list str) (pattern_match : str -> bool)
    (malformed : Row -> bool) (sheet : list Row) (p : nat) :
  has_patient (no_missing_data (six_buckets column_range pattern_match malformed sheet)) p = true
  <-> exists r, In r sheet /\ ResearchID r = p
        /\ row_matches_pattern column_range pattern_match
             (standardize column_range r) = true.
Proof.
  unfold six_buckets. simpl. unfold has_patient. rewrite existsb_exists. split.
  - intros (r & Hr & E). apply filter_In in Hr. destruct Hr as [Hr Hm].
    apply in_map_iff in Hr. destruct Hr as (r0 & <- & Hr0).
    exists r0. apply Nat.eqb_eq in E. auto.
  - intros (r & Hr & E & Hm). exists (standardize column_range r). split.
    + apply filter_In. split; [now apply in_map | assumption].
    + apply Nat.eqb_eq. exact E.
Qed.

(** C2, evaluated where the code departs from it: patient 1 has a complete
    visit and a visit with an absent cell; both pipelines run to the end, put
    the patient in NoMissingData and keep the complete visit only, and the
    other visit reaches no bucket. *)
Theorem C2_one_complete_visit_is_enough :
  at_col (holed_visit 1 "2020-06-01") (lit "Tooth 18 B") = None
  /\ (exists b,
        PocketsClassifier.classify sample_columns mixed_sheet = Returned b
        /\ categories_of b 1 = [NoMissingData]
        /\ no_missing_data b = [complete_visit 1 "2020-01-01"]
        /\ forall c, ~ In (holed_visit 1 "2020-06-01") (bucket b c))
  /\ (exists b,
        RecessionsClassifier.classify sample_columns mixed_sheet = Returned b
        /\ categories_of b 1 = [NoMissingData]
        /\ no_missing_data b = [complete_visit 1 "2020-01-01"]
        /\ forall c, ~ In (holed_visit 1 "2020-06-01") (bucket b c)).
Proof.
  split; [reflexivity|].
  split; eexists; (split; [vm_compute; reflexivity|]);
    (split; [vm_compute; reflexivity|]); (split; [vm_compute; reflexivity|]);
    intros c H; destruct c; vm_compute in H;
    repeat (destruct H as [H|H]; [discriminate H|]); exact H.
Qed.

(** C9, as the code has it: the scripts have no check on patients without
    rows.  Whenever the run ends, such a patient is in none of the six
    buckets: no error is raised and no category is given, in both
    pipelines. *)
Theorem C9_patient_without_visits
    (column_range : list str) (sheet : list Row) (p : nat) (b : Buckets) :
  ~ In p (map ResearchID sheet) ->
  (PocketsClassifier.classify column_range sheet = Returned b ->
   labels_for (PocketsClassifier.classify column_range) sheet p = Returned []
   /\ forall c, has_patient (bucket b c) p = false)
  /\ (RecessionsClassifier.classify column_range sheet = Returned b ->
      labels_for (RecessionsClassifier.classify column_range) sheet p = Returned []
      /\ forall c, has_patient (bucket b c) p = false).
Proof.
  intro H. assert (F : has_patient sheet p = false).
  { destruct (has_patient sheet p) eqn:E; [|reflexivity].
    apply has_patient_In in E. contradiction. }
  split; intro E; now apply labels_for_absent.
Qed.

Lemma C9_patient_without_visits_witness :
  ~ In 7 (map ResearchID mixed_sheet)
  /\ PocketsClassifier.classify sample_columns mixed_sheet
     = Returned (six_buckets sample_columns Pockets.pattern_match
                   (PocketsClassifier.row_does_not_match_pattern sample_columns)
                   mixed_sheet)
  /\ labels_for (PocketsClassifier.classify sample_columns) mixed_sheet 7 = Returned [].
Proof.
  assert (N : ~ In 7 (map ResearchID mixed_sheet)).
  { simpl. intros [H|[H|[H|H]]]; try discriminate H; exact H. }
  assert (E : PocketsClassifier.classify sample_columns mixed_sheet
              = Returned (six_buckets sample_columns Pockets.pattern_match
                            (PocketsClassifier.row_does_not_match_pattern sample_columns)
                            mixed_sheet))
    by (vm_compute; reflexivity).
  split; [exact N|]. split; [exact E|].
  destruct (@C9_patient_without_visits sample_columns mixed_sheet 7
              (six_buckets sample_columns Pockets.pattern_match
                 (PocketsClassifier.row_does_not_match_pattern sample_columns)
                 mixed_sheet) N) as [K _].
  exact (proj1 (K E)).
Defined.

(** C9 as stated fails: patient 7 has no visit in the table; the pockets
    classification runs to the end and reads no category for the patient,
    it reports no error. *)
Lemma C9_no_error_counterexample :
  ~ In 7 (map ResearchID mixed_sheet)
  /\ labels_for (PocketsClassifier.classify sample_columns) mixed_sheet 7
     = Returned []
  /\ forall e, labels_for (PocketsClassifier.classify sample_columns) mixed_sheet 7
               <> Raised e.
Proof.
  assert (E : labels_for (PocketsClassifier.classify sample_columns) mixed_sheet 7
              = Returned []) by (vm_compute; reflexivity).
  split.
  - simpl. intros [H|[H|[H|H]]]; try discriminate H; exact H.
  - split; [exact E|]. intros e H. rewrite E in H. discriminate H.
Qed.

(** C10. The category of every patient is the same for any reordering of
    the rows of the table, in particular of that patient's visits: the two
    runs end with the same categories for the patient, or both stop with the
    same error. *)
Theorem C10_category_invariant_under_permutation
    (column_range : list str) (sheet sheet' : list Row) (p : nat) :
  Permutation sheet sheet' ->
  labels_for (PocketsClassifier.classify column_range) sheet p
  = labels_for (PocketsClassifier.classify column_range) sheet' p
  /\ labels_for (RecessionsClassifier.classify column_range) sheet p
     = labels_for (RecessionsClassifier.classify column_range) sheet' p.
Proof.
  intro H. split; now apply labels_for_perm.
Qed.

Lemma C10_category_invariant_witness :
  Permutation mixed_sheet mixed_sheet_reordered
  /\ labels_for (PocketsClassifier.classify sample_columns) mixed_sheet 1
     = Returned [NoMissingData]
  /\ labels_for (PocketsClassifier.classify sample_columns) mixed_sheet 1
     = labels_for (PocketsClassifier.classify sample_columns) mixed_sheet_reordered 1
  /\ labels_for (RecessionsClassifier.classify sample_columns) mixed_sheet 1
     = labels_for (RecessionsClassifier.classify sample_columns) mixed_sheet_reordered 1.
Proof.
  split; [apply perm_swap|].
  split; [vm_compute; reflexivity|].
  apply (@C10_category_invariant_under_permutation sample_columns
           mixed_sheet mixed_sheet_reordered 1).
  apply perm_swap.
Defined.

(** ** The cross-validator *)

Lemma In_set_add (x y : str) (s : list str) :
  In x (set_add y s) <-> x = y \/ In x s.
Proof.
  unfold set_add. destruct (existsb (str_eqb y) s) eqn:E.
  - split; [tauto|]. intros [->|H]; [|assumption].
    apply existsb_exists in E. destruct E as (z & Hz & Ez).
    apply str_eqb_eq in Ez. now subst.
  - rewrite in_app_iff. simpl. intuition.
Qed.

Lemma record_column_verdict (row : Visit) (d : datetime) (acc : Labels)
    (col x : str) (k : Issue) :
  In x (labelled (record_column row d acc col) k)
  <-> In x (labelled acc k) \/ (x = col /\ verdict row d col = Some k).
Proof.
  unfold record_column, verdict.
  destruct (startswith (lit "Tooth") col
            && (contains (lit " P") col || contains (lit " B") col));
    [|intuition discriminate].
  destruct (search_tooth col) as [tooth_num|]; [|intuition discriminate].
  destruct (notna (get (index row) col)
            && negb (standard_pattern_match (py_str (get (index row) col)))).
  { destruct k; simpl; rewrite ?In_set_add; intuition discriminate. }
  destruct (is_missing_tooth (missing_teeth_with_dates row) tooth_num d).
  { destruct k; simpl; rewrite ?In_set_add; intuition discriminate. }
  destruct (isna (get (index row) col)); [|intuition discriminate].
  destruct (negb (tooth_in_log (missing_teeth_with_dates row) tooth_num));
    destruct k; simpl; rewrite ?In_set_add; intuition discriminate.
Qed.

Lemma fold_record_column (row : Visit) (d : datetime) (cols : list str)
    (acc : Labels) (x : str) (k : Issue) :
  In x (labelled (fold_left (record_column row d) cols acc) k)
  <-> In x (labelled acc k) \/ (In x cols /\ verdict row d x = Some k).
Proof.
  revert acc. induction cols as [|col cols IH]; intro acc; simpl.
  - tauto.
  - rewrite IH, record_column_verdict. split.
    + intros [[H|[-> H]]|[H1 H2]]; auto.
    + intros [H|[[->|H1] H2]]; auto.
Qed.

(** The labels of a row whose chart date parses. *)
Lemma record_cells_labelled (row : Visit) (d : datetime) :
  parse_chart_date (chart row) = Returned d ->
  exists l, record_cells row = Returned l
    /\ forall x k, In x (labelled l k)
         <-> In x (map fst (index row)) /\ verdict row d x = Some k.
Proof.
  intro H. unfold record_cells. rewrite H. simpl.
  eexists. split; [reflexivity|]. intros x k.
  rewrite fold_record_column. destruct k; simpl; tauto.
Qed.

Lemma verdict_malformed (row : Visit) (d : datetime) (col tooth text : str) :
  tooth_site_column col tooth ->
  get (index row) col = Some text ->
  standard_pattern_match text = false ->
  verdict row d col = Some IntegerFormatError.
Proof.
  intros (H1 & H2 & H3) Hc Hm. unfold verdict.
  rewrite H1, H2, H3, Hc. simpl. now rewrite Hm.
Qed.

(** C3. On a row whose chart date parses, a tooth-site column (label
    starting with Tooth, containing " P" or " B", with a tooth number) whose
    cell is not null and does not match the pattern is put in the
    integer-format set and in none of the three other sets, whatever the
    missing-teeth log says. *)
Theorem C3_malformed_cell_only_integer_format_error
    (row : Visit) (d : datetime) (col tooth text : str) :
  parse_chart_date (chart row) = Returned d ->
  In col (map fst (index row)) ->
  tooth_site_column col tooth ->
  get (index row) col = Some text ->
  standard_pattern_match text = false ->
  exists l, record_cells row = Returned l
    /\ In col (labelled l IntegerFormatError)
    /\ ~ In col (labelled l ConfirmedMissingAndRecorded)
    /\ ~ In col (labelled l MissingNotRecorded)
    /\ ~ In col (labelled l MissingOtherIssue).
Proof.
  intros Hd Hin Hcol Hc Hm.
  destruct (record_cells_labelled row Hd) as (l & El & Hl).
  pose proof (verdict_malformed row d Hcol Hc Hm) as V.
  exists l. split; [assumption|]. split; [apply Hl; auto|].
  repeat split; intro H; apply Hl in H; destruct H as [_ H]; congruence.
Qed.

Lemma C3_malformed_cell_witness :
  parse_chart_date (chart sample_visit) = Returned (mkDate 2021 3 4)
  /\ is_missing_tooth (missing_teeth_with_dates sample_visit) (lit "18")
       (mkDate 2021 3 4) = true
  /\ exists l, record_cells sample_visit = Returned l
    /\ In (lit "Tooth 18 B") (labelled l IntegerFormatError)
    /\ ~ In (lit "Tooth 18 B") (labelled l ConfirmedMissingAndRecorded)
    /\ ~ In (lit "Tooth 18 B") (labelled l MissingNotRecorded)
    /\ ~ In (lit "Tooth 18 B") (labelled l MissingOtherIssue).
Proof.
  split; [reflexivity|]. split; [reflexivity|].
  apply (@C3_malformed_cell_only_integer_format_error sample_visit
           (mkDate 2021 3 4) (lit "Tooth 18 B") (lit "18") (lit "3 2")).
  - reflexivity.
  - simpl. auto.
  - repeat split; reflexivity.
  - reflexivity.
  - reflexivity.
Defined.

Lemma date_leb_refl (d : datetime) : date_leb d d = true.
Proof.
  unfold date_leb. rewrite !Nat.eqb_refl, Nat.leb_refl. simpl.
  now rewrite !orb_true_r.
Qed.

Lemma is_missing_tooth_iff (log : list (datetime * str)) (tooth : str)
    (d : datetime) :
  is_missing_tooth log tooth d = true
  <-> exists e, In e log /\ snd e = tooth /\ date_leb (fst e) d = true.
Proof.
  unfold is_missing_tooth. rewrite existsb_exists.
  split; intros (e & H & E); exists e; (split; [assumption|]).
  - apply andb_true_iff in E. now rewrite <- str_eqb_eq.
  - apply andb_true_iff. now rewrite str_eqb_eq.
Qed.

Lemma tooth_in_log_iff (log : list (datetime * str)) (tooth : str) :
  tooth_in_log log tooth = true <-> exists e, In e log /\ snd e = tooth.
Proof.
  unfold tooth_in_log. rewrite existsb_exists.
  split; intros (e & H & E); exists e; (split; [assumption|]);
    now apply str_eqb_eq.
Qed.

(** C4. On a row whose chart date parses, for a tooth-site column that is
    not in the integer-format set: a log entry for the tooth dated exactly
    the chart date puts the column in the confirmed-missing set; when the
    cell is null and the log has entries for the tooth, all dated strictly
    after the chart date, the column is in the other-issue set and not in
    the confirmed-missing set. *)
Theorem C4_confirmed_missing_date_boundary
    (row : Visit) (d : datetime) (col tooth : str) :
  parse_chart_date (chart row) = Returned d ->
  In col (map fst (index row)) ->
  tooth_site_column col tooth ->
  exists l, record_cells row = Returned l
    /\ (~ In col (labelled l IntegerFormatError) ->
        ((exists e, In e (missing_teeth_with_dates row)
                    /\ snd e = tooth /\ fst e = d) ->
         In col (labelled l ConfirmedMissingAndRecorded))
        /\ (get (index row) col = None ->
            (exists e, In e (missing_teeth_with_dates row) /\ snd e = tooth) ->
            (forall e, In e (missing_teeth_with_dates row) -> snd e = tooth ->
                       date_ltb d (fst e) = true) ->
            In col (labelled l MissingOtherIssue)
            /\ ~ In col (labelled l ConfirmedMissingAndRecorded))).
Proof.
  intros Hd Hin (H1 & H2 & H3).
  destruct (record_cells_labelled row Hd) as (l & El & Hl).
  exists l. split; [assumption|]. intro Hno.
  assert (Hfmt : notna (get (index row) col)
                 && negb (standard_pattern_match (py_str (get (index row) col)))
                 = false).
  { destruct (notna (get (index row) col)
              && negb (standard_pattern_match (py_str (get (index row) col))))
      eqn:E; [|reflexivity].
    exfalso. apply Hno. apply Hl. split; [assumption|].
    unfold verdict. now rewrite H1, H2, H3, E. }
  split.
  - intros (e & He & Et & Ed). apply Hl. split; [assumption|].
    unfold verdict. rewrite H1, H2, H3, Hfmt. simpl.
    replace (is_missing_tooth (missing_teeth_with_dates row) tooth d) with true;
      [reflexivity|].
    symmetry. apply is_missing_tooth_iff. exists e. subst d.
    auto using date_leb_refl.
  - intros Hnull Hsome Hafter.
    assert (Hm : is_missing_tooth (missing_teeth_with_dates row) tooth d = false).
    { destruct (is_missing_tooth (missing_teeth_with_dates row) tooth d) eqn:E;
        [|reflexivity].
      apply is_missing_tooth_iff in E. destruct E as (e & He & Et & Ed).
      specialize (Hafter e He Et). unfold date_ltb in Hafter.
      rewrite Ed in Hafter. discriminate. }
    apply tooth_in_log_iff in Hsome.
    assert (V : verdict row d col = Some MissingOtherIssue).
    { unfold verdict. rewrite H1, H2, H3, Hfmt, Hm, Hnull. simpl.
      now rewrite Hsome. }
    split.
    + apply Hl. auto.
    + intro H. apply Hl in H. destruct H as [_ H]. congruence.
Qed.

Lemma C4_confirmed_missing_witness :
  (exists l, record_cells sample_visit = Returned l
     /\ In (lit "Tooth 17 B") (labelled l ConfirmedMissingAndRecorded))
  /\ (exists l, record_cells sample_visit = Returned l
        /\ In (lit "Tooth 16 B") (labelled l MissingOtherIssue)
        /\ ~ In (lit "Tooth 16 B") (labelled l ConfirmedMissingAndRecorded)).
Proof.
  split.
  - destruct (@C4_confirmed_missing_date_boundary sample_visit
                (mkDate 2021 3 4) (lit "Tooth 17 B") (lit "17"))
      as (l & El & H).
    + reflexivity.
    + simpl. auto.
    + repeat split; reflexivity.
    + exists l. split; [assumption|].
      vm_compute in El. injection El as <-.
      apply H.
      * simpl. intros [F|F]; [discriminate F | exact F].
      * exists (mkDate 2021 3 4, lit "17"). simpl. auto.
  - destruct (@C4_confirmed_missing_date_boundary sample_visit
                (mkDate 2021 3 4) (lit "Tooth 16 B") (lit "16"))
      as (l & El & H).
    + reflexivity.
    + simpl. auto.
    + repeat split; reflexivity.
    + exists l. split; [assumption|].
      vm_compute in El. injection El as <-.
      apply H.
      * simpl. intros [F|F]; [discriminate F | exact F].
      * reflexivity.
      * exists (mkDate 2021 3 5, lit "16"). simpl. auto.
      * simpl. intros e [<-|[<-|[<-|F]]] Et;
          try discriminate Et; [reflexivity | contradiction].
Defined.

(** C5, as the code has it: when the chart date of a row is a string that
    [strptime] does not parse, [record_cells] raises [ValueError] and
    collects nothing for the row, and the pass over a batch that contains
    the row ends with an exception. *)
Theorem C5_unparseable_chart_date_raises
    (row : Visit) (s : str) (before after : list Visit) :
  chart row = Some s ->
  strptime_ymd s = None ->
  record_cells row = Raised ValueError
  /\ exists e, record_all (before ++ row :: after) = Raised e.
Proof.
  intros Hc Hs.
  assert (R : record_cells row = Raised ValueError).
  { unfold record_cells, parse_chart_date, strptime. now rewrite Hc, Hs. }
  split; [assumption|]. unfold record_all.
  induction before as [|v before IH]; simpl.
  - rewrite R. simpl. eauto.
  - destruct (record_cells v); simpl; [|eauto].
    destruct IH as (e & ->). simpl. eauto.
Qed.

Lemma C5_unparseable_chart_date_witness :
  chart undated_visit = Some (lit "04/03/2021")
  /\ strptime_ymd (lit "04/03/2021") = None
  /\ record_cells undated_visit = Raised ValueError
  /\ exists e, record_all ([sample_visit] ++ undated_visit :: [sample_visit])
               = Raised e.
Proof.
  split; [reflexivity|]. split; [reflexivity|].
  apply (@C5_unparseable_chart_date_raises undated_visit (lit "04/03/2021")
           [sample_visit] [sample_visit]); reflexivity.
Defined.

(** C5 as stated fails: for a row dated 04/03/2021 the cross-validator does
    not return four empty sets, it raises, and the rows after it in the
    batch are not processed. *)
Lemma C5_raises_counterexample :
  strptime_ymd (lit "04/03/2021") = None
  /\ record_cells undated_visit <> Returned no_labels
  /\ record_all [undated_visit; sample_visit] = Raised ValueError.
Proof.
  split; [reflexivity|]. split; [|reflexivity].
  intro H. vm_compute in H. discriminate H.
Qed.

(** ** The aggregator *)

Lemma dict_get_set (V : Type) (d : dict V) (k k' : str) (v : V) :
  dict_get (dict_set d k v) k'
  = if str_eqb k k' then Some v else dict_get d k'.
Proof.
  induction d as [|[k0 v0] d IH]; simpl; [reflexivity|].
  destruct (str_eqb k0 k) eqn:E0; simpl.
  - apply str_eqb_eq in E0. subst k0. now destruct (str_eqb k k').
  - rewrite IH. destruct (str_eqb k0 k') eqn:E1; [|reflexivity].
    apply str_eqb_eq in E1. subst k'.
    destruct (str_eqb k k0) eqn:E2; [|reflexivity].
    apply str_eqb_eq in E2. subst k0. rewrite str_eqb_refl in E0. discriminate.
Qed.

Lemma keep_first (A : Type) (o : option A) :
  match o with Some x => Some x | None => None end = o.
Proof. now destruct o. Qed.

Lemma record_item_date (date : str) (d : dict (dict str)) (item tooth side : str) :
  recorded_date (record_item date d item) tooth side
  = match recorded_date d tooth side with
    | Some x => Some x
    | None => if item_names tooth side item then Some date else None
    end.
Proof.
  unfold record_item, item_names.
  destruct (match_item (strip item)) as [[t s]|]; [|now rewrite keep_first].
  set (d1 := if negb (dict_mem d t) then dict_set d t [] else d).
  assert (G : forall k, dict_get d1 k
               = match dict_get d k with
                 | Some x => Some x
                 | None => if str_eqb t k then Some [] else None
                 end).
  { intro k. unfold d1, dict_mem. destruct (dict_get d t) eqn:E; simpl.
    - destruct (dict_get d k) eqn:Ek; [reflexivity|].
      destruct (str_eqb t k) eqn:Et; [|reflexivity].
      apply str_eqb_eq in Et. subst k. congruence.
    - rewrite dict_get_set. destruct (str_eqb t k) eqn:Et.
      + apply str_eqb_eq in Et. subst k. now rewrite E.
      + now destruct (dict_get d k). }
  pose proof (G t) as Gt. rewrite str_eqb_refl in Gt.
  unfold recorded_date.
  destruct (str_eqb t tooth) eqn:Et.
  - apply str_eqb_eq in Et. subst tooth. simpl.
    destruct (dict_get d t) as [sides|] eqn:Ed; rewrite Gt.
    + unfold dict_mem. destruct (dict_get sides s) eqn:Es; simpl.
      * rewrite G, Ed.
        destruct (str_eqb s side) eqn:E; [|now rewrite keep_first].
        apply str_eqb_eq in E. subst side. now rewrite Es.
      * rewrite dict_get_set, str_eqb_refl, dict_get_set.
        destruct (str_eqb s side) eqn:E; [|now rewrite keep_first].
        apply str_eqb_eq in E. subst side. now rewrite Es.
    + simpl. rewrite dict_get_set, str_eqb_refl. simpl.
      now destruct (str_eqb s side).
  - simpl. rewrite Gt.
    assert (R : dict_get d1 tooth = dict_get d tooth).
    { rewrite G, Et. now destruct (dict_get d tooth). }
    destruct (dict_get d t) as [sides|];
      [destruct (negb (dict_mem sides s))
      |destruct (negb (dict_mem (@nil (str * str)) s))];
      rewrite ?dict_get_set, ?Et, R;
      destruct (dict_get d tooth); rewrite ?keep_first; reflexivity.
Qed.

Lemma record_items_date (date : str) (items : list str) (d : dict (dict str))
    (tooth side : str) :
  recorded_date (fold_left (record_item date) items d) tooth side
  = match recorded_date d tooth side with
    | Some x => Some x
    | None => if existsb (item_names tooth side) items then Some date else None
    end.
Proof.
  revert d. induction items as [|item items IH]; intro d; simpl.
  - now rewrite keep_first.
  - rewrite IH, record_item_date.
    destruct (recorded_date d tooth side); [reflexivity|].
    now destruct (item_names tooth side item).
Qed.

Lemma record_rows_date (rows : list (str * str)) (d : dict (dict str))
    (tooth side : str) :
  recorded_date (fold_left record_entries rows d) tooth side
  = match recorded_date d tooth side with
    | Some x => Some x
    | None => option_map fst (find (carries tooth side) rows)
    end.
Proof.
  revert d. induction rows as [|row rows IH]; intro d; simpl.
  - now rewrite keep_first.
  - rewrite IH. unfold record_entries at 1. rewrite record_items_date.
    destruct (recorded_date d tooth side); [reflexivity|].
    fold (carries tooth side row). now destruct (carries tooth side row).
Qed.

Lemma build_tooth_dict_first_date (group : list (cell * cell)) (tooth side : str) :
  recorded_date (build_tooth_dict group) tooth side = first_date group tooth side.
Proof. unfold build_tooth_dict. now rewrite record_rows_date. Qed.

(** *** The order of strings *)

Lemma code_inj (a b : ascii) : code a = code b -> a = b.
Proof.
  unfold code. intro H.
  rewrite <- (ascii_nat_embedding a), <- (ascii_nat_embedding b).
  now rewrite H.
Qed.

Lemma str_ltb_cons (x y : ascii) (a b : str) :
  str_ltb (x :: a) (y :: b) = true
  <-> code x < code y \/ (code x = code y /\ str_ltb a b = true).
Proof.
  simpl. now rewrite orb_true_iff, andb_true_iff, Nat.ltb_lt, Nat.eqb_eq.
Qed.

Lemma str_ltb_irrefl (a : str) : str_ltb a a = false.
Proof.
  induction a as [|x a IH]; [reflexivity|].
  destruct (str_ltb (x :: a) (x :: a)) eqn:E; [|reflexivity].
  apply str_ltb_cons in E. destruct E as [E|[_ E]]; [lia | congruence].
Qed.

Lemma str_ltb_trans (a b c : str) :
  str_ltb a b = true -> str_ltb b c = true -> str_ltb a c = true.
Proof.
  revert b c. induction a as [|x a IH]; intros [|y b] [|z c] H1 H2;
    try discriminate; try reflexivity.
  apply str_ltb_cons in H1. apply str_ltb_cons in H2. apply str_ltb_cons.
  destruct H1 as [H1|[E1 H1]], H2 as [H2|[E2 H2]]; try (left; lia).
  right. split; [lia | eauto].
Qed.

Lemma str_ltb_connex (a b : str) :
  str_ltb a b = false -> a <> b -> str_ltb b a = true.
Proof.
  revert b. induction a as [|x a IH]; intros [|y b] H N;
    try reflexivity; try discriminate; try congruence.
  apply str_ltb_cons.
  destruct (Nat.lt_trichotomy (code x) (code y)) as [L|[E|L]].
  - exfalso. assert (T : str_ltb (x :: a) (y :: b) = true)
      by (apply str_ltb_cons; auto). congruence.
  - right. split; [lia|]. apply code_inj in E. subst y.
    apply IH; [|congruence].
    destruct (str_ltb a b) eqn:Eab; [|reflexivity].
    assert (T : str_ltb (x :: a) (x :: b) = true)
      by (apply str_ltb_cons; auto). congruence.
  - now left.
Qed.

(** *** [sorted] *)

Section SortingFacts.

Variable A : Type.
Variable key : A -> str.

Lemma insert_sorted_perm (x : A) (l : list A) :
  Permutation (insert_sorted key x l) (x :: l).
Proof.
  induction l as [|y l IH]; simpl; [reflexivity|].
  destruct (str_ltb (key x) (key y)); [reflexivity|].
  rewrite IH. apply perm_swap.
Qed.

Lemma sorted_perm (l : list A) : Permutation (sorted key l) l.
Proof.
  induction l as [|x l IH]; simpl; [reflexivity|].
  rewrite insert_sorted_perm. now constructor.
Qed.

Lemma insert_sorted_le (x : A) (l : list A) :
  StronglySorted (key_le key) l -> StronglySorted (key_le key) (insert_sorted key x l).
Proof.
  induction 1 as [|y l S IH F]; simpl.
  - repeat constructor.
  - destruct (str_ltb (key x) (key y)) eqn:E.
    + constructor; [now constructor|]. constructor.
      * unfold key_le. destruct (str_ltb (key y) (key x)) eqn:E'; [|reflexivity].
        pose proof (str_ltb_trans _ _ _ E E') as T.
        rewrite str_ltb_irrefl in T. discriminate.
      * rewrite Forall_forall in *. intros z Hz. specialize (F z Hz).
        unfold key_le in *. destruct (str_ltb (key z) (key x)) eqn:E'; [|reflexivity].
        pose proof (str_ltb_trans _ _ _ E' E). congruence.
    + constructor; [assumption|].
      rewrite Forall_forall in *. intros z Hz.
      apply (Permutation_in _ (insert_sorted_perm x l)) in Hz.
      destruct Hz as [<-|Hz]; [exact E | now apply F].
Qed.

Lemma sorted_le (l : list A) : StronglySorted (key_le key) (sorted key l).
Proof.
  induction l as [|x l IH]; simpl; [constructor | now apply insert_sorted_le].
Qed.

Lemma le_NoDup_lt (l : list A) :
  StronglySorted (key_le key) l -> NoDup (map key l) -> StronglySorted (key_lt key) l.
Proof.
  induction 1 as [|x l S IH F]; intro N; [constructor|].
  simpl in N. inversion N as [|? ? Hx N']; subst.
  constructor; [now apply IH|].
  rewrite Forall_forall in *. intros y Hy. specialize (F y Hy).
  apply str_ltb_connex; [exact F|].
  intro E. apply Hx. rewrite <- E. now apply in_map.
Qed.

Lemma sorted_lt (l : list A) :
  NoDup (map key l) -> StronglySorted (key_lt key) (sorted key l).
Proof.
  intro N. apply le_NoDup_lt; [apply sorted_le|].
  eapply Permutation_NoDup; [|exact N].
  apply Permutation_map. symmetry. apply sorted_perm.
Qed.

End SortingFacts.

Lemma StronglySorted_impl (A : Type) (R R' : A -> A -> Prop) (l : list A) :
  (forall a b, In a l -> In b l -> R a b -> R' a b) ->
  StronglySorted R l -> StronglySorted R' l.
Proof.
  intros H S. induction S as [|x l S IH F]; [constructor|].
  constructor.
  - apply IH. intros a b Ha Hb. apply H; now right.
  - rewrite Forall_forall in *. intros y Hy.
    apply H; [now left | now right | now apply F].
Qed.

(** *** The keys of [tooth_dict] *)

Lemma In_keys_dict_set (V : Type) (d : dict V) (k x : str) (v : V) :
  In x (map fst (dict_set d k v)) <-> In x (map fst d) \/ x = k.
Proof.
  induction d as [|[k0 v0] d IH]; simpl.
  - intuition.
  - destruct (str_eqb k0 k) eqn:E; simpl.
    + apply str_eqb_eq in E. subst k0. intuition.
    + rewrite IH. intuition.
Qed.

Lemma NoDup_keys_dict_set (V : Type) (d : dict V) (k : str) (v : V) :
  NoDup (map fst d) -> NoDup (map fst (dict_set d k v)).
Proof.
  induction d as [|[k0 v0] d IH]; simpl; intro N.
  - repeat constructor. intros [].
  - inversion N as [|? ? Hk N']; subst.
    destruct (str_eqb k0 k) eqn:E; simpl.
    + now constructor.
    + constructor; [|now apply IH].
      rewrite In_keys_dict_set. intros [H|H]; [contradiction|].
      subst k0. rewrite str_eqb_refl in E. discriminate.
Qed.

Lemma NoDup_keys_record_item (date : str) (d : dict (dict str)) (item : str) :
  NoDup (map fst d) -> NoDup (map fst (record_item date d item)).
Proof.
  intro N. unfold record_item.
  destruct (match_item (strip item)) as [[t s]|]; [|assumption].
  assert (N1 : NoDup (map fst (if negb (dict_mem d t)
                               then dict_set d t [] else d))).
  { destruct (negb (dict_mem d t)); [now apply NoDup_keys_dict_set | assumption]. }
  destruct (dict_get _ t) as [sides|]; [|assumption].
  destruct (negb (dict_mem sides s)); [now apply NoDup_keys_dict_set | assumption].
Qed.

Lemma NoDup_keys_build (group : list (cell * cell)) :
  NoDup (map fst (build_tooth_dict group)).
Proof.
  unfold build_tooth_dict.
  assert (G : forall rows d, NoDup (map fst d) ->
                NoDup (map fst (fold_left record_entries rows d))).
  { induction rows as [|row rows IH]; intros d N; simpl; [assumption|].
    apply IH. unfold record_entries.
    generalize (split (lit ", ") (snd row)). intro items. revert d N.
    induction items as [|item items IHi]; intros d N; simpl; [assumption|].
    apply IHi. now apply NoDup_keys_record_item. }
  apply G. constructor.
Qed.

Lemma digit_code (c : ascii) : is_digit c = true -> 48 <= code c <= 57.
Proof.
  unfold is_digit, between. rewrite andb_true_iff, !Nat.leb_le. tauto.
Qed.

Lemma two_digits_order (a b : str) :
  two_digits a -> two_digits b ->
  str_ltb a b = true -> int_of a < int_of b.
Proof.
  intros [La Da] [Lb Db].
  destruct a as [|x [|y [|? ?]]]; try discriminate.
  destruct b as [|u [|v [|? ?]]]; try discriminate.
  inversion Da as [|? ? Hx Da']; subst. inversion Da' as [|? ? Hy _]; subst.
  inversion Db as [|? ? Hu Db']; subst. inversion Db' as [|? ? Hv _]; subst.
  apply digit_code in Hx, Hy, Hu, Hv.
  intro H. apply str_ltb_cons in H.
  unfold int_of, digit_val. cbn [fold_left].
  destruct H as [H|[E H]]; [lia|].
  apply str_ltb_cons in H. destruct H as [H|[_ H]]; [lia | discriminate].
Qed.

(** C8, as the code has it.  For the rows of a patient in the order given
    (no re-sorting), the aggregator keeps for every tooth and side the date
    of the first row that carries the issue for that tooth and side, and
    nothing from later rows.  The output lists every tooth once, in
    ascending order of the tooth strings compared character by character;
    when all tooth numbers have two digits this is the ascending numeric
    order. *)
Theorem C8_first_occurrence_and_order (group : list (cell * cell)) :
  (forall tooth side,
      recorded_date (build_tooth_dict group) tooth side
      = first_date group tooth side)
  /\ aggregate_column group
     = strip_chars (join (lit "<br>")
         (flat_map format_tooth (sorted_items (build_tooth_dict group))))
  /\ Permutation (sorted_items (build_tooth_dict group)) (build_tooth_dict group)
  /\ StronglySorted tooth_lt (sorted_items (build_tooth_dict group))
  /\ (Forall (fun kv => two_digits (fst kv)) (build_tooth_dict group) ->
      StronglySorted key_num_lt (sorted_items (build_tooth_dict group))).
Proof.
  split; [intros; apply build_tooth_dict_first_date|].
  split; [reflexivity|].
  split; [apply sorted_perm|].
  assert (S : StronglySorted tooth_lt (sorted_items (build_tooth_dict group))).
  { unfold sorted_items. apply sorted_lt. apply NoDup_keys_build. }
  split; [exact S|].
  intro F. eapply StronglySorted_impl; [|exact S].
  intros a b Ha Hb. unfold tooth_lt, key_lt, key_num_lt.
  rewrite Forall_forall in F.
  apply two_digits_order; apply F;
    eapply Permutation_in; try eassumption; apply sorted_perm.
Qed.

Lemma C8_first_occurrence_witness :
  Forall (fun kv => two_digits (fst kv)) (build_tooth_dict three_visits)
  /\ recorded_date (build_tooth_dict three_visits) (lit "14") (lit "B")
     = Some (lit "2020-01-01")
  /\ StronglySorted key_num_lt (sorted_items (build_tooth_dict three_visits)).
Proof.
  assert (F : Forall (fun kv => two_digits (fst kv)) (build_tooth_dict three_visits)).
  { repeat constructor. }
  split; [exact F|].
  destruct (C8_first_occurrence_and_order three_visits) as (H1 & _ & _ & _ & H5).
  split; [rewrite H1; reflexivity | exact (H5 F)].
Defined.

(** C8 as stated fails for the order: with a column for tooth 9 next to one
    for tooth 18, tooth 18 is listed before tooth 9. *)
Lemma C8_numeric_order_counterexample :
  map fst (sorted_items (build_tooth_dict one_digit_visit)) = [lit "18"; lit "9"]
  /\ aggregate_column one_digit_visit
     = lit "Tooth 18 - Only B - 2020-01-01<br>Tooth 9 - Only B - 2020-01-01"
  /\ ~ StronglySorted key_num_lt (sorted_items (build_tooth_dict one_digit_visit)).
Proof.
  split; [reflexivity|]. split; [reflexivity|].
  intro S. vm_compute in S. inversion S as [|? ? _ F]; subst.
  inversion F as [|? ? H _]; subst. unfold key_num_lt in H.
  vm_compute in H. lia.
Qed.

(** ** The missing-log parser *)

Lemma startswith_app (p r : str) : startswith p (p ++ r) = true.
Proof.
  induction p as [|c p IH]; simpl; [reflexivity|].
  unfold ascii_eqb. now rewrite Ascii.eqb_refl.
Qed.

Lemma startswith_split (p s : str) :
  startswith p s = true -> s = p ++ skipn (List.length p) s.
Proof.
  revert s. induction p as [|c p IH]; intros s H; [reflexivity|].
  destruct s as [|x s]; [discriminate|]. simpl in H.
  apply andb_true_iff in H. destruct H as [E H].
  apply ascii_eqb_eq in E. subst x. simpl. f_equal. now apply IH.
Qed.

Lemma expect_iff (p s r : str) : expect p s = Some r <-> s = p ++ r.
Proof.
  unfold expect. split.
  - destruct (startswith p s) eqn:E; [|discriminate].
    intro H. injection H as <-. now apply startswith_split.
  - intros ->. rewrite startswith_app. f_equal.
    induction p; simpl; [reflexivity | assumption].
Qed.

Lemma take_digits_iff (n : nat) (s d r : str) :
  take_digits n s = Some (d, r) <-> s = d ++ r /\ digits_n n d.
Proof.
  unfold digits_n, all_digits. revert s d r.
  induction n as [|n IH]; intros s d r; simpl.
  - split.
    + intro H. injection H as <- <-. repeat split. constructor.
    + intros (-> & L & _). destruct d; [reflexivity | discriminate].
  - split.
    + destruct s as [|c s]; [discriminate|].
      destruct (is_digit c) eqn:Hc; [|discriminate].
      destruct (take_digits n s) as [[d' r']|] eqn:T; [|discriminate].
      intro H. injection H as <- <-. apply IH in T.
      destruct T as (-> & L & F). simpl. repeat split; auto.
    + intros (-> & L & F). destruct d as [|x d]; [discriminate|].
      simpl. rewrite (Forall_inv F).
      assert (T : take_digits n (d ++ r) = Some (d, r)).
      { apply IH. split; [reflexivity|]. split.
        - simpl in L. now injection L.
        - exact (Forall_inv_tail F). }
      now rewrite T.
Qed.

(** The tooth group takes two digits when it can. *)
Lemma greedy_tooth (X : Type) (f : str -> X) (s : str) (x : X) :
  greedy_1_2 (fun t _ => Some (f t)) s = Some x
  <-> exists t r, s = t ++ r /\ small_int t
        /\ (List.length t = 2 \/ ~ starts_with_digit r) /\ x = f t.
Proof.
  unfold greedy_1_2, small_int. split.
  - destruct (take_digits 2 s) as [[d r]|] eqn:T2.
    + intro H. injection H as <-. apply take_digits_iff in T2.
      destruct T2 as (-> & L & F). exists d, r. auto 10.
    + destruct (take_digits 1 s) as [[d r]|] eqn:T1; [|discriminate].
      intro H. injection H as <-. apply take_digits_iff in T1.
      destruct T1 as (-> & L & F). exists d, r.
      split; [reflexivity|]. split; [auto|]. split; [|reflexivity].
      right. intros (c & r' & -> & Hc).
      assert (T : take_digits 2 (d ++ c :: r') = Some (d ++ [c], r')).
      { apply take_digits_iff. split; [now rewrite <- app_assoc|].
        split; [rewrite length_app; simpl; lia|].
        apply Forall_app. split; [assumption | now repeat constructor]. }
      congruence.
  - intros (t & r & -> & [[L|L] F] & G & ->).
    + destruct G as [G|G]; [congruence|].
      assert (T2 : take_digits 2 (t ++ r) = None).
      { destruct (take_digits 2 (t ++ r)) as [[d r']|] eqn:T; [|reflexivity].
        exfalso. apply take_digits_iff in T. destruct T as (E & L' & F').
        destruct t as [|a [|? ?]]; try discriminate.
        destruct d as [|b [|c [|? ?]]]; try discriminate.
        simpl in E. injection E as <- ->. apply G.
        inversion F' as [|? ? _ F'']; subst. inversion F''; subst.
        exists c, r'. auto. }
      rewrite T2.
      assert (T1 : take_digits 1 (t ++ r) = Some (t, r))
        by (apply take_digits_iff; repeat split; auto).
      now rewrite T1.
    + assert (T2 : take_digits 2 (t ++ r) = Some (t, r))
        by (apply take_digits_iff; repeat split; auto).
      now rewrite T2.
Qed.

Lemma match_entry_iff (s date tooth : str) (n : nat) :
  match_entry s = Some (date, tooth, n)
  <-> exists rest, entry_at s date tooth rest /\ n = 19 + List.length tooth.
Proof.
  unfold match_entry, entry_at, date_text. split.
  - destruct (take_digits 4 s) as [[y r0]|] eqn:T0; [|discriminate].
    destruct (expect (lit "-") r0) as [r1|] eqn:E1; [|discriminate].
    destruct (take_digits 2 r1) as [[m r2]|] eqn:T2; [|discriminate].
    destruct (expect (lit "-") r2) as [r3|] eqn:E3; [|discriminate].
    destruct (take_digits 2 r3) as [[dd r4]|] eqn:T4; [|discriminate].
    destruct (expect (lit " - Tooth ") r4) as [r5|] eqn:E5; [|discriminate].
    intro H.
    apply (greedy_tooth
             (fun t => (y ++ lit "-" ++ m ++ lit "-" ++ dd, t, 19 + List.length t)))
      in H.
    destruct H as (t & r & -> & St & G & E). injection E as -> -> ->.
    apply take_digits_iff in T0, T2, T4. apply expect_iff in E1, E3, E5.
    destruct T0 as (-> & D0), T2 as (-> & D2), T4 as (-> & D4). subst.
    exists r. split; [|reflexivity].
    split; [unfold lit; repeat (simpl; rewrite <- app_assoc); reflexivity|].
    split; [exists y, m, dd; auto|]. auto.
  - intros (rest & (-> & (y & m & dd & -> & Dy & Dm & Dd) & St & G) & ->).
    rewrite <- !app_assoc.
    assert (T0 : forall r, take_digits 4 (y ++ r) = Some (y, r))
      by (intro; now apply take_digits_iff).
    assert (Tm : forall r, take_digits 2 (m ++ r) = Some (m, r))
      by (intro; now apply take_digits_iff).
    assert (Td : forall r, take_digits 2 (dd ++ r) = Some (dd, r))
      by (intro; now apply take_digits_iff).
    assert (E : forall p r, expect p (p ++ r) = Some r)
      by (intros; now apply expect_iff).
    rewrite T0, E, Tm, E, Td, E.
    apply (greedy_tooth
             (fun t => (y ++ lit "-" ++ m ++ lit "-" ++ dd, t, 19 + List.length t))).
    exists tooth, rest. auto.
Qed.

Lemma date_text_length (d : str) : date_text d -> List.length d = 10.
Proof.
  intros (y & m & dd & -> & [Ly _] & [Lm _] & [Ld _]).
  rewrite !length_app. simpl. lia.
Qed.

(** Where reading resumes after an entry. *)
Lemma entry_rest (s date tooth rest : str) :
  entry_at s date tooth rest ->
  exists c s', s = c :: s'
    /\ skipn (19 + List.length tooth - 1) s' = rest
    /\ List.length rest < List.length s.
Proof.
  intros (-> & Hd & St & _). pose proof (date_text_length Hd) as L.
  destruct date as [|c date]; [discriminate|].
  exists c, (date ++ lit " - Tooth " ++ tooth ++ rest).
  split; [reflexivity|]. split.
  - rewrite !app_assoc.
    replace (19 + List.length tooth - 1)
      with (List.length ((date ++ lit " - Tooth ") ++ tooth))
      by (rewrite !length_app; simpl in *; lia).
    rewrite skipn_app, skipn_all, Nat.sub_diag. reflexivity.
  - simpl. rewrite !length_app. simpl. rewrite !length_app. lia.
Qed.

Lemma findall_entries_skip (n : nat) (s : str) :
  findall_entries n s = findall_entries 0 (skipn n s).
Proof.
  revert n. induction s as [|c s IH]; intro n.
  - now destruct n.
  - destruct n as [|n]; [reflexivity|]. simpl skipn.
    change (findall_entries (S n) (c :: s)) with (findall_entries n s).
    apply IH.
Qed.

Lemma findall_entries_hit (s date tooth rest : str) :
  entry_at s date tooth rest ->
  findall_entries 0 s = (date, tooth) :: findall_entries 0 rest.
Proof.
  intro H. destruct (entry_rest H) as (c & s' & -> & R & _).
  assert (M : match_entry (c :: s') = Some (date, tooth, 19 + List.length tooth))
    by (apply match_entry_iff; eauto).
  cbn [findall_entries]. rewrite M, findall_entries_skip. now rewrite R.
Qed.

Lemma findall_entries_miss (c : ascii) (s : str) :
  (forall date tooth rest, ~ entry_at (c :: s) date tooth rest) ->
  findall_entries 0 (c :: s) = findall_entries 0 s.
Proof.
  intro H. cbn [findall_entries].
  destruct (match_entry (c :: s)) as [[[d t] n]|] eqn:M; [|reflexivity].
  apply match_entry_iff in M. destruct M as (r & E & _).
  exfalso. exact (H _ _ _ E).
Qed.

Lemma findall_entries_occurrences (s : str) :
  Occurrences s (findall_entries 0 s).
Proof.
  remember (List.length s) as n eqn:L. revert s L.
  induction n as [n IH] using lt_wf_ind. intros s L.
  destruct s as [|c s]; [constructor|].
  destruct (match_entry (c :: s)) as [[[d t] k]|] eqn:M.
  - apply match_entry_iff in M. destruct M as (r & E & _).
    rewrite (findall_entries_hit E).
    apply occ_entry with (rest := r); [assumption|].
    destruct (entry_rest E) as (_ & _ & _ & _ & Lt).
    apply (IH (List.length r)); [lia | reflexivity].
  - assert (N : forall date tooth rest, ~ entry_at (c :: s) date tooth rest).
    { intros date tooth rest E.
      assert (M' : match_entry (c :: s)
                   = Some (date, tooth, 19 + List.length tooth))
        by (apply match_entry_iff; eauto).
      congruence. }
    rewrite (findall_entries_miss N). apply occ_skip; [assumption|].
    apply (IH (List.length s)); [simpl in L; lia | reflexivity].
Qed.

Lemma occurrences_unique (s : str) (l : list (str * str)) :
  Occurrences s l -> l = findall_entries 0 s.
Proof.
  induction 1 as [|c s l N O IH|s date tooth rest l E O IH].
  - reflexivity.
  - now rewrite (findall_entries_miss N).
  - rewrite (findall_entries_hit E). now f_equal.
Qed.

Lemma occurrences_shape (s : str) (l : list (str * str)) :
  Occurrences s l ->
  Forall (fun e => date_text (fst e) /\ small_int (snd e)) l.
Proof.
  induction 1 as [|c s l N O IH|s date tooth rest l E O IH]; auto.
  constructor; [|assumption]. destruct E as (_ & Hd & Ht & _). auto.
Qed.

Lemma for_each_dates_ok (l : list (str * str)) :
  Forall (fun e => strptime_ymd (fst e) <> None) l ->
  exists r,
    for_each (fun dt => d <- strptime (fst dt) ;; Returned (d, snd dt)) l
    = Returned r
    /\ Forall2 (fun e p => strptime_ymd (fst e) = Some (fst p) /\ snd p = snd e)
         l r.
Proof.
  induction 1 as [|e l He F (r & E & R)]; cbn [for_each].
  - exists []. split; [reflexivity | constructor].
  - rewrite E. unfold strptime.
    destruct (strptime_ymd (fst e)) as [d|] eqn:P; [|contradiction].
    simpl. exists ((d, snd e) :: r).
    split; [reflexivity|]. constructor; auto.
Qed.

Lemma for_each_dates_raise (l : list (str * str)) :
  Exists (fun e => strptime_ymd (fst e) = None) l ->
  for_each (fun dt => d <- strptime (fst dt) ;; Returned (d, snd dt)) l
  = Raised ValueError.
Proof.
  induction 1 as [e l He|e l H IH]; cbn [for_each].
  - unfold strptime. now rewrite He.
  - rewrite IH. unfold strptime. now destruct (strptime_ymd (fst e)).
Qed.

(** C6, as the code has it.  A narrative that is not a string gives the
    empty list.  For a string, the tooth codes are rewritten and the text is
    read from the left: the result has one pair per entry
    [YYYY-MM-DD - Tooth N] or [YYYY-MM-DD - Tooth NN], in order of appearance
    (not sorted by date), entries not overlapping; the tooth is given with
    the one or two digits it is written with.  When every matched date is a
    calendar date the pairs are returned with the dates parsed; when one is
    not, the parser raises [ValueError]. *)
Theorem C6_missing_log_parser :
  missing_log_parser None = Returned []
  /\ (forall s,
      let text := replace_tooth_codes s in
      let entries := findall_entries 0 text in
      Occurrences text entries
      /\ (forall l, Occurrences text l -> l = entries)
      /\ Forall (fun e => date_text (fst e) /\ small_int (snd e)) entries
      /\ (Forall (fun e => strptime_ymd (fst e) <> None) entries ->
          exists r, missing_log_parser (Some s) = Returned r
            /\ Forall2 (fun e p => strptime_ymd (fst e) = Some (fst p)
                                   /\ snd p = snd e) entries r)
      /\ (Exists (fun e => strptime_ymd (fst e) = None) entries ->
          missing_log_parser (Some s) = Raised ValueError))
  /\ missing_log_parser (Some (lit "2021-03-04 - Tooth 14, 2021-05-01 - Tooth 09"))
     = Returned [(mkDate 2021 3 4, lit "14"); (mkDate 2021 5 1, lit "09")]
  /\ missing_log_parser (Some (lit "2021-05-01 - T09 - Missing<br>2021-03-04 - T14 - Missing"))
     = Returned [(mkDate 2021 5 1, lit "09"); (mkDate 2021 3 4, lit "14")].
Proof.
  split; [reflexivity|]. split; [|split; vm_compute; reflexivity].
  intros s text entries.
  pose proof (findall_entries_occurrences text) as O.
  split; [exact O|]. split; [apply occurrences_unique|].
  split; [exact (occurrences_shape O)|].
  split; intro H; unfold missing_log_parser, extract_missing_teeth_with_dates.
  - now apply for_each_dates_ok.
  - now apply for_each_dates_raise.
Qed.

Lemma C6_missing_log_parser_witness :
  Forall (fun e => strptime_ymd (fst e) <> None)
    (findall_entries 0 (replace_tooth_codes two_codes))
  /\ exists r,
       missing_log_parser (Some two_codes) = Returned r
       /\ Forall2 (fun e p => strptime_ymd (fst e) = Some (fst p)
                              /\ snd p = snd e)
            (findall_entries 0 (replace_tooth_codes two_codes)) r.
Proof.
  assert (F : Forall (fun e => strptime_ymd (fst e) <> None)
                (findall_entries 0 (replace_tooth_codes two_codes))).
  { assert (E : findall_entries 0 (replace_tooth_codes two_codes)
                = [(lit "2021-05-01", lit "9"); (lit "2021-03-04", lit "14")])
      by (vm_compute; reflexivity).
    rewrite E. repeat constructor; intro H; vm_compute in H; discriminate H. }
  split; [exact F|].
  destruct C6_missing_log_parser as (_ & H & _).
  destruct (H two_codes) as (_ & _ & _ & Hok & _).
  exact (Hok F).
Defined.

(** C6 as stated fails twice: a tooth written with one digit is returned as
    a one-digit string, and an entry whose date is not a calendar date makes
    the parser raise instead of returning the pairs. *)
Lemma C6_parser_counterexample :
  missing_log_parser (Some (lit "2021-03-04 - Tooth 9"))
  = Returned [(mkDate 2021 3 4, lit "9")]
  /\ List.length (lit "9") <> 2
  /\ missing_log_parser (Some (lit "2021-02-30 - Tooth 14")) = Raised ValueError.
Proof.
  split; [vm_compute; reflexivity|].
  split; [discriminate | vm_compute; reflexivity].
Qed.

(** * Further properties *)

(** ** The visits of one patient along the pool *)

Lemma group_of_In (d : list Row) (p : nat) (r : Row) :
  In r (group_of d p) <-> In r d /\ ResearchID r = p.
Proof. unfold group_of. now rewrite filter_In, Nat.eqb_eq. Qed.

Lemma has_patient_group (d : list Row) (p : nat) :
  has_patient d p = true <-> group_of d p <> [].
Proof.
  unfold has_patient, group_of. induction d as [|r d IH]; simpl.
  - split; [discriminate | congruence].
  - destruct (Nat.eqb (ResearchID r) p); simpl; [|exact IH].
    split; [discriminate | reflexivity].
Qed.

Lemma filter_comm (A : Type) (f g : A -> bool) (l : list A) :
  filter f (filter g l) = filter g (filter f l).
Proof.
  induction l as [|x l IH]; simpl; [reflexivity|].
  destruct (f x) eqn:F, (g x) eqn:G; simpl; rewrite ?F, ?G, IH; reflexivity.
Qed.

Lemma group_of_filter (f : Row -> bool) (d : list Row) (p : nat) :
  group_of (filter f d) p = filter f (group_of d p).
Proof. unfold group_of. apply filter_comm. Qed.

Lemma filter_const_on (A : Type) (f : A -> bool) (c : bool) (l : list A) :
  (forall x, In x l -> f x = c) -> filter f l = if c then l else [].
Proof.
  intro H. induction l as [|x l IH]; simpl.
  - now destruct c.
  - rewrite (H x (or_introl eq_refl)), IH by (intros; apply H; now right).
    now destruct c.
Qed.

Lemma existsb_const_on (A : Type) (f : A -> bool) (c : bool) (l : list A) :
  (forall x, In x l -> f x = c) -> l <> [] -> existsb f l = c.
Proof.
  intros H N. destruct l as [|x l]; [congruence|]. clear N.
  induction l as [|y l IH] in x, H |- *; simpl.
  - rewrite (H x (or_introl eq_refl)). apply orb_false_r.
  - rewrite (H x (or_introl eq_refl)).
    assert (E : existsb f (y :: l) = c)
      by (apply IH; intros; apply H; now right).
    simpl in E. rewrite E. now destruct c.
Qed.

Lemma has_patient_filter_group (f : Row -> bool) (d : list Row) (p : nat) :
  has_patient (filter f d) p = existsb f (group_of d p).
Proof.
  unfold has_patient, group_of. induction d as [|r d IH]; simpl; [reflexivity|].
  destruct (f r) eqn:F, (Nat.eqb (ResearchID r) p) eqn:E; simpl;
    rewrite ?F, ?E, IH; reflexivity.
Qed.

Lemma group_of_without (b pool : list Row) (p : nat) :
  group_of (without (ids_of b) pool) p
  = if has_patient b p then [] else group_of pool p.
Proof.
  unfold without. rewrite group_of_filter.
  rewrite (@filter_const_on _ _ (negb (has_patient b p))).
  - now destruct (has_patient b p).
  - intros r Hr. apply group_of_In in Hr. destruct Hr as [_ <-].
    now rewrite isin_ids_of.
Qed.

Lemma consistent_or_inconsistent (group : list Row) (cols : list str) :
  consistent_loop group cols = negb (inconsistent_loop group cols).
Proof.
  induction cols as [|col cols IH]; simpl; [reflexivity|].
  destruct (all_isna group col); simpl; [exact IH|].
  now destruct (all_notna group col).
Qed.

Section OnePatientFacts.

Variable column_range : list str.
Variable pattern_match : str -> bool.
Variable row_does_not_match_pattern : Row -> bool.

Lemma is_fully_consistent_on_group (d : list Row) (p : nat) (r : Row) :
  In r (group_of d p) ->
  is_fully_consistent_missing_teeth column_range d r
  = fully_consistent_group column_range (group_of d p).
Proof.
  intro H. apply group_of_In in H. destruct H as [_ <-]. reflexivity.
Qed.

Lemma is_inconsistent_on_group (d : list Row) (p : nat) (r : Row) :
  In r (group_of d p) ->
  is_inconsistent_missing_teeth column_range d r
  = inconsistent_group column_range (group_of d p).
Proof.
  intro H. apply group_of_In in H. destruct H as [_ <-]. reflexivity.
Qed.

Lemma single_visit_on_group (d : list Row) (p : nat) (r : Row) :
  In r (group_of d p) ->
  single_visit d r = (List.length (group_of d p) =? 1).
Proof.
  intro H. apply group_of_In in H. destruct H as [_ <-]. reflexivity.
Qed.

(** The bucket that holds a patient is decided by that patient's own
    visits. *)
Lemma six_buckets_one_pass (sheet : list Row) (p : nat) :
  has_patient sheet p = true ->
  has_patient
    (bucket (six_buckets column_range pattern_match row_does_not_match_pattern sheet)
       (category_of_visits column_range pattern_match
          row_does_not_match_pattern
          (group_of (map (standardize column_range) sheet) p)))
    p = true
  /\ (forall c,
        has_patient
          (bucket (six_buckets column_range pattern_match row_does_not_match_pattern sheet) c)
          p = true ->
        c <> NoMissingData -> c <> SystematicMissingData ->
        group_of
          (bucket (six_buckets column_range pattern_match row_does_not_match_pattern sheet) c)
          p
        = group_of (map (standardize column_range) sheet) p).
Proof.
  intro H. rewrite <- (has_patient_standardize column_range sheet p) in H.
  unfold six_buckets, category_of_visits.
  set (data0 := map (standardize column_range) sheet) in *.
  set (g0 := group_of data0 p).
  assert (N : g0 <> []) by now apply has_patient_group.
  set (b1 := filter (row_matches_pattern column_range pattern_match) data0).
  set (data1 := without (ids_of b1) data0).
  set (b2 := filter row_does_not_match_pattern data1).
  set (data2 := without (ids_of b2) data1).
  set (b3 := filter (is_fully_consistent_missing_teeth column_range data2) data2).
  set (data3 := without (ids_of b3) data2).
  set (b4 := filter (is_inconsistent_missing_teeth column_range data3) data3).
  set (data4 := without (ids_of b4) data3).
  set (b5 := filter (single_visit data4) data4).
  set (data5 := without (ids_of b5) data4).
  assert (E1 : has_patient b1 p
               = existsb (row_matches_pattern column_range pattern_match) g0)
    by apply has_patient_filter_group.
  assert (G1 : group_of data1 p = if has_patient b1 p then [] else g0)
    by apply group_of_without.
  assert (E2 : has_patient b2 p
               = existsb row_does_not_match_pattern (group_of data1 p))
    by apply has_patient_filter_group.
  pose proof E2 as E2'.
  assert (G2 : group_of data2 p
               = if has_patient b2 p then [] else group_of data1 p)
    by apply group_of_without.
  assert (E3 : has_patient b3 p
               = existsb (is_fully_consistent_missing_teeth column_range data2)
                   (group_of data2 p))
    by apply has_patient_filter_group.
  assert (G3 : group_of data3 p
               = if has_patient b3 p then [] else group_of data2 p)
    by apply group_of_without.
  assert (E4 : has_patient b4 p
               = existsb (is_inconsistent_missing_teeth column_range data3)
                   (group_of data3 p))
    by apply has_patient_filter_group.
  assert (G4 : group_of data4 p
               = if has_patient b4 p then [] else group_of data3 p)
    by apply group_of_without.
  assert (E5 : has_patient b5 p
               = existsb (single_visit data4) (group_of data4 p))
    by apply has_patient_filter_group.
  assert (G5 : group_of data5 p
               = if has_patient b5 p then [] else group_of data4 p)
    by apply group_of_without.
  assert (K3 : group_of b3 p
               = filter (is_fully_consistent_missing_teeth column_range data2)
                   (group_of data2 p))
    by apply group_of_filter.
  assert (K4 : group_of b4 p
               = filter (is_inconsistent_missing_teeth column_range data3)
                   (group_of data3 p))
    by apply group_of_filter.
  assert (K5 : group_of b5 p = filter (single_visit data4) (group_of data4 p))
    by apply group_of_filter.
  assert (F3 : forall r, In r (group_of data2 p) ->
                 is_fully_consistent_missing_teeth column_range data2 r
                 = fully_consistent_group column_range (group_of data2 p))
    by apply is_fully_consistent_on_group.
  assert (F4 : forall r, In r (group_of data3 p) ->
                 is_inconsistent_missing_teeth column_range data3 r
                 = inconsistent_group column_range (group_of data3 p))
    by apply is_inconsistent_on_group.
  assert (F5 : forall r, In r (group_of data4 p) ->
                 single_visit data4 r = (List.length (group_of data4 p) =? 1))
    by apply single_visit_on_group.
  rewrite (@filter_const_on _ _ _ _ F3) in K3.
  rewrite (@filter_const_on _ _ _ _ F4) in K4.
  rewrite (@filter_const_on _ _ _ _ F5) in K5.
  assert (X3 : group_of data2 p = g0 ->
               has_patient b3 p = fully_consistent_group column_range g0).
  { intro G. rewrite E3, <- G. apply existsb_const_on; [exact F3 | now rewrite G]. }
  assert (X4 : group_of data3 p = g0 ->
               has_patient b4 p = inconsistent_group column_range g0).
  { intro G. rewrite E4, <- G. apply existsb_const_on; [exact F4 | now rewrite G]. }
  assert (X5 : group_of data4 p = g0 ->
               has_patient b5 p = (List.length g0 =? 1)).
  { intro G. rewrite E5, <- G. apply existsb_const_on; [exact F5 | now rewrite G]. }
  assert (Z2 : group_of data1 p = [] -> has_patient b2 p = false)
    by (intro G; now rewrite E2, G).
  assert (Z3 : group_of data2 p = [] -> has_patient b3 p = false)
    by (intro G; now rewrite E3, G).
  assert (Z4 : group_of data3 p = [] -> has_patient b4 p = false)
    by (intro G; now rewrite E4, G).
  assert (Z5 : group_of data4 p = [] -> has_patient b5 p = false)
    by (intro G; now rewrite E5, G).
  assert (Z6 : group_of data5 p = [] -> has_patient data5 p = false).
  { intro G. destruct (has_patient data5 p) eqn:T; [|reflexivity].
    apply has_patient_group in T. congruence. }
  clear E2 E3 E4 E5 F3 F4 F5.
  rewrite <- E1. clear E1.
  destruct (has_patient b1 p) eqn:H1.
  { simpl in G1. specialize (Z2 G1). rewrite Z2 in G2. rewrite G1 in G2.
    specialize (Z3 G2). rewrite Z3, G2 in G3. specialize (Z4 G3).
    rewrite Z4, G3 in G4. specialize (Z5 G4). rewrite Z5, G4 in G5.
    specialize (Z6 G5).
    split; [exact H1|].
    intros c Hc. destruct c; simpl in Hc; congruence. }
  simpl in G1. rewrite G1 in E2', G2. rewrite <- E2'. clear E2'.
  destruct (has_patient b2 p) eqn:H2.
  { specialize (Z3 G2). rewrite Z3, G2 in G3. specialize (Z4 G3).
    rewrite Z4, G3 in G4. specialize (Z5 G4). rewrite Z5, G4 in G5.
    specialize (Z6 G5).
    split; [exact H2|].
    intros c Hc N1 N2. destruct c; simpl in Hc; congruence. }
  specialize (X3 G2). rewrite G2 in K3, G3. rewrite <- X3 in K3 |- *.
  destruct (has_patient b3 p) eqn:H3.
  { specialize (Z4 G3). rewrite Z4, G3 in G4. specialize (Z5 G4).
    rewrite Z5, G4 in G5. specialize (Z6 G5).
    split; [exact H3|].
    intros c Hc N1 N2. destruct c; simpl in Hc |- *; congruence. }
  specialize (X4 G3). rewrite G3 in K4, G4. rewrite <- X4 in K4 |- *.
  destruct (has_patient b4 p) eqn:H4.
  { specialize (Z5 G4). rewrite Z5, G4 in G5. specialize (Z6 G5).
    split; [exact H4|].
    intros c Hc N1 N2. destruct c; simpl in Hc |- *; congruence. }
  specialize (X5 G4). rewrite G4 in K5, G5. rewrite <- X5 in K5 |- *.
  destruct (has_patient b5 p) eqn:H5.
  { specialize (Z6 G5).
    split; [exact H5|].
    intros c Hc N1 N2. destruct c; simpl in Hc |- *; congruence. }
  split.
  - simpl. apply has_patient_group. now rewrite G5.
  - intros c Hc N1 N2. destruct c; simpl in Hc |- *; congruence.
Qed.


Lemma category_of_visits_not_other (visits : list Row) :
  visits <> [] ->
  category_of_visits column_range pattern_match row_does_not_match_pattern visits
  <> Other.
Proof.
  intro N. unfold category_of_visits, fully_consistent_group, inconsistent_group.
  destruct (existsb _ visits); [discriminate|].
  destruct (existsb _ visits); [discriminate|].
  destruct visits as [|r [|r' visits]]; [congruence | discriminate|].
  change (List.length (r :: r' :: visits) <=? 1) with false. cbv iota.
  rewrite consistent_or_inconsistent.
  destruct (inconsistent_loop _ _); discriminate.
Qed.

Lemma categories_of_one_pass (sheet : list Row) (p : nat) :
  has_patient sheet p = true ->
  categories_of
    (six_buckets column_range pattern_match row_does_not_match_pattern sheet) p
  = [category_of_visits column_range pattern_match row_does_not_match_pattern
       (group_of (map (standardize column_range) sheet) p)].
Proof.
  intro H.
  destruct (categories_of_six_buckets column_range pattern_match
              row_does_not_match_pattern sheet p) as [One _].
  destruct (One H) as [c Ec]. rewrite Ec. f_equal.
  destruct (six_buckets_one_pass sheet p H) as [Hc _].
  apply In_categories_of in Hc. rewrite Ec in Hc.
  destruct Hc as [Hc|[]]. exact Hc.
Qed.

Lemma remaining_data_empty (sheet : list Row) :
  remaining_data
    (six_buckets column_range pattern_match row_does_not_match_pattern sheet) = [].
Proof.
  destruct (remaining_data (six_buckets column_range pattern_match row_does_not_match_pattern sheet))
    as [|r rest] eqn:E; [reflexivity|].
  exfalso.
  assert (Hp : has_patient
                 (bucket (six_buckets column_range pattern_match row_does_not_match_pattern sheet) Other)
                 (ResearchID r) = true).
  { change (bucket (six_buckets column_range pattern_match row_does_not_match_pattern sheet) Other)
      with (remaining_data (six_buckets column_range pattern_match row_does_not_match_pattern sheet)).
    rewrite E. simpl. now rewrite Nat.eqb_refl. }
  apply In_categories_of in Hp.
  destruct (has_patient sheet (ResearchID r)) eqn:S.
  - rewrite (categories_of_one_pass _ _ S) in Hp.
    destruct Hp as [Hp|[]].
    apply (@category_of_visits_not_other
             (group_of (map (standardize column_range) sheet) (ResearchID r)));
      [|exact Hp].
    apply has_patient_group. now rewrite has_patient_standardize.
  - destruct (categories_of_six_buckets column_range pattern_match
                row_does_not_match_pattern sheet (ResearchID r)) as [_ Zero].
    rewrite (Zero S) in Hp. exact Hp.
Qed.

End OnePatientFacts.

Lemma In_has_patient (d : list Row) (r : Row) :
  In r d -> has_patient d (ResearchID r) = true.
Proof.
  intro H. apply has_patient_In. now apply in_map.
Qed.

Lemma one_bucket_per_patient
    (column_range : list str) (pattern_match : str -> bool)
    (malformed : Row -> bool) (sheet : list Row) (p : nat)
    (c c' : PatientCategory) :
  has_patient (bucket (six_buckets column_range pattern_match malformed sheet) c) p = true ->
  has_patient (bucket (six_buckets column_range pattern_match malformed sheet) c') p = true ->
  c = c' /\ has_patient sheet p = true.
Proof.
  intros H H'. apply In_categories_of in H, H'.
  destruct (categories_of_six_buckets column_range pattern_match malformed sheet p)
    as [One Zero].
  destruct (has_patient sheet p).
  - destruct (One eq_refl) as [x E]. rewrite E in H, H'.
    destruct H as [H|[]], H' as [H'|[]]. split; congruence.
  - rewrite (Zero eq_refl) in H. destruct H.
Qed.




(** X1. Whenever the run ends, the bucket a patient of the table has
    reached through the shrinking pool is the one obtained by applying the
    tests of the script, in its order, to that patient's own (standardised)
    visits. *)
Theorem X1_classifier_decides_per_patient
    (column_range : list str) (sheet : list Row) (p : nat) (b : Buckets) :
  In p (map ResearchID sheet) ->
  (PocketsClassifier.classify column_range sheet = Returned b ->
   categories_of b p
   = [category_of_visits column_range Pockets.pattern_match
        (PocketsClassifier.row_does_not_match_pattern column_range)
        (group_of (map (standardize column_range) sheet) p)])
  /\ (RecessionsClassifier.classify column_range sheet = Returned b ->
      categories_of b p
      = [category_of_visits column_range Recessions.pattern_match
           (RecessionsClassifier.row_does_not_match_pattern column_range)
           (group_of (map (standardize column_range) sheet) p)]).
Proof.
  intro H. apply has_patient_In in H.
  split; intro E; apply classify_returned in E; destruct E as [-> _];
    now apply categories_of_one_pass.
Qed.

Lemma X1_classifier_decides_per_patient_witness :
  In 2 (map ResearchID mixed_sheet)
  /\ PocketsClassifier.classify sample_columns mixed_sheet
     = Returned (six_buckets sample_columns Pockets.pattern_match
                   (PocketsClassifier.row_does_not_match_pattern sample_columns)
                   mixed_sheet)
  /\ categories_of
       (six_buckets sample_columns Pockets.pattern_match
          (PocketsClassifier.row_does_not_match_pattern sample_columns)
          mixed_sheet) 2
     = [category_of_visits sample_columns Pockets.pattern_match
          (PocketsClassifier.row_does_not_match_pattern sample_columns)
          (group_of (map (standardize sample_columns) mixed_sheet) 2)].
Proof.
  assert (S : In 2 (map ResearchID mixed_sheet)) by (simpl; auto).
  assert (E : PocketsClassifier.classify sample_columns mixed_sheet
              = Returned (six_buckets sample_columns Pockets.pattern_match
                            (PocketsClassifier.row_does_not_match_pattern sample_columns)
                            mixed_sheet))
    by (vm_compute; reflexivity).
  split; [exact S|]. split; [exact E|].
  exact (proj1 (@X1_classifier_decides_per_patient sample_columns mixed_sheet 2
                  (six_buckets sample_columns Pockets.pattern_match
                     (PocketsClassifier.row_does_not_match_pattern sample_columns)
                     mixed_sheet) S) E).
Defined.

(** X2. Whenever the run ends, the last bucket, [remaining_data], is
    empty: a patient left after the first two buckets has one visit, or
    several visits whose columns are either all consistent or not. *)
Theorem X2_remaining_data_is_empty
    (column_range : list str) (sheet : list Row) (b : Buckets) :
  PocketsClassifier.classify column_range sheet = Returned b
  \/ RecessionsClassifier.classify column_range sheet = Returned b ->
  remaining_data b = [].
Proof.
  intros [E|E]; apply classify_returned in E; destruct E as [-> _];
    apply remaining_data_empty.
Qed.

Lemma X2_remaining_data_is_empty_witness :
  RecessionsClassifier.classify sample_columns mixed_sheet
  = Returned (six_buckets sample_columns Recessions.pattern_match
                (RecessionsClassifier.row_does_not_match_pattern sample_columns)
                mixed_sheet)
  /\ remaining_data
       (six_buckets sample_columns Recessions.pattern_match
          (RecessionsClassifier.row_does_not_match_pattern sample_columns)
          mixed_sheet) = [].
Proof.
  assert (E : RecessionsClassifier.classify sample_columns mixed_sheet
              = Returned (six_buckets sample_columns Recessions.pattern_match
                            (RecessionsClassifier.row_does_not_match_pattern sample_columns)
                            mixed_sheet))
    by (vm_compute; reflexivity).
  split; [exact E|].
  exact (@X2_remaining_data_is_empty sample_columns mixed_sheet _ (or_intror E)).
Defined.

(** X3. Whenever the run ends, a patient placed in the consistent,
    inconsistent or single-observation bucket has all visits in that bucket,
    in the order of the table; only the first two buckets keep part of a
    patient's visits. *)
Theorem X3_later_buckets_keep_all_visits
    (column_range : list str) (sheet : list Row) (p : nat) (c : PatientCategory)
    (b : Buckets) :
  PocketsClassifier.classify column_range sheet = Returned b
  \/ RecessionsClassifier.classify column_range sheet = Returned b ->
  c <> NoMissingData -> c <> SystematicMissingData ->
  has_patient (bucket b c) p = true ->
  group_of (bucket b c) p = group_of (map (standardize column_range) sheet) p.
Proof.
  intros [E|E] N1 N2 H; apply classify_returned in E; destruct E as [-> _];
    destruct (one_bucket_per_patient _ _ _ _ _ _ _ H H) as [_ S].
  - destruct (six_buckets_one_pass column_range Pockets.pattern_match
                (PocketsClassifier.row_does_not_match_pattern column_range)
                sheet p S) as [_ K].
    now apply K.
  - destruct (six_buckets_one_pass column_range Recessions.pattern_match
                (RecessionsClassifier.row_does_not_match_pattern column_range)
                sheet p S) as [_ K].
    now apply K.
Qed.

Lemma X3_later_buckets_keep_all_visits_witness :
  PocketsClassifier.classify sample_columns consistent_sheet
  = Returned (six_buckets sample_columns Pockets.pattern_match
                (PocketsClassifier.row_does_not_match_pattern sample_columns)
                consistent_sheet)
  /\ has_patient
       (bucket (six_buckets sample_columns Pockets.pattern_match
                  (PocketsClassifier.row_does_not_match_pattern sample_columns)
                  consistent_sheet)
          ConsistentMissingData) 3 = true
  /\ group_of
       (bucket (six_buckets sample_columns Pockets.pattern_match
                  (PocketsClassifier.row_does_not_match_pattern sample_columns)
                  consistent_sheet)
          ConsistentMissingData) 3
     = group_of (map (standardize sample_columns) consistent_sheet) 3.
Proof.
  assert (N1 : ConsistentMissingData <> NoMissingData) by discriminate.
  assert (N2 : ConsistentMissingData <> SystematicMissingData) by discriminate.
  assert (E : PocketsClassifier.classify sample_columns consistent_sheet
              = Returned (six_buckets sample_columns Pockets.pattern_match
                            (PocketsClassifier.row_does_not_match_pattern sample_columns)
                            consistent_sheet))
    by (vm_compute; reflexivity).
  assert (H : has_patient
                (bucket (six_buckets sample_columns Pockets.pattern_match
                           (PocketsClassifier.row_does_not_match_pattern sample_columns)
                           consistent_sheet)
                   ConsistentMissingData) 3 = true)
    by (vm_compute; reflexivity).
  split; [exact E|]. split; [exact H|].
  exact (@X3_later_buckets_keep_all_visits sample_columns consistent_sheet 3
           ConsistentMissingData _ (or_introl E) N1 N2 H).
Defined.


(** *** The two malformed-cell tests *)

Lemma blank_to_nan_not_empty (c : cell) : blank_to_nan c <> Some [].
Proof.
  destruct c as [[|x s]|]; simpl; try discriminate.
  destruct (is_space x && forallb is_space s); discriminate.
Qed.

Lemma at_col_standardize (column_range : list str) (r : Row) (col : str) :
  In col column_range ->
  at_col (standardize column_range r) col = blank_to_nan (at_col r col).
Proof.
  intro H. unfold at_col, standardize. simpl.
  induction (values r) as [|[k v] vs IH]; simpl; [reflexivity|].
  destruct (existsb (str_eqb k) column_range) eqn:E; simpl;
    destruct (str_eqb k col) eqn:K; try exact IH; try reflexivity.
  apply str_eqb_eq in K. subst k.
  assert (T : existsb (str_eqb col) column_range = true).
  { apply existsb_exists. exists col. split; [assumption | apply str_eqb_refl]. }
  congruence.
Qed.

Lemma malformed_loops_agree (pattern_match : str -> bool) (r : Row)
    (cols : list str) :
  (forall col, In col cols -> at_col r col <> Some []) ->
  recessions_malformed_loop pattern_match r cols
  = pockets_malformed_loop pattern_match r cols.
Proof.
  induction cols as [|col cols IH]; intro H; simpl; [reflexivity|].
  assert (IH' : recessions_malformed_loop pattern_match r cols
                = pockets_malformed_loop pattern_match r cols)
    by (apply IH; intros; apply H; now right).
  pose proof (H col (or_introl eq_refl)) as N.
  revert N. destruct (at_col r col) as [[|x s]|]; intro N; simpl;
    [exfalso; now apply N| |exact IH'].
  now rewrite IH'.
Qed.

(** X4. On the standardised table the empty-string exemption of the
    recessions script never applies: the recessions classification is the
    classification with the test of the pockets script, run with the
    recessions pattern. *)
Theorem X4_recessions_empty_string_branch_is_dead
    (column_range : list str) (sheet : list Row) :
  RecessionsClassifier.classify column_range sheet
  = classify column_range Recessions.pattern_match
      (fun row => pockets_malformed_loop Recessions.pattern_match row column_range)
      sheet.
Proof.
  unfold RecessionsClassifier.classify, classify.
  set (data0 := map (standardize column_range) sheet).
  destruct (select_rows _ data0) as [no_missing|e]; [cbn [bind] | reflexivity].
  set (data1 := without (ids_of no_missing) data0).
  assert (E : select_rows
                (RecessionsClassifier.row_does_not_match_pattern column_range) data1
              = select_rows
                  (fun row => pockets_malformed_loop Recessions.pattern_match
                                row column_range) data1).
  { assert (F : filter (RecessionsClassifier.row_does_not_match_pattern column_range)
                  data1
                = filter (fun row => pockets_malformed_loop Recessions.pattern_match
                                       row column_range) data1).
    { apply filter_ext_in. intros r Hr.
      unfold RecessionsClassifier.row_does_not_match_pattern.
      apply malformed_loops_agree. intros col Hc.
      unfold data1, without in Hr. apply filter_In in Hr. destruct Hr as [Hr _].
      unfold data0 in Hr. apply in_map_iff in Hr. destruct Hr as (r0 & <- & _).
      rewrite (@at_col_standardize column_range r0 col Hc).
      apply blank_to_nan_not_empty. }
    unfold select_rows. rewrite F. reflexivity. }
  now rewrite E.
Qed.

(** X5. Every text accepted by the pattern of the pockets script is
    accepted by the pattern of the recessions script. *)
Theorem X5_pockets_pattern_within_recessions_pattern (s : str) :
  Pockets.pattern_match s = true -> Recessions.pattern_match s = true.
Proof.
  intro H. apply pockets_pattern_iff in H. apply recessions_pattern_iff.
  destruct H as (a & g1 & b & g2 & c & E & Ha & [L1 F1] & Hb & [L2 F2] & Hc).
  exists a, g1, b, g2, c.
  split; [exact E|]. split; [exact Ha|].
  split; [split; [lia | exact F1]|]. split; [exact Hb|].
  split; [split; [lia | exact F2] | exact Hc].
Qed.

Lemma X5_pockets_pattern_within_recessions_witness :
  Pockets.pattern_match (lit " 9  10 11 ") = true
  /\ Recessions.pattern_match (lit " 9  10 11 ") = true.
Proof.
  assert (H : Pockets.pattern_match (lit " 9  10 11 ") = true)
    by (vm_compute; reflexivity).
  split; [exact H|].
  exact (@X5_pockets_pattern_within_recessions_pattern (lit " 9  10 11 ") H).
Defined.

(** *** The hand-off table *)

Lemma In_pickle_df (b : Buckets) (r : Row) (t : str) :
  In (r, t) (pickle_df b) <->
  exists c, t = Data_Type c /\ In r (bucket b c).
Proof.
  unfold pickle_df, with_data_type. rewrite !in_app_iff, !in_map_iff. split.
  - intros [H|[H|[H|[H|[H|H]]]]]; destruct H as (x & E & Hx);
      inversion E; subst;
      [exists NoMissingData | exists SystematicMissingData
      |exists ConsistentMissingData | exists InconsistentMissingData
      |exists SingleObservationData | exists Other]; split; auto.
  - intros (c & -> & H). destruct c; simpl in H; eauto 10.
Qed.

(** X6. Whenever the pockets script runs to the end, all rows of one
    patient carry the same [Data_Type] in its hand-off table. *)
Theorem X6_one_data_type_per_patient
    (column_range : list str) (sheet : list Row) (b : Buckets)
    (r r' : Row) (t t' : str) :
  PocketsClassifier.classify column_range sheet = Returned b ->
  ResearchID r = ResearchID r' ->
  In (r, t) (pickle_df b) ->
  In (r', t') (pickle_df b) ->
  t = t'.
Proof.
  intros R E. apply classify_returned in R. destruct R as [-> _].
  intros H H'. apply In_pickle_df in H, H'.
  destruct H as (c & -> & H), H' as (c' & -> & H').
  apply In_has_patient in H, H'. rewrite <- E in H'.
  destruct (one_bucket_per_patient _ _ _ _ _ _ _ H H') as [<- _].
  reflexivity.
Qed.

Lemma X6_one_data_type_witness :
  PocketsClassifier.classify sample_columns consistent_sheet
  = Returned (six_buckets sample_columns Pockets.pattern_match
                (PocketsClassifier.row_does_not_match_pattern sample_columns)
                consistent_sheet)
  /\ pickle_df (six_buckets sample_columns Pockets.pattern_match
                  (PocketsClassifier.row_does_not_match_pattern sample_columns)
                  consistent_sheet)
     = [(holed_visit 3 "2020-01-01", lit "Consistent Missing Data");
        (holed_visit 3 "2020-03-01", lit "Consistent Missing Data");
        (holed_visit 2 "2020-02-02", lit "Single Observation Data")]
  /\ lit "Consistent Missing Data" = lit "Consistent Missing Data".
Proof.
  assert (R : PocketsClassifier.classify sample_columns consistent_sheet
              = Returned (six_buckets sample_columns Pockets.pattern_match
                            (PocketsClassifier.row_does_not_match_pattern sample_columns)
                            consistent_sheet))
    by (vm_compute; reflexivity).
  assert (E : pickle_df (six_buckets sample_columns Pockets.pattern_match
                           (PocketsClassifier.row_does_not_match_pattern sample_columns)
                           consistent_sheet)
              = [(holed_visit 3 "2020-01-01", lit "Consistent Missing Data");
                 (holed_visit 3 "2020-03-01", lit "Consistent Missing Data");
                 (holed_visit 2 "2020-02-02", lit "Single Observation Data")])
    by (vm_compute; reflexivity).
  split; [exact R|]. split; [exact E|].
  apply (@X6_one_data_type_per_patient sample_columns consistent_sheet _
           (holed_visit 3 "2020-01-01") (holed_visit 3 "2020-03-01")
           (lit "Consistent Missing Data") (lit "Consistent Missing Data")
           R eq_refl); rewrite E; simpl; auto.
Defined.

(** ** More on the cross-validator *)

Lemma record_cells_returned (row : Visit) (l : Labels) :
  record_cells row = Returned l ->
  exists d, parse_chart_date (chart row) = Returned d
    /\ forall x k, In x (labelled l k)
         <-> In x (map fst (index row)) /\ verdict row d x = Some k.
Proof.
  intro H. destruct (parse_chart_date (chart row)) as [d|e] eqn:P.
  - exists d. split; [reflexivity|].
    destruct (record_cells_labelled row P) as (l' & E & Hl).
    rewrite H in E. injection E as <-. exact Hl.
  - unfold record_cells in H. rewrite P in H. discriminate H.
Qed.

Lemma verdict_tooth_site (row : Visit) (d : datetime) (col : str) (k : Issue) :
  verdict row d col = Some k -> exists tooth, tooth_site_column col tooth.
Proof.
  unfold verdict, tooth_site_column.
  destruct (startswith (lit "Tooth") col) eqn:S; [|discriminate].
  destruct (contains (lit " P") col || contains (lit " B") col) eqn:C;
    [|discriminate].
  simpl. destruct (search_tooth col) as [tooth|]; [|discriminate].
  intros _. exists tooth. auto.
Qed.

(** X7. The four sets collected for a row are pairwise disjoint, and they
    hold only labels of the row that start with Tooth, contain " P" or " B"
    and carry a tooth number. *)
Theorem X7_label_sets_disjoint (row : Visit) (l : Labels) :
  record_cells row = Returned l ->
  (forall col k k',
      In col (labelled l k) -> In col (labelled l k') -> k = k')
  /\ (forall col k,
         In col (labelled l k) ->
         In col (map fst (index row))
         /\ exists tooth, tooth_site_column col tooth).
Proof.
  intro H. destruct (@record_cells_returned row l H) as (d & _ & Hl). split.
  - intros col k k' H1 H2. apply Hl in H1, H2.
    destruct H1 as [_ H1], H2 as [_ H2]. congruence.
  - intros col k H1. apply Hl in H1. destruct H1 as [H1 V].
    split; [assumption|]. exact (verdict_tooth_site _ _ _ V).
Qed.

Lemma X7_label_sets_disjoint_witness :
  record_cells sample_visit
  = Returned (mkLabels [lit "Tooth 17 B"] [lit "Tooth 15 B"]
                [lit "Tooth 16 B"] [lit "Tooth 18 B"])
  /\ (forall col k k',
         In col (labelled (mkLabels [lit "Tooth 17 B"] [lit "Tooth 15 B"]
                             [lit "Tooth 16 B"] [lit "Tooth 18 B"]) k) ->
         In col (labelled (mkLabels [lit "Tooth 17 B"] [lit "Tooth 15 B"]
                             [lit "Tooth 16 B"] [lit "Tooth 18 B"]) k') ->
         k = k').
Proof.
  assert (E : record_cells sample_visit
              = Returned (mkLabels [lit "Tooth 17 B"] [lit "Tooth 15 B"]
                            [lit "Tooth 16 B"] [lit "Tooth 18 B"]))
    by (vm_compute; reflexivity).
  split; [exact E|].
  exact (proj1 (@X7_label_sets_disjoint sample_visit _ E)).
Defined.

Lemma no_entry_for_tooth (log : list (datetime * str)) (tooth : str) :
  (forall e, In e log -> snd e <> tooth) -> tooth_in_log log tooth = false.
Proof.
  intro H. destruct (tooth_in_log log tooth) eqn:E; [|reflexivity].
  apply tooth_in_log_iff in E. destruct E as (e & He & Et).
  exfalso. exact (H e He Et).
Qed.

Lemma not_confirmed (log : list (datetime * str)) (tooth : str) (d : datetime) :
  (forall e, In e log -> snd e = tooth -> date_ltb d (fst e) = true) ->
  is_missing_tooth log tooth d = false.
Proof.
  intro H. destruct (is_missing_tooth log tooth d) eqn:E; [|reflexivity].
  apply is_missing_tooth_iff in E. destruct E as (e & He & Et & Ed).
  specialize (H e He Et). unfold date_ltb in H. rewrite Ed in H. discriminate.
Qed.

(** X8. On a row whose chart date parses, a tooth-site column with a null
    cell whose tooth has no entry at all in the log is put in the
    not-recorded set. *)
Theorem X8_null_cell_without_log_entry
    (row : Visit) (d : datetime) (col tooth : str) :
  parse_chart_date (chart row) = Returned d ->
  In col (map fst (index row)) ->
  tooth_site_column col tooth ->
  get (index row) col = None ->
  (forall e, In e (missing_teeth_with_dates row) -> snd e <> tooth) ->
  exists l, record_cells row = Returned l
    /\ In col (labelled l MissingNotRecorded).
Proof.
  intros Hd Hin (H1 & H2 & H3) Hnull Hlog.
  destruct (record_cells_labelled row Hd) as (l & El & Hl).
  exists l. split; [assumption|]. apply Hl. split; [assumption|].
  unfold verdict. rewrite H1, H2, H3, Hnull. simpl.
  assert (M : is_missing_tooth (missing_teeth_with_dates row) tooth d = false).
  { apply not_confirmed. intros e He Et. exfalso. exact (Hlog e He Et). }
  now rewrite M, (@no_entry_for_tooth _ tooth Hlog).
Qed.

Lemma X8_null_cell_without_log_entry_witness :
  exists l, record_cells sample_visit = Returned l
    /\ In (lit "Tooth 15 B") (labelled l MissingNotRecorded).
Proof.
  apply (@X8_null_cell_without_log_entry sample_visit (mkDate 2021 3 4)
           (lit "Tooth 15 B") (lit "15")).
  - reflexivity.
  - simpl. auto 10.
  - repeat split; reflexivity.
  - reflexivity.
  - simpl. intros e [<-|[<-|[<-|[]]]]; discriminate.
Defined.

(** X9. On a row whose chart date parses, a tooth-site column whose cell
    matches the pattern and whose tooth has no log entry dated on or before
    the visit is put in none of the four sets. *)
Theorem X9_clean_cell_gets_no_label
    (row : Visit) (d : datetime) (col tooth text : str) :
  parse_chart_date (chart row) = Returned d ->
  tooth_site_column col tooth ->
  get (index row) col = Some text ->
  standard_pattern_match text = true ->
  (forall e, In e (missing_teeth_with_dates row) -> snd e = tooth ->
             date_ltb d (fst e) = true) ->
  exists l, record_cells row = Returned l
    /\ forall k, ~ In col (labelled l k).
Proof.
  intros Hd (H1 & H2 & H3) Hc Hm Hlog.
  destruct (record_cells_labelled row Hd) as (l & El & Hl).
  exists l. split; [assumption|]. intros k H. apply Hl in H.
  destruct H as [_ V]. unfold verdict in V.
  rewrite H1, H2, H3, Hc in V. simpl in V.
  rewrite Hm, (@not_confirmed _ tooth d Hlog) in V. discriminate V.
Qed.

Lemma X9_clean_cell_gets_no_label_witness :
  exists l, record_cells sample_visit = Returned l
    /\ forall k, ~ In (lit "Tooth 14 B") (labelled l k).
Proof.
  apply (@X9_clean_cell_gets_no_label sample_visit (mkDate 2021 3 4)
           (lit "Tooth 14 B") (lit "14") (lit "3 2 3")).
  - reflexivity.
  - repeat split; reflexivity.
  - reflexivity.
  - vm_compute. reflexivity.
  - simpl. intros e [<-|[<-|[<-|[]]]]; discriminate.
Defined.

Lemma date_leb_trans (a b c : datetime) :
  date_leb a b = true -> date_leb b c = true -> date_leb a c = true.
Proof.
  unfold date_leb.
  rewrite !orb_true_iff, !andb_true_iff, !orb_true_iff, !andb_true_iff,
    !Nat.ltb_lt, !Nat.eqb_eq, !Nat.leb_le.
  lia.
Qed.

(** X10. A column confirmed missing at one visit is confirmed missing at
    every later visit of the same patient (same log), as long as its cell
    there is not in the integer-format set, whatever the cell holds. *)
Theorem X10_confirmed_missing_persists
    (row row' : Visit) (d d' : datetime) (col : str) :
  parse_chart_date (chart row) = Returned d ->
  parse_chart_date (chart row') = Returned d' ->
  date_leb d d' = true ->
  missing_teeth_with_dates row' = missing_teeth_with_dates row ->
  In col (map fst (index row')) ->
  exists l l', record_cells row = Returned l
    /\ record_cells row' = Returned l'
    /\ (In col (labelled l ConfirmedMissingAndRecorded) ->
        ~ In col (labelled l' IntegerFormatError) ->
        In col (labelled l' ConfirmedMissingAndRecorded)).
Proof.
  intros Hd Hd' Le Elog Hin.
  destruct (record_cells_labelled row Hd) as (l & El & Hl).
  destruct (record_cells_labelled row' Hd') as (l' & El' & Hl').
  exists l, l'. split; [assumption|]. split; [assumption|].
  intros Hc Hno. apply Hl in Hc. destruct Hc as [_ V].
  apply Hl'. split; [assumption|].
  assert (Hfmt : verdict row' d' col <> Some IntegerFormatError).
  { intro V'. apply Hno. apply Hl'. auto. }
  unfold verdict in *. rewrite Elog in *.
  destruct (startswith (lit "Tooth") col
            && (contains (lit " P") col || contains (lit " B") col));
    [|discriminate].
  destruct (search_tooth col) as [tooth|]; [|discriminate].
  destruct (notna (get (index row') col)
            && negb (standard_pattern_match (py_str (get (index row') col))));
    [congruence|].
  assert (M : is_missing_tooth (missing_teeth_with_dates row) tooth d = true).
  { destruct (notna (get (index row) col)
              && negb (standard_pattern_match (py_str (get (index row) col))));
      [discriminate|].
    destruct (is_missing_tooth (missing_teeth_with_dates row) tooth d);
      [reflexivity|].
    destruct (isna (get (index row) col)); [|discriminate].
    destruct (negb (tooth_in_log (missing_teeth_with_dates row) tooth));
      discriminate. }
  apply is_missing_tooth_iff in M. destruct M as (e & He & Et & Ed).
  assert (M' : is_missing_tooth (missing_teeth_with_dates row) tooth d' = true).
  { apply is_missing_tooth_iff. exists e. eauto using date_leb_trans. }
  now rewrite M'.
Qed.

Lemma X10_confirmed_missing_persists_witness :
  exists l l', record_cells sample_visit = Returned l
    /\ record_cells later_visit = Returned l'
    /\ In (lit "Tooth 17 B") (labelled l ConfirmedMissingAndRecorded)
    /\ In (lit "Tooth 17 B") (labelled l' ConfirmedMissingAndRecorded).
Proof.
  destruct (@X10_confirmed_missing_persists sample_visit later_visit
              (mkDate 2021 3 4) (mkDate 2021 9 9) (lit "Tooth 17 B"))
    as (l & l' & El & El' & H).
  - reflexivity.
  - reflexivity.
  - reflexivity.
  - reflexivity.
  - simpl. auto 10.
  - exists l, l'. split; [assumption|]. split; [assumption|].
    vm_compute in El, El'. injection El as <-. injection El' as <-.
    assert (C : In (lit "Tooth 17 B")
                  (labelled (mkLabels [lit "Tooth 17 B"] [lit "Tooth 15 B"]
                               [lit "Tooth 16 B"] [lit "Tooth 18 B"])
                     ConfirmedMissingAndRecorded))
      by (left; reflexivity).
    split; [exact C|]. apply H; [exact C|].
    simpl. intros [F|[]]. discriminate F.
Defined.

(** X11. When the chart date of every row of a batch parses, the pass over
    the batch raises nothing and gives one record of labels per row, the one
    [record_cells] computes for that row. *)
Theorem X11_record_all_succeeds (rows : list Visit) :
  Forall (fun row => exists d, parse_chart_date (chart row) = Returned d) rows ->
  exists ls, record_all rows = Returned ls
    /\ Forall2 (fun row l => record_cells row = Returned l) rows ls.
Proof.
  unfold record_all. induction 1 as [|row rows (d & Hd) F (ls & E & R)].
  - exists []. split; [reflexivity | constructor].
  - destruct (record_cells_labelled row Hd) as (l & El & _).
    exists (l :: ls). cbn [for_each]. rewrite El, E. simpl.
    split; [reflexivity|]. now constructor.
Qed.

Lemma X11_record_all_succeeds_witness :
  Forall (fun row => exists d, parse_chart_date (chart row) = Returned d)
    [sample_visit; later_visit]
  /\ exists ls, record_all [sample_visit; later_visit] = Returned ls
       /\ Forall2 (fun row l => record_cells row = Returned l)
            [sample_visit; later_visit] ls.
Proof.
  assert (F : Forall (fun row => exists d, parse_chart_date (chart row) = Returned d)
                [sample_visit; later_visit]).
  { constructor; [exists (mkDate 2021 3 4); reflexivity|].
    constructor; [exists (mkDate 2021 9 9); reflexivity | constructor]. }
  split; [exact F|].
  exact (@X11_record_all_succeeds [sample_visit; later_visit] F).
Defined.

(** ** Writing the labels and reading them back *)

Lemma split_from_comma_free (x cur s : str) :
  comma_free x ->
  split_from (lit ", ") 0 cur (x ++ s)
  = split_from (lit ", ") 0 (cur ++ x) s.
Proof.
  revert cur. induction x as [|c x IH]; intros cur H; simpl app.
  - now rewrite app_nil_r.
  - assert (Hc : ascii_eqb comma c = false).
    { destruct (ascii_eqb comma c) eqn:E; [|reflexivity].
      apply ascii_eqb_eq in E. exfalso. apply H. now left. }
    cbn [split_from startswith lit list_ascii_of_string].
    fold comma. rewrite Hc. cbn [andb].
    rewrite IH by (intro K; apply H; now right).
    now rewrite <- app_assoc.
Qed.

Lemma split_from_separator (cur s : str) :
  split_from (lit ", ") 0 cur (lit ", " ++ s)
  = cur :: split_from (lit ", ") 0 [] s.
Proof. reflexivity. Qed.

Lemma split_join (l : list str) :
  Forall comma_free l -> l <> [] ->
  split (lit ", ") (join (lit ", ") l) = l.
Proof.
  intros F N. unfold split. destruct l as [|x l]; [congruence|]. clear N.
  change (x :: l) with (([] ++ x) :: l) at 2.
  generalize (@nil ascii) as cur. revert x F.
  induction l as [|y l IH]; intros x F cur.
  - simpl join. rewrite <- (app_nil_r x) at 1.
    rewrite split_from_comma_free by (now inversion F). reflexivity.
  - change (join (lit ", ") (x :: y :: l))
      with (x ++ lit ", " ++ join (lit ", ") (y :: l)).
    rewrite split_from_comma_free by (now inversion F).
    rewrite split_from_separator. f_equal.
    rewrite (IH y) by (now inversion F). reflexivity.
Qed.

Lemma existsb_perm (A : Type) (f : A -> bool) (l l' : list A) :
  Permutation l l' -> existsb f l = existsb f l'.
Proof.
  induction 1; simpl.
  - reflexivity.
  - now rewrite IHPermutation.
  - now rewrite !orb_assoc, (orb_comm (f y) (f x)).
  - congruence.
Qed.

(** X12. The aggregator reads back what the cross-validator wrote: for a
    set of labels without commas, splitting the written text gives the
    labels in ascending order, and a row carries a tooth and side exactly
    when one of the labels of the set names them. *)
Theorem X12_written_labels_are_read_back
    (s : list str) (date tooth side : str) :
  Forall comma_free s ->
  (s <> [] -> split (lit ", ") (written s) = sorted (fun x => x) s)
  /\ carries tooth side (date, written s) = existsb (item_names tooth side) s.
Proof.
  intro F.
  pose proof (sorted_perm (fun x : str => x) s) as P.
  assert (F' : Forall comma_free (sorted (fun x => x) s)).
  { rewrite Forall_forall in *. intros x Hx. apply F.
    now apply (Permutation_in _ P). }
  assert (R : s <> [] -> split (lit ", ") (written s) = sorted (fun x => x) s).
  { intro N. unfold written. apply split_join; [assumption|].
    intro E. apply N. rewrite E in P.
    now apply Permutation_nil in P. }
  split; [exact R|]. unfold carries. cbn [snd].
  destruct s as [|x s]; [reflexivity|].
  rewrite R by discriminate. now apply existsb_perm.
Qed.

Lemma X12_written_labels_witness :
  Forall comma_free [lit "Tooth 18 B"; lit "Tooth 17 P"]
  /\ split (lit ", ") (written [lit "Tooth 18 B"; lit "Tooth 17 P"])
     = sorted (fun x => x) [lit "Tooth 18 B"; lit "Tooth 17 P"]
  /\ carries (lit "17") (lit "P")
       (lit "2020-01-01", written [lit "Tooth 18 B"; lit "Tooth 17 P"])
     = existsb (item_names (lit "17") (lit "P")) [lit "Tooth 18 B"; lit "Tooth 17 P"].
Proof.
  assert (F : Forall comma_free [lit "Tooth 18 B"; lit "Tooth 17 P"]).
  { repeat constructor; intro H; vm_compute in H;
      repeat (destruct H as [H|H]; [discriminate H|]); exact H. }
  split; [exact F|].
  destruct (@X12_written_labels_are_read_back
              [lit "Tooth 18 B"; lit "Tooth 17 P"] (lit "2020-01-01")
              (lit "17") (lit "P") F) as [R C].
  split; [apply R; discriminate | exact C].
Defined.

Lemma NoDup_set_add (x : str) (s : list str) :
  NoDup s -> NoDup (set_add x s).
Proof.
  intro N. unfold set_add. destruct (existsb (str_eqb x) s) eqn:E; [assumption|].
  apply NoDup_app; [assumption | repeat constructor; intros [] |].
  intros y Hy [Ey|[]]. subst y.
  assert (T : existsb (str_eqb x) s = true).
  { apply existsb_exists. exists x. split; [assumption | apply str_eqb_refl]. }
  congruence.
Qed.

Lemma NoDup_record_column (row : Visit) (d : datetime) (acc : Labels) (col : str) :
  (forall k, NoDup (labelled acc k)) ->
  forall k, NoDup (labelled (record_column row d acc col) k).
Proof.
  intros H k. unfold record_column.
  pose proof (H ConfirmedMissingAndRecorded) as N1.
  pose proof (H MissingNotRecorded) as N2.
  pose proof (H MissingOtherIssue) as N3.
  pose proof (H IntegerFormatError) as N4. simpl in N1, N2, N3, N4.
  repeat match goal with
         | |- context [if ?b then _ else _] => destruct b
         | |- context [match ?o with Some _ => _ | None => _ end] => destruct o
         end;
    destruct k; simpl; auto using NoDup_set_add.
Qed.

Lemma NoDup_record_cells (row : Visit) (l : Labels) (k : Issue) :
  record_cells row = Returned l -> NoDup (labelled l k).
Proof.
  unfold record_cells. destruct (parse_chart_date (chart row)) as [d|e];
    [|discriminate].
  simpl. intro H. injection H as <-.
  assert (G : forall cols acc,
             (forall k, NoDup (labelled acc k)) ->
             forall k, NoDup (labelled (fold_left (record_column row d) cols acc) k)).
  { induction cols as [|c cols IH]; intros acc Hacc; simpl; [assumption|].
    apply IH. now apply NoDup_record_column. }
  apply G. intros []; constructor.
Qed.

(** X13. Each of the four texts written for a row lists the labels of its
    set once each, in strictly ascending order of the labels compared
    character by character. *)
Theorem X13_written_labels_ascending (row : Visit) (l : Labels) (k : Issue) :
  record_cells row = Returned l ->
  written (labelled l k) = join (lit ", ") (sorted (fun x => x) (labelled l k))
  /\ Permutation (sorted (fun x => x) (labelled l k)) (labelled l k)
  /\ StronglySorted (key_lt (fun x => x)) (sorted (fun x => x) (labelled l k)).
Proof.
  intro H. split; [reflexivity|]. split; [apply sorted_perm|].
  apply sorted_lt. rewrite map_id. exact (@NoDup_record_cells row l k H).
Qed.

Lemma X13_written_labels_ascending_witness :
  record_cells sample_visit
  = Returned (mkLabels [lit "Tooth 17 B"] [lit "Tooth 15 B"]
                [lit "Tooth 16 B"] [lit "Tooth 18 B"])
  /\ StronglySorted (key_lt (fun x => x))
       (sorted (fun x => x)
          (labelled (mkLabels [lit "Tooth 17 B"] [lit "Tooth 15 B"]
                       [lit "Tooth 16 B"] [lit "Tooth 18 B"])
             MissingNotRecorded)).
Proof.
  assert (E : record_cells sample_visit
              = Returned (mkLabels [lit "Tooth 17 B"] [lit "Tooth 15 B"]
                            [lit "Tooth 16 B"] [lit "Tooth 18 B"]))
    by (vm_compute; reflexivity).
  split; [exact E|].
  exact (proj2 (proj2 (@X13_written_labels_ascending sample_visit _
                         MissingNotRecorded E))).
Defined.

(** ** [highlight_cells] *)

Lemma highlight_column_verdict (row : Visit) (d : datetime) (col : str) :
  highlight_column (index row) (missing_teeth_with_dates row) d col
  = style_of (verdict row d col).
Proof.
  unfold highlight_column, verdict.
  destruct (startswith (lit "Tooth") col
            && (contains (lit " P") col || contains (lit " B") col));
    [|reflexivity].
  destruct (search_tooth col) as [tooth|]; [|reflexivity].
  destruct (notna (get (index row) col)
            && negb (standard_pattern_match (py_str (get (index row) col))));
    [reflexivity|].
  destruct (is_missing_tooth (missing_teeth_with_dates row) tooth d);
    [reflexivity|].
  destruct (isna (get (index row) col)); [|reflexivity].
  now destruct (negb (tooth_in_log (missing_teeth_with_dates row) tooth)).
Qed.

(** X14. For a row whose chart date parses, the colours of
    [highlight_cells] agree with the sets of [record_cells]: yellow for the
    integer-format set, green for the confirmed-missing set, light coral for
    the not-recorded and the other-issue sets, no style for the columns in
    no set. *)
Theorem X14_highlight_agrees_with_labels
    (row : Visit) (s : str) (l : Labels) :
  chart row = Some s ->
  record_cells row = Returned l ->
  exists styles,
    highlight_cells (index row) (PyStr s) (missing_teeth_with_dates row)
    = Returned styles
    /\ map fst styles = map fst (index row)
    /\ forall col st, In (col, st) styles ->
         (st = yellow <-> In col (labelled l IntegerFormatError))
         /\ (st = green <-> In col (labelled l ConfirmedMissingAndRecorded))
         /\ (st = lightcoral <->
             In col (labelled l MissingNotRecorded)
             \/ In col (labelled l MissingOtherIssue))
         /\ (st = [] <-> forall k, ~ In col (labelled l k)).
Proof.
  intros Hc H. destruct (@record_cells_returned row l H) as (d & Hd & Hl).
  unfold parse_chart_date in Hd. rewrite Hc in Hd.
  unfold highlight_cells. rewrite Hd. simpl. eexists. split; [reflexivity|].
  split; [now rewrite map_map|].
  intros col st Hin. apply in_map_iff in Hin.
  destruct Hin as ([k v] & E & Hkv). simpl in E. injection E as -> <-.
  assert (Hcol : In col (map fst (index row)))
    by (apply in_map_iff; exists (col, v); auto).
  rewrite highlight_column_verdict.
  assert (L : forall k, In col (labelled l k) <-> verdict row d col = Some k)
    by (intro k; rewrite Hl; tauto).
  pose proof (L IntegerFormatError) as L1.
  pose proof (L ConfirmedMissingAndRecorded) as L2.
  pose proof (L MissingNotRecorded) as L3.
  pose proof (L MissingOtherIssue) as L4. simpl in L1, L2, L3, L4.
  assert (L5 : (forall k, ~ In col (labelled l k)) <-> verdict row d col = None).
  { split.
    - intro K. destruct (verdict row d col) as [i|] eqn:V; [|reflexivity].
      exfalso. apply (K i). now apply L.
    - intros V k Hk. apply L in Hk. congruence. }
  rewrite L1, L2, L3, L4, L5.
  destruct (verdict row d col) as [[]|]; simpl;
    (repeat split; intro X;
     try reflexivity; try discriminate X;
     try (vm_compute in X; discriminate X);
     try (destruct X as [X|X]; discriminate X); auto).
Qed.

Lemma X14_highlight_agrees_witness :
  chart sample_visit = Some (lit "2021-03-04")
  /\ record_cells sample_visit
     = Returned (mkLabels [lit "Tooth 17 B"] [lit "Tooth 15 B"]
                   [lit "Tooth 16 B"] [lit "Tooth 18 B"])
  /\ exists styles,
       highlight_cells (index sample_visit) (PyStr (lit "2021-03-04"))
         (missing_teeth_with_dates sample_visit) = Returned styles
       /\ map fst styles = map fst (index sample_visit).
Proof.
  assert (E : record_cells sample_visit
              = Returned (mkLabels [lit "Tooth 17 B"] [lit "Tooth 15 B"]
                            [lit "Tooth 16 B"] [lit "Tooth 18 B"]))
    by (vm_compute; reflexivity).
  split; [reflexivity|]. split; [exact E|].
  destruct (@X14_highlight_agrees_with_labels sample_visit (lit "2021-03-04")
              _ eq_refl E) as (styles & Hs & Hm & _).
  exists styles. split; assumption.
Defined.

(** X15. [highlight_cells] never gives the orange style: its test comes
    after the green one has failed.  When it returns, it gives one style per
    label of the row, in order; for a chart date that is [None] all styles
    are empty. *)
Theorem X15_highlight_never_orange
    (row_index : list (str * cell)) (chart_date_str : pyobj)
    (log : list (datetime * str)) (styles : list (str * str)) :
  highlight_cells row_index chart_date_str log = Returned styles ->
  map fst styles = map fst row_index
  /\ (forall col st, In (col, st) styles -> st <> orange)
  /\ (chart_date_str = PyNone -> forall col st, In (col, st) styles -> st = []).
Proof.
  unfold highlight_cells. destruct chart_date_str as [| |s].
  - intro H. injection H as <-. split; [now rewrite map_map|]. split.
    + intros col st Hin. apply in_map_iff in Hin.
      destruct Hin as (kv & E & _). injection E as _ <-. discriminate.
    + intros _ col st Hin. apply in_map_iff in Hin.
      destruct Hin as (kv & E & _). now injection E as _ <-.
  - discriminate.
  - destruct (strptime s) as [d|e]; [|discriminate]. simpl.
    intro H. injection H as <-. split; [now rewrite map_map|].
    split; [|discriminate].
    intros col st Hin. apply in_map_iff in Hin.
    destruct Hin as (kv & E & _). injection E as _ <-.
    unfold highlight_column.
    repeat match goal with
           | |- context [if ?b then _ else _] => destruct b eqn:?
           | |- context [match ?o with Some _ => _ | None => _ end] => destruct o
           end;
      try discriminate; congruence.
Qed.

Lemma X15_highlight_never_orange_witness :
  exists styles,
    highlight_cells (index sample_visit) (PyStr (lit "2021-03-04"))
      (missing_teeth_with_dates sample_visit) = Returned styles
    /\ map fst styles = map fst (index sample_visit)
    /\ forall col st, In (col, st) styles -> st <> orange.
Proof.
  destruct (highlight_cells (index sample_visit) (PyStr (lit "2021-03-04"))
              (missing_teeth_with_dates sample_visit)) as [styles|e] eqn:E.
  - exists styles. split; [reflexivity|].
    destruct (@X15_highlight_never_orange _ _ _ _ E) as (A & B & _). auto.
  - vm_compute in E. discriminate E.
Defined.

(** ** More on the aggregator *)

Lemma dropna_app (g g' : list (cell * cell)) :
  dropna (g ++ g') = dropna g ++ dropna g'.
Proof.
  induction g as [|[[d|] [v|]] g IH]; simpl; rewrite ?IH; reflexivity.
Qed.

(** X16. Adding later visits to a group never changes a date already
    recorded for a tooth and side; a tooth and side not yet recorded gets
    the date of its first occurrence among the added visits. *)
Theorem X16_later_visits_do_not_change_dates
    (group later : list (cell * cell)) (tooth side : str) :
  recorded_date (build_tooth_dict (group ++ later)) tooth side
  = match recorded_date (build_tooth_dict group) tooth side with
    | Some date => Some date
    | None => first_date later tooth side
    end.
Proof.
  unfold build_tooth_dict, first_date.
  rewrite dropna_app, fold_left_app. apply record_rows_date.
Qed.

(** *** Every tooth of [tooth_dict] has a side *)

Lemma greedy_1_2_some (X : Type) (k : str -> str -> option X) (s : str) (x : X) :
  greedy_1_2 k s = Some x ->
  exists n d r, (n = 1 \/ n = 2) /\ take_digits n s = Some (d, r)
                /\ k d r = Some x.
Proof.
  unfold greedy_1_2.
  destruct (take_digits 2 s) as [[d r]|] eqn:T2.
  - destruct (k d r) eqn:K.
    + intro H. injection H as <-. exists 2, d, r. auto.
    + destruct (take_digits 1 s) as [[d' r']|] eqn:T1; [|discriminate].
      intro H. exists 1, d', r'. auto.
  - destruct (take_digits 1 s) as [[d' r']|] eqn:T1; [|discriminate].
    intro H. exists 1, d', r'. auto.
Qed.

Lemma match_item_side (item tooth side : str) :
  match_item item = Some (tooth, side) -> side = lit "P" \/ side = lit "B".
Proof.
  unfold match_item. destruct (expect (lit "Tooth ") item) as [r|]; [|discriminate].
  intro H. apply greedy_1_2_some in H. destruct H as (n & d & r' & _ & _ & H).
  destruct (expect (lit " ") r') as [[|c w]|]; try discriminate.
  destruct (ascii_eqb c "P") eqn:P.
  - apply ascii_eqb_eq in P. subst c. simpl in H. injection H as _ <-. now left.
  - destruct (ascii_eqb c "B") eqn:B; simpl in H; [|discriminate].
    apply ascii_eqb_eq in B. subst c. injection H as _ <-. now right.
Qed.

Lemma Forall_dict_set (V : Type) (P : V -> Prop) (d : dict V) (k : str) (v : V) :
  Forall (fun kv => P (snd kv)) d -> P v ->
  Forall (fun kv => P (snd kv)) (dict_set d k v).
Proof.
  intros F Hv. induction F as [|[k0 v0] d H F IH]; simpl.
  - repeat constructor. exact Hv.
  - destruct (str_eqb k0 k); constructor; auto.
Qed.

Lemma dict_set_twice (V : Type) (d : dict V) (k : str) (v v' : V) :
  dict_set (dict_set d k v) k v' = dict_set d k v'.
Proof.
  induction d as [|[k0 v0] d IH]; simpl.
  - now rewrite str_eqb_refl.
  - destruct (str_eqb k0 k) eqn:E; simpl; rewrite E; [reflexivity|].
    now rewrite IH.
Qed.

Lemma has_side_set (sides : dict str) (side date : str) :
  side = lit "P" \/ side = lit "B" -> has_side (dict_set sides side date).
Proof.
  unfold has_side, dict_mem. intros [->| ->]; [left | right];
    now rewrite dict_get_set, str_eqb_refl.
Qed.

Lemma has_side_record_item (date : str) (d : dict (dict str)) (item : str) :
  Forall (fun kv => has_side (snd kv)) d ->
  Forall (fun kv => has_side (snd kv)) (record_item date d item).
Proof.
  intro F. unfold record_item.
  destruct (match_item (strip item)) as [[t s]|] eqn:M; [|assumption].
  apply match_item_side in M.
  destruct (dict_get d t) as [sides|] eqn:G.
  - assert (Hm : dict_mem d t = true) by (unfold dict_mem; now rewrite G).
    rewrite !Hm. simpl. rewrite G.
    destruct (negb (dict_mem sides s)); [|assumption].
    apply Forall_dict_set; [assumption | now apply has_side_set].
  - assert (Hm : dict_mem d t = false) by (unfold dict_mem; now rewrite G).
    rewrite !Hm. simpl. rewrite dict_get_set, str_eqb_refl. simpl.
    rewrite dict_set_twice.
    apply Forall_dict_set; [assumption|].
    apply (@has_side_set [] s date M).
Qed.

Lemma has_side_build (group : list (cell * cell)) :
  Forall (fun kv => has_side (snd kv)) (build_tooth_dict group).
Proof.
  unfold build_tooth_dict.
  assert (G : forall rows d,
             Forall (fun kv => has_side (snd kv)) d ->
             Forall (fun kv => has_side (snd kv)) (fold_left record_entries rows d)).
  { induction rows as [|row rows IH]; intros d F; simpl; [assumption|].
    apply IH. unfold record_entries.
    generalize (split (lit ", ") (snd row)). intro items. revert d F.
    induction items as [|item items IHi]; intros d F; simpl; [assumption|].
    apply IHi. now apply has_side_record_item. }
  apply G. constructor.
Qed.

Lemma format_tooth_line (item : str * dict str) :
  has_side (snd item) ->
  exists rest, format_tooth item = ["T"%char :: rest].
Proof.
  unfold has_side, dict_mem, format_tooth. intros [H|H].
  - destruct (dict_get (snd item) (lit "P")) as [p|]; [|discriminate].
    destruct (dict_get (snd item) (lit "B")) as [b|];
      [destruct (str_eqb p b)|]; eexists; reflexivity.
  - destruct (dict_get (snd item) (lit "B")) as [b|]; [|discriminate].
    destruct (dict_get (snd item) (lit "P")) as [p|];
      [destruct (str_eqb p b)|]; eexists; reflexivity.
Qed.

Lemma formatted_teeth_lines (items : list (str * dict str)) :
  Forall (fun kv => has_side (snd kv)) items ->
  List.length (flat_map format_tooth items) = List.length items
  /\ Forall (fun line => exists rest, line = "T"%char :: rest)
       (flat_map format_tooth items).
Proof.
  induction 1 as [|item items H F [IH1 IH2]]; simpl.
  - split; [reflexivity | constructor].
  - destruct (format_tooth_line item H) as (rest & ->). simpl.
    split; [now rewrite IH1|]. constructor; eauto.
Qed.

Lemma lstrip_chars_keeps (w : str) : lstrip_chars (w ++ ["T"%char]) <> [].
Proof.
  induction w as [|c w IH]; simpl; [discriminate|].
  destruct (in_comma_blank c); [exact IH | discriminate].
Qed.

Lemma strip_chars_line (rest : str) : strip_chars ("T"%char :: rest) <> [].
Proof.
  unfold strip_chars. cbn [lstrip_chars in_comma_blank ascii_eqb].
  change (Ascii.eqb "T" "," || Ascii.eqb "T" " ") with false. cbv iota.
  intro H. apply (f_equal (@rev ascii)) in H. rewrite rev_involutive in H.
  simpl in H. exact (lstrip_chars_keeps _ H).
Qed.

Lemma join_head (sep x : str) (l : list str) :
  exists rest, join sep (x :: l) = x ++ rest.
Proof.
  destruct l as [|y l]; simpl.
  - exists []. now rewrite app_nil_r.
  - eexists. reflexivity.
Qed.

(** X17. [aggregate_column] writes one line per tooth of [tooth_dict], and
    it returns the empty text exactly when no row of the group (among those
    with a date and a value) names a tooth and side. *)
Theorem X17_aggregate_column_empty_iff (group : list (cell * cell)) :
  List.length (flat_map format_tooth (sorted_items (build_tooth_dict group)))
  = List.length (build_tooth_dict group)
  /\ (aggregate_column group = []
      <-> forall tooth side, first_date group tooth side = None).
Proof.
  pose proof (has_side_build group) as F.
  pose proof (sorted_perm (fun kv : str * dict str => fst kv)
                (build_tooth_dict group)) as P.
  assert (F' : Forall (fun kv => has_side (snd kv))
                 (sorted_items (build_tooth_dict group))).
  { rewrite Forall_forall in *. intros x Hx. apply F.
    now apply (Permutation_in _ P). }
  destruct (formatted_teeth_lines F') as [L T].
  split; [rewrite L; now apply Permutation_length|].
  assert (K : build_tooth_dict group = []
              <-> forall tooth side, first_date group tooth side = None).
  { split.
    - intros D tooth side. now rewrite <- build_tooth_dict_first_date, D.
    - intro H.
      destruct (build_tooth_dict group) as [|[k sides] d] eqn:D; [reflexivity|].
      exfalso. inversion F as [|? ? Hs _]; subst. simpl in Hs.
      unfold has_side, dict_mem in Hs.
      destruct Hs as [Hs|Hs];
        [specialize (H k (lit "P")) | specialize (H k (lit "B"))];
        rewrite <- build_tooth_dict_first_date, D in H;
        unfold recorded_date in H; simpl in H; rewrite str_eqb_refl in H;
        unfold lit in Hs; simpl in Hs; rewrite H in Hs; discriminate. }
  rewrite <- K. unfold aggregate_column. split.
  - intro E.
    destruct (flat_map format_tooth (sorted_items (build_tooth_dict group)))
      as [|x lines].
    + apply Permutation_length in P. fold (sorted_items (build_tooth_dict group)) in P.
      rewrite <- L in P.
      destruct (build_tooth_dict group); [reflexivity | discriminate P].
    + exfalso. inversion T as [|? ? (rest & ->) _]; subst.
      destruct (join_head (lit "<br>") ("T"%char :: rest) lines) as (w & J).
      rewrite J in E. exact (@strip_chars_line (rest ++ w) E).
  - intro D. now rewrite D.
Qed.

(** ** [add_line_breaks] *)

(** X18. [add_line_breaks] turns a comma-separated list of texts without
    commas into the same texts separated by line breaks, and leaves a value
    that is not a string as it is. *)
Theorem X18_add_line_breaks_rejoins (l : list str) :
  Forall comma_free l ->
  add_line_breaks (Some (join (lit ", ") l)) = Some (join (lit "<br>") l)
  /\ add_line_breaks None = None.
Proof.
  intro F. split; [|reflexivity]. unfold add_line_breaks. f_equal.
  destruct l as [|x l]; [reflexivity|].
  now rewrite split_join by (assumption || discriminate).
Qed.

Lemma X18_add_line_breaks_witness :
  Forall comma_free [lit "Tooth 18 B"; lit "Tooth 17 P"]
  /\ add_line_breaks (Some (join (lit ", ") [lit "Tooth 18 B"; lit "Tooth 17 P"]))
     = Some (join (lit "<br>") [lit "Tooth 18 B"; lit "Tooth 17 P"]).
Proof.
  assert (F : Forall comma_free [lit "Tooth 18 B"; lit "Tooth 17 P"]).
  { repeat constructor; intro H; vm_compute in H;
      repeat (destruct H as [H|H]; [discriminate H|]); exact H. }
  split; [exact F|].
  exact (proj1 (@X18_add_line_breaks_rejoins _ F)).
Defined.

(** ** More on the missing-log parser *)

Lemma sub_tooth_codes_T_free (prev_word : bool) (s : str) :
  T_free s -> sub_tooth_codes prev_word 0 s = s.
Proof.
  revert prev_word. induction s as [|c s IH]; intros pw H; [reflexivity|].
  cbn [sub_tooth_codes].
  assert (M : match_tooth_code pw (c :: s) = None).
  { unfold match_tooth_code. destruct pw; [reflexivity|].
    unfold expect. cbn [startswith lit list_ascii_of_string].
    destruct (ascii_eqb "T" c) eqn:E; [|reflexivity].
    apply ascii_eqb_eq in E. exfalso. apply H. left. now symmetry. }
  rewrite M. f_equal. apply IH. intro K. apply H. now right.
Qed.

(** X19. A narrative without the capital letter T is left unchanged by
    [replace_tooth_codes]. *)
Theorem X19_replace_tooth_codes_without_T (text : str) :
  T_free text -> replace_tooth_codes text = text.
Proof. apply sub_tooth_codes_T_free. Qed.

Lemma X19_replace_tooth_codes_witness :
  T_free (lit "2021-03-04 - tooth 14")
  /\ replace_tooth_codes (lit "2021-03-04 - tooth 14") = lit "2021-03-04 - tooth 14".
Proof.
  assert (F : T_free (lit "2021-03-04 - tooth 14")).
  { intro H. vm_compute in H.
    repeat (destruct H as [H|H]; [discriminate H|]). exact H. }
  split; [exact F|].
  exact (@X19_replace_tooth_codes_without_T _ F).
Defined.

Lemma entry_starts_with_digit (c : ascii) (s date tooth rest : str) :
  entry_at (c :: s) date tooth rest -> is_digit c = true.
Proof.
  intros (E & (y & m & dd & -> & [Ly Fy] & _) & _).
  destruct y as [|x y]; [discriminate|].
  simpl in E. injection E as -> _. exact (Forall_inv Fy).
Qed.

Lemma findall_entries_digit_free (pre s : str) :
  digit_free pre -> findall_entries 0 (pre ++ s) = findall_entries 0 s.
Proof.
  induction 1 as [|c pre Hc F IH]; [reflexivity|].
  simpl app. rewrite findall_entries_miss; [exact IH|].
  intros date tooth rest E. apply entry_starts_with_digit in E. congruence.
Qed.

(** X20. Text without digits in front of an entry is passed over: the
    entry is the first pair of the result and reading resumes right after
    it. *)
Theorem X20_entry_after_text_without_digits
    (pre s date tooth rest : str) :
  digit_free pre ->
  entry_at s date tooth rest ->
  findall_entries 0 (pre ++ s) = (date, tooth) :: findall_entries 0 rest.
Proof.
  intros F E. rewrite (findall_entries_digit_free s F).
  now apply findall_entries_hit.
Qed.

Lemma X20_entry_after_text_witness :
  digit_free (lit "Missing: ")
  /\ entry_at (lit "2021-03-04 - Tooth 14, later") (lit "2021-03-04") (lit "14")
       (lit ", later")
  /\ findall_entries 0 (lit "Missing: " ++ lit "2021-03-04 - Tooth 14, later")
     = (lit "2021-03-04", lit "14") :: findall_entries 0 (lit ", later").
Proof.
  assert (F : digit_free (lit "Missing: ")) by (repeat constructor).
  assert (E : entry_at (lit "2021-03-04 - Tooth 14, later") (lit "2021-03-04")
                (lit "14") (lit ", later")).
  { split; [reflexivity|]. split.
    - exists (lit "2021"), (lit "03"), (lit "04").
      split; [reflexivity|]. repeat split; repeat constructor.
    - split; [split; [now right | repeat constructor] | now left]. }
  split; [exact F|]. split; [exact E|].
  exact (@X20_entry_after_text_without_digits _ _ _ _ _ F E).
Defined.

(** ** Labels seen by the cross-validator and by the aggregator *)

Lemma contains_middle (p a b : str) : contains p (a ++ p ++ b) = true.
Proof.
  induction a as [|x a IH]; simpl app.
  - destruct (p ++ b) eqn:E; simpl; rewrite <- E, startswith_app; reflexivity.
  - cbn [contains]. rewrite IH. apply orb_true_r.
Qed.

Lemma search_tooth_here (s tooth : str) :
  tooth_here s = Some tooth -> search_tooth s = Some tooth.
Proof. intro H. destruct s; cbn [search_tooth]; now rewrite H. Qed.

(** X21. Every entry the aggregator accepts as [Tooth N side] is a label
    the cross-validator treats as a tooth-site column, with the same tooth
    number. *)
Theorem X21_aggregator_items_are_tooth_site_columns (item tooth side : str) :
  match_item item = Some (tooth, side) ->
  tooth_site_column item tooth /\ (side = lit "P" \/ side = lit "B").
Proof.
  intro H. pose proof (match_item_side _ H) as Hs. split; [|exact Hs].
  unfold match_item in H.
  destruct (expect (lit "Tooth ") item) as [r|] eqn:E; [|discriminate].
  apply expect_iff in E. subst item.
  assert (K : exists d c w,
             r = d ++ lit " " ++ c :: w /\ small_int d
             /\ tooth = d /\ side = [c]).
  { apply greedy_1_2_some in H. destruct H as (n & d & r' & Hn & T & Hk).
    apply take_digits_iff in T. destruct T as (-> & L & F).
    destruct (expect (lit " ") r') as [[|c w]|] eqn:X; try discriminate.
    apply expect_iff in X. subst r'.
    destruct (ascii_eqb c "P" || ascii_eqb c "B"); [|discriminate].
    injection Hk as <- <-. exists d, c, w.
    unfold small_int. repeat split; auto. destruct Hn; subst n; auto. }
  destruct K as (d & c & w & -> & Sd & -> & ->).
  unfold tooth_site_column. split; [reflexivity|]. split.
  - apply orb_true_iff. destruct Hs as [E|E]; injection E as ->; [left | right].
    + change (lit "Tooth " ++ d ++ lit " " ++ "P"%char :: w)
        with (lit "Tooth " ++ d ++ lit " P" ++ w).
      rewrite app_assoc. apply contains_middle.
    + change (lit "Tooth " ++ d ++ lit " " ++ "B"%char :: w)
        with (lit "Tooth " ++ d ++ lit " B" ++ w).
      rewrite app_assoc. apply contains_middle.
  - apply search_tooth_here. unfold tooth_here.
    assert (E : expect (lit "Tooth ") (lit "Tooth " ++ d ++ lit " " ++ c :: w)
                = Some (d ++ lit " " ++ c :: w)) by now apply expect_iff.
    rewrite E.
    apply (greedy_tooth (fun t : str => t)).
    exists d, (lit " " ++ c :: w). split; [reflexivity|]. split; [assumption|].
    split; [|reflexivity]. right. intros (x & y & Ex & Hx).
    injection Ex as <- _. vm_compute in Hx. discriminate Hx.
Qed.

Lemma X21_aggregator_items_witness :
  match_item (lit "Tooth 18 B") = Some (lit "18", lit "B")
  /\ tooth_site_column (lit "Tooth 18 B") (lit "18").
Proof.
  assert (H : match_item (lit "Tooth 18 B") = Some (lit "18", lit "B"))
    by (vm_compute; reflexivity).
  split; [exact H|].
  exact (proj1 (@X21_aggregator_items_are_tooth_site_columns _ _ _ H)).
Defined.

(** ** The summary report *)

Lemma lstrip_chars_suffix (a : str) :
  exists b, lstrip_chars (a ++ ["T"%char]) = b ++ ["T"%char].
Proof.
  induction a as [|c a (b & IH)]; simpl.
  - exists []. reflexivity.
  - destruct (in_comma_blank c); [eauto|]. exists (c :: a). reflexivity.
Qed.

Lemma strip_chars_starts (rest : str) :
  exists r, strip_chars ("T"%char :: rest) = "T"%char :: r.
Proof.
  unfold strip_chars. cbn [lstrip_chars in_comma_blank ascii_eqb].
  change (Ascii.eqb "T" "," || Ascii.eqb "T" " ") with false. cbv iota.
  simpl rev. destruct (lstrip_chars_suffix (rev rest)) as (b & ->).
  rewrite rev_app_distr. simpl. eauto.
Qed.

Lemma lstrip_keeps_T (a : str) : lstrip (a ++ ["T"%char]) <> [].
Proof.
  induction a as [|c a IH]; simpl; [discriminate|].
  destruct (is_space c); [exact IH | discriminate].
Qed.

Lemma strip_starts_T (r : str) : strip ("T"%char :: r) <> [].
Proof.
  unfold strip, rstrip. cbn [lstrip]. change (is_space "T") with false.
  cbv iota. intro H. apply (f_equal (@rev ascii)) in H.
  rewrite rev_involutive in H. simpl in H. exact (lstrip_keeps_T _ H).
Qed.

Lemma aggregate_column_blank (group : list (cell * cell)) :
  str_eqb (strip (aggregate_column group)) [] = true
  <-> forall tooth side, first_date group tooth side = None.
Proof.
  rewrite str_eqb_eq.
  pose proof (has_side_build group) as F.
  pose proof (sorted_perm (fun kv : str * dict str => fst kv)
                (build_tooth_dict group)) as P.
  assert (F' : Forall (fun kv => has_side (snd kv))
                 (sorted_items (build_tooth_dict group))).
  { rewrite Forall_forall in *. intros x Hx. apply F.
    now apply (Permutation_in _ P). }
  destruct (formatted_teeth_lines F') as [L T].
  assert (K : build_tooth_dict group = []
              <-> forall tooth side, first_date group tooth side = None).
  { split.
    - intros D tooth side. now rewrite <- build_tooth_dict_first_date, D.
    - intro H.
      destruct (build_tooth_dict group) as [|[k sides] d] eqn:D; [reflexivity|].
      exfalso. inversion F as [|? ? Hs _]; subst. simpl in Hs.
      unfold has_side, dict_mem in Hs.
      destruct Hs as [Hs|Hs];
        [specialize (H k (lit "P")) | specialize (H k (lit "B"))];
        rewrite <- build_tooth_dict_first_date, D in H;
        unfold recorded_date in H; simpl in H; rewrite str_eqb_refl in H;
        unfold lit in Hs; simpl in Hs; rewrite H in Hs; discriminate. }
  rewrite <- K. unfold aggregate_column. split.
  - intro E.
    destruct (flat_map format_tooth (sorted_items (build_tooth_dict group)))
      as [|x lines].
    + apply Permutation_length in P. fold (sorted_items (build_tooth_dict group)) in P.
      rewrite <- L in P.
      destruct (build_tooth_dict group); [reflexivity | discriminate P].
    + exfalso. inversion T as [|? ? (rest & ->) _]; subst.
      destruct (join_head (lit "<br>") ("T"%char :: rest) lines) as (w & J).
      rewrite J in E. simpl app in E.
      destruct (strip_chars_starts (rest ++ w)) as (r & S).
      rewrite S in E. exact (@strip_starts_T r E).
  - intro D. now rewrite D.
Qed.

(** X22. A patient is kept in the summary report exactly when, in one of
    the three columns not-recorded, other-issue and integer-format, some
    visit with a date names a tooth and side; the confirmed-missing column
    plays no part. *)
Theorem X22_summary_report_filter (group : list IssueRow) :
  in_summary_report (aggregate_issues group) = true
  <-> exists tooth side,
        first_date (column_of not_recorded_text group) tooth side <> None
        \/ first_date (column_of other_issue_text group) tooth side <> None
        \/ first_date (column_of integer_text group) tooth side <> None.
Proof.
  unfold in_summary_report, aggregate_issues. simpl.
  rewrite !orb_true_iff, !negb_true_iff.
  assert (N : forall g,
             str_eqb (strip (aggregate_column g)) [] = false
             <-> exists tooth side, first_date g tooth side <> None).
  { intro g. pose proof (aggregate_column_blank g) as B. split.
    - intro E.
      destruct (build_tooth_dict g) as [|[k sides] d] eqn:D.
      + assert (T : str_eqb (strip (aggregate_column g)) [] = true).
        { apply B. intros tooth side.
          now rewrite <- build_tooth_dict_first_date, D. }
        congruence.
      + pose proof (has_side_build g) as F. rewrite D in F.
        inversion F as [|? ? Hs _]; subst. simpl in Hs.
        unfold has_side, dict_mem in Hs.
        destruct Hs as [Hs|Hs]; [exists k, (lit "P") | exists k, (lit "B")];
          rewrite <- build_tooth_dict_first_date, D;
          unfold recorded_date; simpl; rewrite str_eqb_refl;
          unfold lit in Hs; simpl in Hs; intro Z; rewrite Z in Hs;
          discriminate.
    - intros (tooth & side & H).
      destruct (str_eqb (strip (aggregate_column g)) []) eqn:E; [|reflexivity].
      exfalso. apply H. now apply B. }
  rewrite !N. split.
  - intros [[(t & s & H)|(t & s & H)]|(t & s & H)]; exists t, s; auto.
  - intros (t & s & [H|[H|H]]); eauto.
Qed.

Lemma X22_summary_report_filter_witness :
  in_summary_report (aggregate_issues flagged_group) = true.
Proof.
  apply (proj2 (X22_summary_report_filter flagged_group)).
  exists (lit "15"), (lit "B"). left. vm_compute. discriminate.
Defined.

(** ** Chart dates written and read back *)

Lemma code_digit_char (n : nat) : code (digit_char n) = 48 + n mod 10.
Proof.
  unfold code, digit_char. apply nat_ascii_embedding.
  pose proof (Nat.mod_upper_bound n 10). lia.
Qed.

Lemma is_digit_digit_char (n : nat) : is_digit (digit_char n) = true.
Proof.
  unfold is_digit, between. rewrite code_digit_char.
  pose proof (Nat.mod_upper_bound n 10).
  apply andb_true_iff. split; apply Nat.leb_le; lia.
Qed.

Lemma digit_val_digit_char (n : nat) : digit_val (digit_char n) = n mod 10.
Proof. unfold digit_val. rewrite code_digit_char. lia. Qed.

(** The decimal digits of a number below 10000. *)
Lemma digits4 (n : nat) :
  n < 10 * 10 * 10 * 10 ->
  n = 10 * (10 * (10 * ((n / 1000) mod 10) + (n / 100) mod 10) + (n / 10) mod 10)
      + n mod 10.
Proof.
  intro H.
  assert (E1000 : n / 1000 = n / 10 / 10 / 10)
    by (rewrite !Nat.Div0.div_div; reflexivity).
  assert (E100 : n / 100 = n / 10 / 10)
    by (rewrite !Nat.Div0.div_div; reflexivity).
  rewrite E1000, E100.
  pose proof (Nat.div_mod_eq n 10) as D0.
  pose proof (Nat.div_mod_eq (n / 10) 10) as D1.
  pose proof (Nat.div_mod_eq (n / 10 / 10) 10) as D2.
  pose proof (Nat.div_mod_eq (n / 10 / 10 / 10) 10) as D3.
  assert (Z : n / 10 / 10 / 10 / 10 = 0).
  { rewrite !Nat.Div0.div_div. apply Nat.div_small. exact H. }
  rewrite Z in D3. lia.
Qed.

Lemma digits2 (n : nat) :
  n < 100 -> n = 10 * ((n / 10) mod 10) + n mod 10.
Proof.
  intro H. pose proof (Nat.div_mod_eq n 10) as D0.
  pose proof (Nat.div_mod_eq (n / 10) 10) as D1.
  assert (Z : n / 10 / 10 = 0).
  { rewrite Nat.Div0.div_div. apply Nat.div_small. exact H. }
  rewrite Z in D1. lia.
Qed.

Lemma int_of_pad4 (n : nat) : n < 10 * 10 * 10 * 10 -> int_of (pad4 n) = n.
Proof.
  intro H. unfold int_of, pad4. cbn [fold_left].
  rewrite !digit_val_digit_char. pose proof (digits4 H). lia.
Qed.

Lemma month_day_first_match_all :
  forallb (fun m => forallb (first_match_is m) (seq 1 31)) (seq 1 12) = true.
Proof. vm_compute. reflexivity. Qed.

Lemma month_day_first_match (m dd : nat) :
  1 <= m <= 12 -> 1 <= dd <= 31 ->
  exists tl, month_day_matches (pad2 m ++ lit "-" ++ pad2 dd) = (m, dd, []) :: tl.
Proof.
  intros Hm Hd. pose proof month_day_first_match_all as A.
  rewrite forallb_forall in A.
  assert (B : forallb (first_match_is m) (seq 1 31) = true)
    by (apply A, in_seq; lia).
  rewrite forallb_forall in B.
  assert (C : first_match_is m dd = true) by (apply B, in_seq; lia).
  unfold first_match_is in C.
  destruct (month_day_matches (pad2 m ++ lit "-" ++ pad2 dd))
    as [|[[m' d'] [|? ?]] tl]; try discriminate C.
  apply andb_true_iff in C. destruct C as [C1 C2].
  apply Nat.eqb_eq in C1, C2. subst. eauto.
Qed.

Lemma days_in_month_le (y m : nat) : days_in_month y m <= 31.
Proof.
  unfold days_in_month.
  do 12 (destruct m as [|m]; [try lia; destruct (is_leap y); lia|]). lia.
Qed.

(** X23. The chart date written by [main] with [strftime('%Y-%m-%d')] is
    read back by the [strptime] of [record_cells] as the same date: for a
    calendar date with a four-digit year the cross-validator does not
    raise. *)
Theorem X23_chart_date_round_trip (d : datetime) :
  calendar_date d ->
  strptime_ymd (strftime_ymd d) = Some d
  /\ parse_chart_date (Some (strftime_ymd d)) = Returned d.
Proof.
  intros (Hy & Hm & Hd).
  assert (R : strptime_ymd (strftime_ymd d) = Some d).
  { destruct d as [y m dd]. simpl in Hy, Hm, Hd.
    pose proof (days_in_month_le y m) as Le.
    assert (Y : y < 10 * 10 * 10 * 10) by lia.
    unfold strptime_ymd, strftime_ymd. cbn [year month day].
    assert (T : take_digits 4 (pad4 y ++ lit "-" ++ pad2 m ++ lit "-" ++ pad2 dd)
                = Some (pad4 y, lit "-" ++ pad2 m ++ lit "-" ++ pad2 dd)).
    { apply take_digits_iff. split; [reflexivity|]. split; [reflexivity|].
      unfold pad4. repeat constructor; apply is_digit_digit_char. }
    rewrite T.
    assert (E : expect (lit "-") (lit "-" ++ pad2 m ++ lit "-" ++ pad2 dd)
                = Some (pad2 m ++ lit "-" ++ pad2 dd)) by now apply expect_iff.
    rewrite E.
    fold (month_day_matches (pad2 m ++ lit "-" ++ pad2 dd)).
    destruct (@month_day_first_match m dd) as (tl & ->); [lia | lia|].
    rewrite (int_of_pad4 Y).
    replace (1 <=? y) with true by (symmetry; apply Nat.leb_le; lia).
    replace (1 <=? dd) with true by (symmetry; apply Nat.leb_le; lia).
    replace (dd <=? days_in_month y m) with true
      by (symmetry; apply Nat.leb_le; lia).
    reflexivity. }
  split; [exact R|]. unfold parse_chart_date, strptime. now rewrite R.
Qed.

Lemma X23_chart_date_round_trip_witness :
  calendar_date (mkDate 2021 3 4)
  /\ strptime_ymd (strftime_ymd (mkDate 2021 3 4)) = Some (mkDate 2021 3 4).
Proof.
  assert (C : calendar_date (mkDate 2021 3 4)).
  { unfold calendar_date. simpl. lia. }
  split; [exact C|].
  exact (proj1 (@X23_chart_date_round_trip _ C)).
Defined.

Lemma bool_eq_by_cases (a b : bool) : (a = true <-> b = true) -> a = b.
Proof. intro H. now apply eq_iff_eq_true. Qed.

Ltac bool_to_prop :=
  repeat first
    [ rewrite orb_true_iff | rewrite andb_true_iff | rewrite Nat.ltb_lt
    | rewrite Nat.eqb_eq | rewrite Nat.leb_le ].

Lemma str_ltb_pad4 (a b : nat) (r r' : str) :
  a < 10 * 10 * 10 * 10 -> b < 10 * 10 * 10 * 10 ->
  str_ltb (pad4 a ++ r) (pad4 b ++ r')
  = (a <? b) || ((a =? b) && str_ltb r r').
Proof.
  intros Ha Hb. unfold pad4. cbn [app str_ltb].
  rewrite !code_digit_char.
  pose proof (digits4 Ha) as Da. pose proof (digits4 Hb) as Db.
  pose proof (Nat.mod_upper_bound (a / 1000) 10).
  pose proof (Nat.mod_upper_bound (a / 100) 10).
  pose proof (Nat.mod_upper_bound (a / 10) 10).
  pose proof (Nat.mod_upper_bound a 10).
  pose proof (Nat.mod_upper_bound (b / 1000) 10).
  pose proof (Nat.mod_upper_bound (b / 100) 10).
  pose proof (Nat.mod_upper_bound (b / 10) 10).
  pose proof (Nat.mod_upper_bound b 10).
  revert Da Db.
  generalize dependent ((a / 1000) mod 10). intro a3.
  generalize dependent ((a / 100) mod 10). intro a2.
  generalize dependent ((a / 10) mod 10). intro a1.
  generalize dependent (a mod 10). intro a0.
  generalize dependent ((b / 1000) mod 10). intro b3.
  generalize dependent ((b / 100) mod 10). intro b2.
  generalize dependent ((b / 10) mod 10). intro b1.
  generalize dependent (b mod 10). intro b0.
  intros. destruct (str_ltb r r');
    rewrite ?andb_true_r, ?andb_false_r, ?orb_false_r;
    apply bool_eq_by_cases; bool_to_prop; lia.
Qed.

Lemma str_ltb_pad2 (a b : nat) (r r' : str) :
  a < 100 -> b < 100 ->
  str_ltb (pad2 a ++ r) (pad2 b ++ r')
  = (a <? b) || ((a =? b) && str_ltb r r').
Proof.
  intros Ha Hb. unfold pad2. cbn [app str_ltb].
  rewrite !code_digit_char.
  pose proof (digits2 Ha) as Da. pose proof (digits2 Hb) as Db.
  pose proof (Nat.mod_upper_bound (a / 10) 10).
  pose proof (Nat.mod_upper_bound a 10).
  pose proof (Nat.mod_upper_bound (b / 10) 10).
  pose proof (Nat.mod_upper_bound b 10).
  revert Da Db.
  generalize dependent ((a / 10) mod 10). intro a1.
  generalize dependent (a mod 10). intro a0.
  generalize dependent ((b / 10) mod 10). intro b1.
  generalize dependent (b mod 10). intro b0.
  intros. destruct (str_ltb r r');
    rewrite ?andb_true_r, ?andb_false_r, ?orb_false_r;
    apply bool_eq_by_cases; bool_to_prop; lia.
Qed.

Lemma str_ltb_dash (r r' : str) :
  str_ltb (lit "-" ++ r) (lit "-" ++ r') = str_ltb r r'.
Proof. reflexivity. Qed.

(** X24. Sorting the chart dates as [main] does, as texts written by
    [strftime('%Y-%m-%d')], is sorting them in time: for calendar dates with
    four-digit years the order of the texts is the order of the dates. *)
Theorem X24_written_dates_sort_chronologically (a b : datetime) :
  calendar_date a -> calendar_date b ->
  str_ltb (strftime_ymd a) (strftime_ymd b) = date_ltb a b.
Proof.
  intros (Hya & Hma & Hda) (Hyb & Hmb & Hdb).
  pose proof (days_in_month_le (year a) (month a)).
  pose proof (days_in_month_le (year b) (month b)).
  unfold strftime_ymd.
  rewrite str_ltb_pad4 by lia. rewrite str_ltb_dash.
  rewrite str_ltb_pad2 by lia. rewrite str_ltb_dash.
  rewrite <- (app_nil_r (pad2 (day a))), <- (app_nil_r (pad2 (day b))).
  rewrite str_ltb_pad2 by lia. cbn [str_ltb].
  unfold date_ltb, date_leb. apply bool_eq_by_cases.
  rewrite negb_true_iff, <- not_true_iff_false.
  rewrite ?andb_false_r, ?orb_false_r.
  bool_to_prop. lia.
Qed.

Lemma X24_written_dates_sort_witness :
  calendar_date (mkDate 2020 12 31) /\ calendar_date (mkDate 2021 1 1)
  /\ str_ltb (strftime_ymd (mkDate 2020 12 31)) (strftime_ymd (mkDate 2021 1 1))
     = date_ltb (mkDate 2020 12 31) (mkDate 2021 1 1).
Proof.
  assert (A : calendar_date (mkDate 2020 12 31))
    by (unfold calendar_date; simpl; lia).
  assert (B : calendar_date (mkDate 2021 1 1))
    by (unfold calendar_date; simpl; lia).
  split; [exact A|]. split; [exact B|].
  exact (@X24_written_dates_sort_chronologically _ _ A B).
Defined.

(** ** From the label sets to the aggregated dates *)

Lemma carries_written (s : list str) (date tooth side : str) :
  Forall comma_free s ->
  carries tooth side (date, written s) = existsb (item_names tooth side) s.
Proof.
  intro F. unfold carries. cbn [snd].
  destruct s as [|x s]; [reflexivity|].
  pose proof (sorted_perm (fun y : str => y) (x :: s)) as P.
  unfold written. rewrite split_join.
  - now apply existsb_perm.
  - rewrite Forall_forall in *. intros y Hy. apply F.
    now apply (Permutation_in _ P).
  - intro E. rewrite E in P. apply Permutation_nil in P. discriminate P.
Qed.

(** X25. End to end for one issue kind: when every visit carries the
    written form of a set of labels without commas, the date the aggregator
    keeps for a tooth and side is the date of the first visit whose set has
    a label naming that tooth and side. *)
Theorem X25_first_visit_with_label
    (visits : list (str * list str)) (tooth side : str) :
  Forall (fun v => Forall comma_free (snd v)) visits ->
  recorded_date (build_tooth_dict (written_rows visits)) tooth side
  = option_map fst
      (find (fun v => existsb (item_names tooth side) (snd v)) visits).
Proof.
  intro F. rewrite build_tooth_dict_first_date. unfold first_date, written_rows.
  induction F as [|[date s] visits Hs F IH]; [reflexivity|].
  cbn [map dropna find fst snd].
  simpl in Hs. rewrite (@carries_written s date tooth side Hs).
  destruct (existsb (item_names tooth side) s); [reflexivity | exact IH].
Qed.

Lemma X25_first_visit_with_label_witness :
  Forall (fun v => Forall comma_free (snd v)) labelled_visits
  /\ recorded_date (build_tooth_dict (written_rows labelled_visits))
       (lit "14") (lit "B")
     = option_map fst
         (find (fun v => existsb (item_names (lit "14") (lit "B")) (snd v))
            labelled_visits).
Proof.
  assert (F : Forall (fun v => Forall comma_free (snd v)) labelled_visits).
  { repeat constructor; intro H; vm_compute in H;
      repeat (destruct H as [H|H]; [discriminate H|]); exact H. }
  split; [exact F|].
  exact (@X25_first_visit_with_label labelled_visits (lit "14") (lit "B") F).
Defined.
